(** * The research-orchestration workflow and its counterfactual validator

    A shallow embedding of [app/validation/metrics.py],
    [app/validation/counterfactual.py], [app/orchestration/agents.py],
    [app/orchestration/state.py] and [app/orchestration/graph.py].

    Modelling conventions.
    - A Python [float] is a [pyfloat]: an exact rational, one of the two
      infinities, or NaN.  Decimal literals denote the rational they spell
      (0.2 is 1/5) and arithmetic is exact; rounding is not modelled.
    - A Python [int] is a [Z]; a [str] is a [string] of ASCII characters.
    - A [Dict[str, Any]] is a [gmap string value]; [value] is the dynamic
      type of the objects stored in the artifacts and the reports.
    - A raised exception is the [Raise] case of [result]; the error monad
      threads it through the callers.
    - The pause flag, the approval flag and the data tools are read from a
      [world], one snapshot per node execution. *)

From Stdlib Require Import QArith ZArith String Ascii List Bool Lia Lqa.
From stdpp Require Import gmap strings list fin_maps.
Import ListNotations.

#[local] Set Warnings "-register-all".
#[local] Open Scope Z_scope.

(** ** Python floats *)

Inductive pyfloat := Fin (q : Q) | PInf | NInf | NaN.

Definition Qlt_bool (a b : Q) : bool := negb (Qle_bool b a).

(** [a == b] on floats: NaN is equal to nothing, itself included. *)
Definition feq (a b : pyfloat) : bool :=
  match a, b with
  | Fin x, Fin y => Qeq_bool x y
  | PInf, PInf => true
  | NInf, NInf => true
  | _, _ => false
  end.

(** [a < b] on floats: every comparison with NaN is false. *)
Definition flt (a b : pyfloat) : bool :=
  match a, b with
  | Fin x, Fin y => Qlt_bool x y
  | Fin _, PInf => true
  | NInf, Fin _ => true
  | NInf, PInf => true
  | _, _ => false
  end.

Definition fgt (a b : pyfloat) : bool := flt b a.

Definition fadd (a b : pyfloat) : pyfloat :=
  match a, b with
  | NaN, _ | _, NaN => NaN
  | Fin x, Fin y => Fin (x + y)
  | PInf, NInf | NInf, PInf => NaN
  | PInf, _ | _, PInf => PInf
  | NInf, _ | _, NInf => NInf
  end.

Definition fneg (a : pyfloat) : pyfloat :=
  match a with
  | Fin x => Fin (- x)
  | PInf => NInf
  | NInf => PInf
  | NaN => NaN
  end.

(** Division of a float by a positive count (the divisor of a mean). *)
Definition fdiv_count (a : pyfloat) (n : nat) : pyfloat :=
  match a with
  | Fin x => Fin (x / inject_Z (Z.of_nat n))
  | other => other
  end.

(** [np.sign]: -1, 0 or 1, and NaN for NaN. *)
Definition np_sign (a : pyfloat) : pyfloat :=
  match a with
  | Fin x => if Qlt_bool x 0 then Fin (-1) else if Qlt_bool 0 x then Fin 1 else Fin 0
  | PInf => Fin 1
  | NInf => Fin (-1)
  | NaN => NaN
  end.

(** ** Exceptions *)

Inductive exn :=
| RuntimeError (msg : string)
| ToolSafetyError (msg : string)
| ValueError (msg : string)
| TypeError (msg : string)
| AttributeError (msg : string)
| KeyError (key : string).

Inductive result (A : Type) :=
| Ok (a : A)
| Raise (e : exn).
Arguments Ok {A} a.
Arguments Raise {A} e.

#[global] Instance result_ret : MRet result := fun A a => Ok a.

#[global] Instance result_bind : MBind result := fun A B k r =>
  match r with
  | Ok a => k a
  | Raise e => Raise e
  end.

(** ** Dynamically typed values *)

Inductive value :=
| VNone
| VBool (b : bool)
| VInt (z : Z)
| VFloat (x : pyfloat)
| VStr (s : string)
| VList (l : list value)
| VDict (d : gmap string value).

(** [d.get(key, default)] *)
Definition dict_get (d : gmap string value) (key : string) (default : value) : value :=
  match d !! key with
  | Some v => v
  | None => default
  end.

(** [d[key]] *)
Definition dict_item {A} (d : gmap string A) (key : string) : result A :=
  match d !! key with
  | Some v => Ok v
  | None => Raise (KeyError key)
  end.

(** Truth value of an object, as [if v:] and [bool(v)] take it. *)
Definition truthy (v : value) : bool :=
  match v with
  | VNone => false
  | VBool b => b
  | VInt z => negb (Z.eqb z 0)
  | VFloat (Fin q) => negb (Qeq_bool q 0)
  | VFloat _ => true
  | VStr s => negb (String.eqb s "")
  | VList l => match l with [] => false | _ => true end
  | VDict d => negb (bool_decide (d = ∅))
  end.

Definition is_str (v : value) (s : string) : bool :=
  match v with
  | VStr t => String.eqb t s
  | _ => false
  end.

(** Truth value of an [Optional[str]]: [None] and the empty string are false. *)
Definition truthy_opt (o : option string) : bool :=
  match o with
  | Some s => negb (String.eqb s "")
  | None => false
  end.

(** ** Strings *)

Definition newline : string := String "010"%char EmptyString.

(** [sep.join(parts)] *)
Fixpoint join (sep : string) (parts : list string) : string :=
  match parts with
  | [] => EmptyString
  | [p] => p
  | p :: rest => p +:+ sep +:+ join sep rest
  end.

(** [needle in hay] on strings *)
Fixpoint str_contains (needle hay : string) : bool :=
  String.prefix needle hay ||
  match hay with
  | EmptyString => false
  | String _ rest => str_contains needle rest
  end.

Definition ascii_lower (c : ascii) : ascii :=
  let n := nat_of_ascii c in
  if (Nat.leb 65 n && Nat.leb n 90)%bool then ascii_of_nat (n + 32) else c.

(** [s.lower()] *)
Fixpoint py_lower (s : string) : string :=
  match s with
  | EmptyString => EmptyString
  | String c rest => String (ascii_lower c) (py_lower rest)
  end.

(** The ASCII characters [str.strip()] removes. *)
Definition is_space (c : ascii) : bool :=
  let n := nat_of_ascii c in
  ((Nat.leb 9 n && Nat.leb n 13) || (Nat.leb 28 n && Nat.leb n 32))%bool.

Fixpoint lstrip_chars (l : list ascii) : list ascii :=
  match l with
  | c :: rest => if is_space c then lstrip_chars rest else l
  | [] => []
  end.

(** [s.strip()] *)
Definition py_strip (s : string) : string :=
  string_of_list_ascii
    (rev (lstrip_chars (rev (lstrip_chars (list_ascii_of_string s))))).

(** ** The library functions the program calls

    numpy's generator and conversions and Python's float formatting and
    parsing are taken as they are: an abstract stream of draws and abstract
    conversions.  The argument checks numpy makes before it draws are
    written out below ([default_rng], [rng_normal], [rng_integers]). *)

Class Runtime := {
  (** state of a [numpy.random.Generator] *)
  rng : Type;
  (** the generator [default_rng(seed)] builds from a non-negative seed *)
  seed_state : Z -> rng;
  (** one sample of [normal(0.0, std)] *)
  draw_normal : rng -> pyfloat -> pyfloat * rng;
  (** one sample of [integers(low, high)] with [low < high] *)
  draw_integer : rng -> Z -> Z -> Z * rng;
  (** [str(x)] of a float, as an f-string formats it *)
  float_repr : pyfloat -> string;
  (** [float(s)] of a string; [None] when it raises *)
  float_of_string : string -> option pyfloat;
  (** [np.asarray(v, dtype=float)] of what is not a flat list of numbers *)
  asarray_float_other : value -> result (list pyfloat);
  (** [np.asarray(v, dtype=int)] of what is not a flat list of integers *)
  asarray_int_other : value -> result (list Z);
}.

Section Library.
Context `{Runtime}.

Definition default_rng (seed : Z) : result rng :=
  if Z.ltb seed 0 then Raise (ValueError "expected non-negative integer")
  else Ok (seed_state seed).

(** [n] successive samples of [normal(0.0, std)] *)
Fixpoint draw_normals (n : nat) (g : rng) (std : pyfloat) : list pyfloat * rng :=
  match n with
  | O => ([], g)
  | S m =>
      let '(x, g1) := draw_normal g std in
      let '(xs, g2) := draw_normals m g1 std in
      (x :: xs, g2)
  end.

(** [rng.normal(0.0, std, size=n)] *)
Definition rng_normal (g : rng) (std : pyfloat) (n : nat) : result (list pyfloat * rng) :=
  if flt std (Fin 0) then Raise (ValueError "scale < 0")
  else Ok (draw_normals n g std).

(** [rng.integers(low, high)] *)
Definition rng_integers (g : rng) (low high : Z) : result (Z * rng) :=
  if Z.leb high low then Raise (ValueError "low >= high")
  else Ok (draw_integer g low high).

Definition scalar_float (v : value) : option pyfloat :=
  match v with
  | VBool b => Some (Fin (if b then 1 else 0))
  | VInt z => Some (Fin (inject_Z z))
  | VFloat x => Some x
  | _ => None
  end.

Definition scalar_int (v : value) : option Z :=
  match v with
  | VBool b => Some (if b then 1 else 0)
  | VInt z => Some z
  | _ => None
  end.

(** [np.asarray(values, dtype=float)], a vector as the list of its elements *)
Definition _to_array (values : value) : result (list pyfloat) :=
  match values with
  | VList l =>
      match mapM scalar_float l with
      | Some xs => Ok xs
      | None => asarray_float_other values
      end
  | _ => asarray_float_other values
  end.

(** [np.asarray(values, dtype=int)] *)
Definition _to_int_array (values : value) : result (list Z) :=
  match values with
  | VList l =>
      match mapM scalar_int l with
      | Some xs => Ok xs
      | None => asarray_int_other values
      end
  | _ => asarray_int_other values
  end.

(** [float(v)] *)
Definition py_float (v : value) : result pyfloat :=
  match v with
  | VBool b => Ok (Fin (if b then 1 else 0))
  | VInt z => Ok (Fin (inject_Z z))
  | VFloat x => Ok x
  | VStr s =>
      match float_of_string s with
      | Some x => Ok x
      | None => Raise (ValueError "could not convert string to float")
      end
  | _ => Raise (TypeError "float() argument must be a string or a real number")
  end.

End Library.

(** ** app/validation/metrics.py *)

Module Metrics.

(** [float(np.mean(a == b))] for two vectors of one size: the share of the
    positions where they are equal; [nan] for vectors of size 0. *)
Definition np_equal (a b : list pyfloat) : list bool := zip_with feq a b.

Fixpoint count_true (bs : list bool) : nat :=
  match bs with
  | [] => 0%nat
  | b :: rest => ((if b then 1 else 0) + count_true rest)%nat
  end.

Definition np_mean_bool (bs : list bool) : pyfloat :=
  match bs with
  | [] => NaN
  | _ => Fin (inject_Z (Z.of_nat (count_true bs)) / inject_Z (Z.of_nat (length bs)))
  end.

(** [float(np.mean(xs))] for a list of floats *)
Definition np_mean (xs : list pyfloat) : pyfloat :=
  match xs with
  | [] => NaN
  | _ => fdiv_count (fold_left fadd xs (Fin 0)) (length xs)
  end.

(** One turn of the loop over the counterfactual predictions. *)
Definition pc_step (baseline baseline_sign : list pyfloat)
    (matches : list pyfloat) (cf : list pyfloat) : list pyfloat :=
  if negb (Nat.eqb (length cf) (length baseline)) then matches ++ [Fin 0]
  else
    let cf_sign := map np_sign cf in
    matches ++ [np_mean_bool (np_equal cf_sign baseline_sign)].

Definition prediction_consistency
    (baseline : list pyfloat) (counterfactual_predictions : list (list pyfloat)) : pyfloat :=
  if (Nat.eqb (length baseline) 0 ||
      match counterfactual_predictions with [] => true | _ => false end)%bool
  then Fin 0
  else
    let baseline_sign := map np_sign baseline in
    let matches := fold_left (pc_step baseline baseline_sign) counterfactual_predictions [] in
    np_mean matches.

Definition build_consistency_report
    (baseline : list pyfloat) (counterfactual_predictions : list (list pyfloat))
    : gmap string value :=
  let pc := prediction_consistency baseline counterfactual_predictions in
  {[ "prediction_consistency" := VFloat pc ]}.

(** The report the specification describes for a missing signal: score 0.0,
    flagged, and a reason. *)
Definition conservative_report (report : gmap string value) : Prop :=
  report !! "prediction_consistency" = Some (VFloat (Fin 0)) /\
  report !! "flagged" = Some (VBool true) /\
  exists reason, report !! "reason" = Some reason /\ reason <> VNone.

(** *** The scorer as the specification words it

    Per scenario, the fraction of the baseline's elements whose sign matches
    the scenario's element at the same position, 0 for a scenario of another
    length; the score is the arithmetic mean of the fractions. *)

Definition sign_matches (x y : pyfloat) : bool := feq (np_sign x) (np_sign y).

Fixpoint matching_positions (cf baseline : list pyfloat) : nat :=
  match cf, baseline with
  | x :: cf', y :: baseline' =>
      (if sign_matches x y then 1 else 0)%nat + matching_positions cf' baseline'
  | _, _ => 0%nat
  end.

Definition match_fraction (baseline cf : list pyfloat) : Q :=
  if Nat.eqb (length cf) (length baseline)
  then inject_Z (Z.of_nat (matching_positions cf baseline)) / inject_Z (Z.of_nat (length baseline))
  else 0.

Fixpoint Qsum (qs : list Q) : Q :=
  match qs with
  | [] => 0
  | q :: rest => q + Qsum rest
  end.

Definition mean_match_fraction (baseline : list pyfloat) (cfs : list (list pyfloat)) : Q :=
  Qsum (map (match_fraction baseline) cfs) / inject_Z (Z.of_nat (length cfs)).

(** A scenario's sign vector equals the baseline's, element by element. *)
Definition signs_agree (baseline cf : list pyfloat) : Prop :=
  length cf = length baseline /\
  forall i x y, cf !! i = Some x -> baseline !! i = Some y -> sign_matches x y = true.

End Metrics.

(** ** app/validation/counterfactual.py *)

Module Counterfactual.

Record CounterfactualConfig := {
  scenarios : Z;
  price_noise_std : pyfloat;
  earnings_shift_days : Z;
}.

(** [CounterfactualConfig()] *)
Definition default_config : CounterfactualConfig :=
  {| scenarios := 50; price_noise_std := Fin 0.01; earnings_shift_days := 3 |}.

(** The dictionary a scenario is: its four keys are fixed by the literal
    that builds it. *)
Record scenario := {
  prices : list pyfloat;
  earnings_dates : list Z;
  sentiment : list pyfloat;
  scenario_id : Z;
}.

Definition _shift_earnings_dates (dates : list Z) (shift : Z) : list Z :=
  map (fun d => d + shift) dates.

(** [range(n)] *)
Definition py_range (n : Z) : list Z := map Z.of_nat (seq 0 (Z.to_nat n)).

Section Generator.
Context `{Runtime}.

(** The body of the loop: the generator and the list built so far go in
    and come out. *)
Definition cf_step (config : CounterfactualConfig)
    (prices0 : list pyfloat) (earnings : list Z) (sentiment0 : list pyfloat)
    (acc : result (rng * list scenario)) (i : Z) : result (rng * list scenario) :=
  '(g, counterfactuals) ← acc;
  '(noise, g1) ← rng_normal g (price_noise_std config) (length prices0);
  let price_cf := zip_with fadd prices0 noise in
  '(shift, g2) ← rng_integers g1 (- earnings_shift_days config) (earnings_shift_days config + 1);
  let earnings_cf := _shift_earnings_dates earnings shift in
  let sentiment_cf := map fneg sentiment0 in
  Ok (g2, counterfactuals ++
          [{| prices := price_cf; earnings_dates := earnings_cf;
              sentiment := sentiment_cf; scenario_id := i |}]).

Definition generate_counterfactuals (dataset : gmap string value)
    (config : CounterfactualConfig) (seed : Z) : result (list scenario) :=
  g ← default_rng seed;
  prices0 ← _to_array (dict_get dataset "prices" (VList []));
  earnings ← _to_int_array (dict_get dataset "earnings_dates" (VList []));
  sentiment0 ← _to_array (dict_get dataset "sentiment" (VList []));
  '(_, counterfactuals) ←
    fold_left (cf_step config prices0 earnings sentiment0)
              (py_range (scenarios config)) (Ok (g, []));
  Ok counterfactuals.

(** *** The generator as the specification words it

    The stream of draws: scenario [i] takes its noise from the generator the
    scenarios before it left, then its shift from the generator the noise
    left. *)
Fixpoint rng_before (config : CounterfactualConfig) (n_prices : nat) (g0 : rng) (i : nat) : rng :=
  match i with
  | O => g0
  | S j =>
      let g := rng_before config n_prices g0 j in
      let g1 := snd (draw_normals n_prices g (price_noise_std config)) in
      snd (draw_integer g1 (- earnings_shift_days config) (earnings_shift_days config + 1))
  end.

Definition scenario_at (config : CounterfactualConfig)
    (prices0 : list pyfloat) (earnings : list Z) (sentiment0 : list pyfloat)
    (g0 : rng) (i : nat) : scenario :=
  let g := rng_before config (length prices0) g0 i in
  let '(noise, g1) := draw_normals (length prices0) g (price_noise_std config) in
  let '(shift, _) := draw_integer g1 (- earnings_shift_days config) (earnings_shift_days config + 1) in
  {| prices := zip_with fadd prices0 noise;
     earnings_dates := map (fun d => d + shift) earnings;
     sentiment := map fneg sentiment0;
     scenario_id := Z.of_nat i |}.

(** The configurations numpy accepts: a scale that is not negative and a
    non-empty range of shifts. *)
Definition valid_config (config : CounterfactualConfig) : Prop :=
  flt (price_noise_std config) (Fin 0) = false /\ 0 <= earnings_shift_days config.

End Generator.

End Counterfactual.

(** ** The outside world

    What a node reads when it runs: whether the pause flag file exists, the
    text of the approval flag file ([None] when there is none), and the
    three data tools of [tools.py], which go to the network and to pandas. *)

Record world := {
  pause_flag_exists : bool;
  approval_flag : option string;
  fetch_market_data : gmap string value -> result (gmap string value);
  clean_data : gmap string value -> result (gmap string value);
  run_analysis : gmap string value -> result (gmap string value);
}.

(** The three data tools of a world answer every call. *)
Definition tools_answer (w : world) : Prop :=
  (forall params, exists r, fetch_market_data w params = Ok r) /\
  (forall raw, exists r, clean_data w raw = Ok r) /\
  (forall cleaned, exists r, run_analysis w cleaned = Ok r).

(** ** app/orchestration/tools.py: the compliance checks *)

Module Tools.

(** [restricted = set()]: no symbol is restricted. *)
Definition restricted : list string := [].

Definition check_restricted_symbols (symbols : list string) : gmap string value :=
  let violations := filter (fun s => s ∈ restricted) symbols in
  {[ "checked_symbols" := VList (map VStr symbols);
     "restricted" := VList (map VStr restricted);
     "violations" := VList (map VStr violations);
     "status" := VStr (match violations with [] => "pass" | _ => "fail" end) ]}.

Definition check_wash_sale_patterns (trades : list (gmap string value)) : gmap string value :=
  {[ "checked_trades" := VList (map VDict trades);
     "status" := VStr (match trades with [] => "pass" | _ => "fail" end);
     "note" := VStr "Research-only system should not include trade data." ]}.

End Tools.

(** ** app/orchestration/agents.py *)

Record AgentConfig := {
  name : string;
  system_prompt : string;
  allowed_tools : list string;
  temperature : pyfloat;
}.

(** [BaseAgent.validate_tool_access] *)
Definition validate_tool_access (config : AgentConfig) (tool_name : string) : result unit :=
  if bool_decide (tool_name ∈ allowed_tools config) then Ok tt
  else Raise (ToolSafetyError
    ("Tool '" +:+ tool_name +:+ "' not allowed for agent " +:+ name config +:+ ".")).

Module PlannerAgent.

Definition plan (hypothesis : string) : list string :=
  [ "Restate hypothesis: " +:+ hypothesis;
    "Identify required datasets and constraints";
    "Outline feature engineering steps";
    "Define evaluation protocol and bias checks" ].

End PlannerAgent.

Module ExecutorAgent.

Definition code_snippet : string :=
  join newline
    [ "import pandas as pd";
      "import yfinance as yf";
      "";
      "def run_research(symbol: str, start: str, end: str) -> pd.DataFrame:";
      "    data = yf.download(symbol, start=start, end=end)";
      "    data['rsi'] = compute_rsi(data['Close'])";
      "    # TODO: integrate news sentiment safely via approved source";
      "    return data";
      "";
      "def compute_rsi(series: pd.Series, period: int = 14) -> pd.Series:";
      "    delta = series.diff()";
      "    gain = delta.clip(lower=0)";
      "    loss = -delta.clip(upper=0)";
      "    avg_gain = gain.rolling(period).mean()";
      "    avg_loss = loss.rolling(period).mean()";
      "    rs = avg_gain / avg_loss";
      "    return 100 - (100 / (1 + rs))" ].

Definition market_request : gmap string value :=
  {[ "symbol" := VStr "AAPL"; "start" := VStr "2022-01-01"; "end" := VStr "2022-12-31" ]}.

Definition execute (config : AgentConfig) (w : world) (plan : list string)
    : result (gmap string value) :=
  let artifacts : gmap string value := {[ "plan" := VList (map VStr plan) ]} in
  let artifacts := <["code_snippet" := VStr code_snippet]> artifacts in
  let artifacts := <["market_data_request" := VDict market_request]> artifacts in
  _ ← validate_tool_access config "fetch_market_data";
  market_data ← fetch_market_data w market_request;
  _ ← validate_tool_access config "clean_data";
  cleaned ← clean_data w market_data;
  _ ← validate_tool_access config "run_analysis";
  analysis ← run_analysis w cleaned;
  let artifacts :=
    <["market_data" := VDict (<["signals" := dict_get analysis "signals" (VList [])]> market_data)]>
      artifacts in
  let artifacts := <["analysis" := dict_get analysis "analysis" (VDict ∅)]> artifacts in
  let artifacts := <["risk_metrics" := dict_get analysis "risk_metrics" (VDict ∅)]> artifacts in
  Ok artifacts.

End ExecutorAgent.

Module CriticAgent.

(** ["shift(-" in code_snippet or "future" in code_snippet.lower()]: on a
    string a substring test; on a list or a dictionary [in] is membership
    and [.lower()] is missing; other objects are not iterable. *)
Definition look_ahead_pattern (code_snippet : value) : result bool :=
  match code_snippet with
  | VStr s => Ok (str_contains "shift(-" s || str_contains "future" (py_lower s))
  | VList l =>
      if existsb (fun v => is_str v "shift(-") l then Ok true
      else Raise (AttributeError "'list' object has no attribute 'lower'")
  | VDict d =>
      if bool_decide (is_Some (d !! "shift(-")) then Ok true
      else Raise (AttributeError "'dict' object has no attribute 'lower'")
  | _ => Raise (TypeError "argument is not iterable")
  end.

Definition evaluate (artifacts : gmap string value) : result (gmap string value) :=
  let code_snippet := dict_get artifacts "code_snippet" (VStr "") in
  found ← look_ahead_pattern code_snippet;
  let look_ahead_risk : string := if (found : bool) then "high" else "low" in
  let critique_score := if String.eqb look_ahead_risk "low" then Fin 0.9 else Fin 0.4 in
  let veto := flt critique_score (Fin 0.8) in
  Ok ({[ "look_ahead_bias" := VStr look_ahead_risk;
         "overfitting" := VStr "unknown";
         "leakage" := VStr "unknown";
         "reproducibility" := VStr "unknown";
         "veto" := VBool veto;
         "confidence" := VFloat critique_score;
         "critique_score" := VFloat critique_score;
         "notes" := VStr "Heuristic review completed." ]} : gmap string value).

End CriticAgent.

Module ComplianceOfficerAgent.

Definition review (config : AgentConfig)
    (symbols : list string) (trades : list (gmap string value)) : result (gmap string value) :=
  _ ← validate_tool_access config "check_restricted_symbols";
  let symbol_report := Tools.check_restricted_symbols symbols in
  _ ← validate_tool_access config "check_wash_sale_patterns";
  let wash_report := Tools.check_wash_sale_patterns trades in
  symbol_status ← dict_item symbol_report "status";
  wash_status ← dict_item wash_report "status";
  let status : string :=
    if is_str symbol_status "pass" && is_str wash_status "pass" then "pass" else "fail" in
  Ok ({[ "symbol_report" := VDict symbol_report;
         "wash_sale_report" := VDict wash_report;
         "status" := VStr status ]} : gmap string value).

End ComplianceOfficerAgent.

Module RiskManagerAgent.

(** [obj.get(key, default)] on an object read from a dictionary: only a
    dictionary has the method. *)
Definition object_get (obj : value) (key : string) (default : value) : result value :=
  match obj with
  | VDict d => Ok (dict_get d key default)
  | _ => Raise (AttributeError "object has no attribute 'get'")
  end.

Definition limits : gmap string pyfloat :=
  {[ "max_drawdown" := Fin 0.2; "exposure" := Fin 1 ]}.

(** The metrics that exceed their limits, by name. *)
Definition breaches (max_drawdown exposure : pyfloat) : list string :=
  (if fgt max_drawdown (Fin 0.2) then ["max_drawdown"] else []) ++
  (if fgt exposure (Fin 1) then ["exposure"] else []).

Section Evaluate.
Context `{Runtime}.

(** The metric [evaluate] reads under [key]: 0.0 stands in for a missing
    [risk_metrics] entry and for a missing key. *)
Definition read_metric (artifacts : gmap string value) (key : string) : result pyfloat :=
  v ← object_get (dict_get artifacts "risk_metrics" (VDict ∅)) key (VFloat (Fin 0));
  py_float v.

Definition evaluate (artifacts : gmap string value) : result (gmap string value) :=
  let risk_metrics := dict_get artifacts "risk_metrics" (VDict ∅) in
  md ← object_get risk_metrics "max_drawdown" (VFloat (Fin 0));
  max_drawdown ← py_float md;
  ex ← object_get risk_metrics "exposure" (VFloat (Fin 0));
  exposure ← py_float ex;
  let violations : list string := [] in
  max_drawdown_limit ← dict_item limits "max_drawdown";
  let violations :=
    if fgt max_drawdown max_drawdown_limit then violations ++ ["max_drawdown"] else violations in
  exposure_limit ← dict_item limits "exposure";
  let violations :=
    if fgt exposure exposure_limit then violations ++ ["exposure"] else violations in
  let status : string := match violations with [] => "pass" | _ => "fail" end in
  Ok ({[ "status" := VStr status;
         "violations" := VList (map VStr violations);
         "metrics" := VDict {[ "max_drawdown" := VFloat max_drawdown;
                               "exposure" := VFloat exposure ]};
         "limits" := VDict (VFloat <$> limits) ]} : gmap string value).

End Evaluate.

(** The report for two metrics: the status, the violated metrics by name,
    the metrics and the limits. *)
Definition risk_report_of (max_drawdown exposure : pyfloat) : gmap string value :=
  {[ "status" := VStr (match breaches max_drawdown exposure with [] => "pass" | _ => "fail" end);
     "violations" := VList (map VStr (breaches max_drawdown exposure));
     "metrics" := VDict {[ "max_drawdown" := VFloat max_drawdown;
                           "exposure" := VFloat exposure ]};
     "limits" := VDict (VFloat <$> limits) ]}.

End RiskManagerAgent.

Definition PLANNER : AgentConfig :=
  {| name := "Planner";
     system_prompt := "You decompose hypotheses into research steps. No data access.";
     allowed_tools := [];
     temperature := Fin 0.2 |}.

Definition EXECUTOR : AgentConfig :=
  {| name := "Executor";
     system_prompt := "You fetch and clean data, and run analysis only. No evaluation or trading.";
     allowed_tools := ["clean_data"; "run_analysis"; "fetch_market_data"];
     temperature := Fin 0.2 |}.

Definition CRITIC : AgentConfig :=
  {| name := "Critic";
     system_prompt := "You evaluate for bias, leakage, and reproducibility. You can veto.";
     allowed_tools := [];
     temperature := Fin 0.1 |}.

Definition COMPLIANCE : AgentConfig :=
  {| name := "ComplianceOfficer";
     system_prompt := "You check restricted symbols and wash-sale patterns. No modifications allowed.";
     allowed_tools := ["check_restricted_symbols"; "check_wash_sale_patterns"];
     temperature := Fin 0.1 |}.

Definition RISK_MANAGER : AgentConfig :=
  {| name := "RiskManager";
     system_prompt := "You enforce max drawdown and exposure limits.";
     allowed_tools := [];
     temperature := Fin 0.1 |}.

(** ** app/orchestration/state.py *)

Record GraphState := {
  hypothesis : string;
  messages : list (gmap string string);
  market_data : value;
  code_snippet : value;
  critique_score : pyfloat;
  human_approval : bool;
  awaiting_approval : bool;
  plan : list string;
  executor_artifacts : gmap string value;
  critic_report : gmap string value;
  compliance_report : gmap string value;
  risk_report : gmap string value;
  retry_count : Z;
  max_retries : Z;
  pause_requested : bool;
  confidence : pyfloat;
  logs : list string;
  failure_reason : option string;
  active_node : string;
}.

(** Assignment to one attribute of the state. *)
Definition set_messages (v : list (gmap string string)) (st : GraphState) : GraphState :=
  {| hypothesis := hypothesis st;
     messages := v;
     market_data := market_data st;
     code_snippet := code_snippet st;
     critique_score := critique_score st;
     human_approval := human_approval st;
     awaiting_approval := awaiting_approval st;
     plan := plan st;
     executor_artifacts := executor_artifacts st;
     critic_report := critic_report st;
     compliance_report := compliance_report st;
     risk_report := risk_report st;
     retry_count := retry_count st;
     max_retries := max_retries st;
     pause_requested := pause_requested st;
     confidence := confidence st;
     logs := logs st;
     failure_reason := failure_reason st;
     active_node := active_node st |}.

Definition set_market_data (v : value) (st : GraphState) : GraphState :=
  {| hypothesis := hypothesis st;
     messages := messages st;
     market_data := v;
     code_snippet := code_snippet st;
     critique_score := critique_score st;
     human_approval := human_approval st;
     awaiting_approval := awaiting_approval st;
     plan := plan st;
     executor_artifacts := executor_artifacts st;
     critic_report := critic_report st;
     compliance_report := compliance_report st;
     risk_report := risk_report st;
     retry_count := retry_count st;
     max_retries := max_retries st;
     pause_requested := pause_requested st;
     confidence := confidence st;
     logs := logs st;
     failure_reason := failure_reason st;
     active_node := active_node st |}.

Definition set_code_snippet (v : value) (st : GraphState) : GraphState :=
  {| hypothesis := hypothesis st;
     messages := messages st;
     market_data := market_data st;
     code_snippet := v;
     critique_score := critique_score st;
     human_approval := human_approval st;
     awaiting_approval := awaiting_approval st;
     plan := plan st;
     executor_artifacts := executor_artifacts st;
     critic_report := critic_report st;
     compliance_report := compliance_report st;
     risk_report := risk_report st;
     retry_count := retry_count st;
     max_retries := max_retries st;
     pause_requested := pause_requested st;
     confidence := confidence st;
     logs := logs st;
     failure_reason := failure_reason st;
     active_node := active_node st |}.

Definition set_critique_score (v : pyfloat) (st : GraphState) : GraphState :=
  {| hypothesis := hypothesis st;
     messages := messages st;
     market_data := market_data st;
     code_snippet := code_snippet st;
     critique_score := v;
     human_approval := human_approval st;
     awaiting_approval := awaiting_approval st;
     plan := plan st;
     executor_artifacts := executor_artifacts st;
     critic_report := critic_report st;
     compliance_report := compliance_report st;
     risk_report := risk_report st;
     retry_count := retry_count st;
     max_retries := max_retries st;
     pause_requested := pause_requested st;
     confidence := confidence st;
     logs := logs st;
     failure_reason := failure_reason st;
     active_node := active_node st |}.

Definition set_human_approval (v : bool) (st : GraphState) : GraphState :=
  {| hypothesis := hypothesis st;
     messages := messages st;
     market_data := market_data st;
     code_snippet := code_snippet st;
     critique_score := critique_score st;
     human_approval := v;
     awaiting_approval := awaiting_approval st;
     plan := plan st;
     executor_artifacts := executor_artifacts st;
     critic_report := critic_report st;
     compliance_report := compliance_report st;
     risk_report := risk_report st;
     retry_count := retry_count st;
     max_retries := max_retries st;
     pause_requested := pause_requested st;
     confidence := confidence st;
     logs := logs st;
     failure_reason := failure_reason st;
     active_node := active_node st |}.

Definition set_awaiting_approval (v : bool) (st : GraphState) : GraphState :=
  {| hypothesis := hypothesis st;
     messages := messages st;
     market_data := market_data st;
     code_snippet := code_snippet st;
     critique_score := critique_score st;
     human_approval := human_approval st;
     awaiting_approval := v;
     plan := plan st;
     executor_artifacts := executor_artifacts st;
     critic_report := critic_report st;
     compliance_report := compliance_report st;
     risk_report := risk_report st;
     retry_count := retry_count st;
     max_retries := max_retries st;
     pause_requested := pause_requested st;
     confidence := confidence st;
     logs := logs st;
     failure_reason := failure_reason st;
     active_node := active_node st |}.

Definition set_plan (v : list string) (st : GraphState) : GraphState :=
  {| hypothesis := hypothesis st;
     messages := messages st;
     market_data := market_data st;
     code_snippet := code_snippet st;
     critique_score := critique_score st;
     human_approval := human_approval st;
     awaiting_approval := awaiting_approval st;
     plan := v;
     executor_artifacts := executor_artifacts st;
     critic_report := critic_report st;
     compliance_report := compliance_report st;
     risk_report := risk_report st;
     retry_count := retry_count st;
     max_retries := max_retries st;
     pause_requested := pause_requested st;
     confidence := confidence st;
     logs := logs st;
     failure_reason := failure_reason st;
     active_node := active_node st |}.

Definition set_executor_artifacts (v : gmap string value) (st : GraphState) : GraphState :=
  {| hypothesis := hypothesis st;
     messages := messages st;
     market_data := market_data st;
     code_snippet := code_snippet st;
     critique_score := critique_score st;
     human_approval := human_approval st;
     awaiting_approval := awaiting_approval st;
     plan := plan st;
     executor_artifacts := v;
     critic_report := critic_report st;
     compliance_report := compliance_report st;
     risk_report := risk_report st;
     retry_count := retry_count st;
     max_retries := max_retries st;
     pause_requested := pause_requested st;
     confidence := confidence st;
     logs := logs st;
     failure_reason := failure_reason st;
     active_node := active_node st |}.

Definition set_critic_report (v : gmap string value) (st : GraphState) : GraphState :=
  {| hypothesis := hypothesis st;
     messages := messages st;
     market_data := market_data st;
     code_snippet := code_snippet st;
     critique_score := critique_score st;
     human_approval := human_approval st;
     awaiting_approval := awaiting_approval st;
     plan := plan st;
     executor_artifacts := executor_artifacts st;
     critic_report := v;
     compliance_report := compliance_report st;
     risk_report := risk_report st;
     retry_count := retry_count st;
     max_retries := max_retries st;
     pause_requested := pause_requested st;
     confidence := confidence st;
     logs := logs st;
     failure_reason := failure_reason st;
     active_node := active_node st |}.

Definition set_compliance_report (v : gmap string value) (st : GraphState) : GraphState :=
  {| hypothesis := hypothesis st;
     messages := messages st;
     market_data := market_data st;
     code_snippet := code_snippet st;
     critique_score := critique_score st;
     human_approval := human_approval st;
     awaiting_approval := awaiting_approval st;
     plan := plan st;
     executor_artifacts := executor_artifacts st;
     critic_report := critic_report st;
     compliance_report := v;
     risk_report := risk_report st;
     retry_count := retry_count st;
     max_retries := max_retries st;
     pause_requested := pause_requested st;
     confidence := confidence st;
     logs := logs st;
     failure_reason := failure_reason st;
     active_node := active_node st |}.

Definition set_risk_report (v : gmap string value) (st : GraphState) : GraphState :=
  {| hypothesis := hypothesis st;
     messages := messages st;
     market_data := market_data st;
     code_snippet := code_snippet st;
     critique_score := critique_score st;
     human_approval := human_approval st;
     awaiting_approval := awaiting_approval st;
     plan := plan st;
     executor_artifacts := executor_artifacts st;
     critic_report := critic_report st;
     compliance_report := compliance_report st;
     risk_report := v;
     retry_count := retry_count st;
     max_retries := max_retries st;
     pause_requested := pause_requested st;
     confidence := confidence st;
     logs := logs st;
     failure_reason := failure_reason st;
     active_node := active_node st |}.

Definition set_retry_count (v : Z) (st : GraphState) : GraphState :=
  {| hypothesis := hypothesis st;
     messages := messages st;
     market_data := market_data st;
     code_snippet := code_snippet st;
     critique_score := critique_score st;
     human_approval := human_approval st;
     awaiting_approval := awaiting_approval st;
     plan := plan st;
     executor_artifacts := executor_artifacts st;
     critic_report := critic_report st;
     compliance_report := compliance_report st;
     risk_report := risk_report st;
     retry_count := v;
     max_retries := max_retries st;
     pause_requested := pause_requested st;
     confidence := confidence st;
     logs := logs st;
     failure_reason := failure_reason st;
     active_node := active_node st |}.

Definition set_pause_requested (v : bool) (st : GraphState) : GraphState :=
  {| hypothesis := hypothesis st;
     messages := messages st;
     market_data := market_data st;
     code_snippet := code_snippet st;
     critique_score := critique_score st;
     human_approval := human_approval st;
     awaiting_approval := awaiting_approval st;
     plan := plan st;
     executor_artifacts := executor_artifacts st;
     critic_report := critic_report st;
     compliance_report := compliance_report st;
     risk_report := risk_report st;
     retry_count := retry_count st;
     max_retries := max_retries st;
     pause_requested := v;
     confidence := confidence st;
     logs := logs st;
     failure_reason := failure_reason st;
     active_node := active_node st |}.

Definition set_confidence (v : pyfloat) (st : GraphState) : GraphState :=
  {| hypothesis := hypothesis st;
     messages := messages st;
     market_data := market_data st;
     code_snippet := code_snippet st;
     critique_score := critique_score st;
     human_approval := human_approval st;
     awaiting_approval := awaiting_approval st;
     plan := plan st;
     executor_artifacts := executor_artifacts st;
     critic_report := critic_report st;
     compliance_report := compliance_report st;
     risk_report := risk_report st;
     retry_count := retry_count st;
     max_retries := max_retries st;
     pause_requested := pause_requested st;
     confidence := v;
     logs := logs st;
     failure_reason := failure_reason st;
     active_node := active_node st |}.

Definition set_logs (v : list string) (st : GraphState) : GraphState :=
  {| hypothesis := hypothesis st;
     messages := messages st;
     market_data := market_data st;
     code_snippet := code_snippet st;
     critique_score := critique_score st;
     human_approval := human_approval st;
     awaiting_approval := awaiting_approval st;
     plan := plan st;
     executor_artifacts := executor_artifacts st;
     critic_report := critic_report st;
     compliance_report := compliance_report st;
     risk_report := risk_report st;
     retry_count := retry_count st;
     max_retries := max_retries st;
     pause_requested := pause_requested st;
     confidence := confidence st;
     logs := v;
     failure_reason := failure_reason st;
     active_node := active_node st |}.

Definition set_failure_reason (v : option string) (st : GraphState) : GraphState :=
  {| hypothesis := hypothesis st;
     messages := messages st;
     market_data := market_data st;
     code_snippet := code_snippet st;
     critique_score := critique_score st;
     human_approval := human_approval st;
     awaiting_approval := awaiting_approval st;
     plan := plan st;
     executor_artifacts := executor_artifacts st;
     critic_report := critic_report st;
     compliance_report := compliance_report st;
     risk_report := risk_report st;
     retry_count := retry_count st;
     max_retries := max_retries st;
     pause_requested := pause_requested st;
     confidence := confidence st;
     logs := logs st;
     failure_reason := v;
     active_node := active_node st |}.

Definition set_active_node (v : string) (st : GraphState) : GraphState :=
  {| hypothesis := hypothesis st;
     messages := messages st;
     market_data := market_data st;
     code_snippet := code_snippet st;
     critique_score := critique_score st;
     human_approval := human_approval st;
     awaiting_approval := awaiting_approval st;
     plan := plan st;
     executor_artifacts := executor_artifacts st;
     critic_report := critic_report st;
     compliance_report := compliance_report st;
     risk_report := risk_report st;
     retry_count := retry_count st;
     max_retries := max_retries st;
     pause_requested := pause_requested st;
     confidence := confidence st;
     logs := logs st;
     failure_reason := failure_reason st;
     active_node := v |}.

(** [GraphState(hypothesis=..., max_retries=...)]: the other fields take
    the defaults of the dataclass. *)
Definition new_state (hypothesis0 : string) (max_retries0 : Z) : GraphState :=
  {| hypothesis := hypothesis0;
     messages := [];
     market_data := VDict ∅;
     code_snippet := VStr "";
     critique_score := Fin 0;
     human_approval := false;
     awaiting_approval := false;
     plan := [];
     executor_artifacts := ∅;
     critic_report := ∅;
     compliance_report := ∅;
     risk_report := ∅;
     retry_count := 0;
     max_retries := max_retries0;
     pause_requested := false;
     confidence := Fin 0;
     logs := [];
     failure_reason := None;
     active_node := "" |}.

(** [state.log(message)] *)
Definition log (message : string) (st : GraphState) : GraphState :=
  set_logs (logs st ++ [message]) st.

(** [state.messages.append({"role": role, "content": content})] *)
Definition add_message (role content : string) (st : GraphState) : GraphState :=
  set_messages (messages st ++ [{[ "role" := role; "content" := content ]}]) st.

(** ** app/orchestration/graph.py *)

(** The module's settings, read from the environment when it is loaded. *)
Record settings := {
  MAX_RETRIES : Z;
  PC_THRESHOLD : pyfloat;
}.

(** The settings when the environment sets nothing. *)
Definition default_settings : settings :=
  {| MAX_RETRIES := 2; PC_THRESHOLD := Fin 0.7 |}.

Definition _ensure_not_paused (w : world) (state : GraphState) : GraphState :=
  if pause_requested state || pause_flag_exists w
  then set_failure_reason (Some "Paused by operator.") state
  else state.

Definition planner_node (w : world) (state : GraphState) : result GraphState :=
  let state := _ensure_not_paused w state in
  if truthy_opt (failure_reason state) then Ok state
  else
    let state := set_active_node "planner" state in
    let state := set_plan (PlannerAgent.plan (hypothesis state)) state in
    let state := add_message "planner" "Plan created." state in
    Ok (log "Planner produced research plan" state).

Definition executor_node (w : world) (state : GraphState) : result GraphState :=
  let state := _ensure_not_paused w state in
  if truthy_opt (failure_reason state) then Ok state
  else
    let state := set_active_node "executor" state in
    artifacts ← ExecutorAgent.execute EXECUTOR w (plan state);
    let state := set_executor_artifacts artifacts state in
    let state := set_code_snippet (dict_get (executor_artifacts state) "code_snippet" (VStr "")) state in
    let state := set_market_data (dict_get (executor_artifacts state) "market_data" (VDict ∅)) state in
    let state := add_message "executor" "Code generated (not executed)." state in
    let state := log "Executor produced analysis artifacts" state in
    report ← ComplianceOfficerAgent.review COMPLIANCE [] [];
    let state := set_compliance_report report state in
    Ok (log "Compliance review completed" state).

(** Whether a node's body runs: no pause is requested or flagged and no
    failure reason is set. *)
Definition node_runs (w : world) (state : GraphState) : bool :=
  negb (truthy_opt (failure_reason (_ensure_not_paused w state))).

(** [value < threshold] for the score read back from the report. *)
Definition value_lt (v : value) (threshold : pyfloat) : result bool :=
  match v with
  | VFloat x => Ok (flt x threshold)
  | VInt z => Ok (flt (Fin (inject_Z z)) threshold)
  | VBool b => Ok (flt (Fin (if b then 1 else 0)) threshold)
  | _ => Raise (TypeError "'<' not supported between these instances")
  end.

(** [notes + suffix] for the notes read back from the report. *)
Definition str_add (notes : value) (suffix : string) : result value :=
  match notes with
  | VStr s => Ok (VStr (s +:+ suffix))
  | _ => Raise (TypeError "unsupported operand type(s) for +")
  end.

Section Nodes.
Context `{Runtime}.
Variable cfg : settings.

Definition critic_node (w : world) (state : GraphState) : result GraphState :=
  let state := _ensure_not_paused w state in
  if truthy_opt (failure_reason state) then Ok state
  else
    let state := set_active_node "critic" state in
    let baseline_predictions := dict_get (executor_artifacts state) "predictions" (VList []) in
    counterfactuals ←
      Counterfactual.generate_counterfactuals ∅ Counterfactual.default_config 7;
    let cf_predictions := map (fun _ => VList []) counterfactuals in
    baseline ← _to_array baseline_predictions;
    cf_arrays ← mapM _to_array cf_predictions;
    let consistency_report := Metrics.build_consistency_report baseline cf_arrays in
    report ← CriticAgent.evaluate (executor_artifacts state);
    let report := <["counterfactual" := VDict consistency_report]> report in
    let state := set_critic_report report state in
    confidence0 ← py_float (dict_get report "confidence" (VFloat (Fin 0)));
    let state := set_confidence confidence0 state in
    critique_score0 ← py_float (dict_get report "critique_score" (VFloat (confidence state)));
    let state := set_critique_score critique_score0 state in
    let state := add_message "critic" "Critic review complete." state in
    pc ← dict_item consistency_report "prediction_consistency";
    below ← value_lt pc (PC_THRESHOLD cfg);
    state ←
      (if (below : bool) then
         let state := set_critic_report (<["veto" := VBool true]> (critic_report state)) state in
         notes ← str_add (dict_get (critic_report state) "notes" (VStr ""))
                   (" PC below threshold " +:+ float_repr (PC_THRESHOLD cfg) +:+ ".");
         Ok (set_critic_report (<["notes" := notes]> (critic_report state)) state)
       else Ok state);
    let state :=
      if truthy (dict_get (critic_report state) "veto" (VBool false)) then
        if Z.ltb (retry_count state) (max_retries state) then
          log "Critic vetoed; retrying executor"
            (set_retry_count (retry_count state + 1) state)
        else set_failure_reason (Some "Max retries exceeded after critic veto.") state
      else state in
    Ok (log "Critic issued report" state).

Definition risk_manager_node (w : world) (state : GraphState) : result GraphState :=
  let state := _ensure_not_paused w state in
  if truthy_opt (failure_reason state) then Ok state
  else
    let state := set_active_node "risk_manager" state in
    report ← RiskManagerAgent.evaluate (executor_artifacts state);
    let state := set_risk_report report state in
    let state := add_message "risk_manager" "Risk checks complete." state in
    let state := log "Risk manager issued report" state in
    if negb (is_str (dict_get (risk_report state) "status" VNone) "pass")
    then Ok (set_failure_reason (Some "Risk manager vetoed based on limits.") state)
    else Ok state.

Definition human_approval_node (w : world) (state : GraphState) : result GraphState :=
  let state := _ensure_not_paused w state in
  if truthy_opt (failure_reason state) then Ok state
  else
    let state := set_active_node "human_approval" state in
    let state := set_awaiting_approval true state in
    let approval_value :=
      match approval_flag w with
      | Some text => Some (py_lower (py_strip text))
      | None => None
      end in
    if bool_decide (approval_value = Some "approve") then
      let state := set_human_approval true state in
      let state := set_awaiting_approval false state in
      let state := add_message "human" "Approved." state in
      Ok (log "Human approval granted" state)
    else if bool_decide (approval_value = Some "reject") then
      let state := set_human_approval false state in
      let state := set_awaiting_approval false state in
      let state := set_failure_reason (Some "Rejected by human approver.") state in
      let state := add_message "human" "Rejected." state in
      Ok (log "Human approval rejected" state)
    else
      let state := set_pause_requested true state in
      Ok (log "Awaiting human approval" state).

End Nodes.

Definition route_after_critic (state : GraphState) : string :=
  if pause_requested state then "paused"
  else if truthy_opt (failure_reason state) then "fail"
  else
    let veto := truthy (dict_get (critic_report state) "veto" (VBool true)) in
    if veto then "executor" else "risk".

Definition route_after_risk (state : GraphState) : string :=
  if pause_requested state then "paused"
  else if truthy_opt (failure_reason state) then "fail"
  else "approval".

Definition route_after_human (state : GraphState) : string :=
  if pause_requested state then "paused"
  else if truthy_opt (failure_reason state) then "fail"
  else if human_approval state then "done"
  else "paused".

(** *** The graph and its execution *)

Inductive node := planner | executor | critic | risk | approval.

#[global] Instance node_eq_dec : EqDecision node.
Proof. solve_decision. Defined.

Inductive target := Goto (n : node) | END.

(** The label-to-target dictionaries of [add_conditional_edges]; the
    routers return no label outside them. *)
Definition critic_paths : gmap string target :=
  {[ "executor" := Goto executor; "risk" := Goto risk; "fail" := END; "paused" := END ]}.

Definition risk_paths : gmap string target :=
  {[ "approval" := Goto approval; "fail" := END; "paused" := END ]}.

Definition approval_paths : gmap string target :=
  {[ "done" := END; "fail" := END; "paused" := END ]}.

Definition follow (paths : gmap string target) (label : string) : target :=
  default END (paths !! label).

Definition entry_point : node := planner.

(** The edges [build_graph] adds: where the run goes after a node. *)
Definition next_target (n : node) (state : GraphState) : target :=
  match n with
  | planner => Goto executor
  | executor => Goto critic
  | critic => follow critic_paths (route_after_critic state)
  | risk => follow risk_paths (route_after_risk state)
  | approval => follow approval_paths (route_after_human state)
  end.

Section Engine.
Context `{Runtime}.
Variable cfg : settings.

(** The functions [build_graph] registers with [add_node]. *)
Definition node_function (n : node) : world -> GraphState -> result GraphState :=
  match n with
  | planner => planner_node
  | executor => executor_node
  | critic => critic_node cfg
  | risk => risk_manager_node
  | approval => human_approval_node
  end.

(** [graph.invoke(state)] from node [n]: the nodes run one after another,
    the [tick]-th of them in the world [env tick], until an edge leads to
    [END] or a node raises.  The result is the list of the nodes entered and
    the final state, the exception, or [None] when [fuel] nodes were not
    enough. *)
Fixpoint invoke_from (fuel : nat) (env : nat -> world) (tick : nat)
    (n : node) (state : GraphState) : list node * option (result GraphState) :=
  match fuel with
  | O => ([], None)
  | S fuel' =>
      match node_function n (env tick) state with
      | Raise e => ([n], Some (Raise e))
      | Ok state' =>
          match next_target n state' with
          | END => ([n], Some (Ok state'))
          | Goto m =>
              let '(trace, out) := invoke_from fuel' env (S tick) m state' in
              (n :: trace, out)
          end
      end
  end.

(** The state [run_graph] hands to the graph. *)
Definition initial_state (hypothesis0 : string) : GraphState :=
  add_message "user" hypothesis0 (new_state hypothesis0 (MAX_RETRIES cfg)).

(** The end of [run_graph]: raise on a failure reason, else return. *)
Definition finish (final_state : GraphState) : result GraphState :=
  if truthy_opt (failure_reason final_state)
  then Raise (RuntimeError (default "" (failure_reason final_state)))
  else Ok final_state.

(** [run_graph(hypothesis)].  The audit record [DecisionLogger] appends
    between the graph's return and the final test leaves the state as it is
    and is not represented. *)
Definition run_graph (fuel : nat) (env : nat -> world) (hypothesis0 : string)
    : option (result GraphState) :=
  match snd (invoke_from fuel env 0 entry_point (initial_state hypothesis0)) with
  | None => None
  | Some (Raise e) => Some (Raise e)
  | Some (Ok final_state) => Some (finish final_state)
  end.

(** The nodes a run enters, in order. *)
Definition run_trace (fuel : nat) (env : nat -> world) (hypothesis0 : string) : list node :=
  fst (invoke_from fuel env 0 entry_point (initial_state hypothesis0)).

End Engine.

(** The failure reasons the nodes assign. *)
Definition engine_reasons : list string :=
  [ "Paused by operator.";
    "Max retries exceeded after critic veto.";
    "Risk manager vetoed based on limits.";
    "Rejected by human approver." ].

(** The retries a state has left. *)
Definition retries_left (state : GraphState) : nat :=
  Z.to_nat (max_retries state - retry_count state).

(** Nodes that are enough to end a run that starts at a node: two per
    retry that is left, and the nodes on the way to [END]. *)
Definition enough_fuel (n : node) (state : GraphState) : nat :=
  match n with
  | planner => 2 * retries_left state + 5
  | executor => 2 * retries_left state + 4
  | critic => 2 * retries_left state + 3
  | risk => 2
  | approval => 1
  end.

(** What holds of the state a node is entered with in a run: the failure
    reason is not the empty string, no pause is requested, and the approval
    node is entered without a failure reason. *)
Definition entry_invariant (n : node) (st : GraphState) : Prop :=
  failure_reason st <> Some "" /\
  pause_requested st = false /\
  (n = approval -> failure_reason st = None).

(** Number of entries of a node in a trace. *)
Definition entries (n : node) (trace : list node) : nat :=
  length (filter (fun m => m = n) trace).

(** ** Concrete inputs for the examples

    A small generator (a counter), tools that answer with fixed data, and
    the worlds built from them. *)

Definition counter_runtime : Runtime :=
  {| rng := Z;
     seed_state := fun seed => seed;
     draw_normal := fun g std =>
       (match std with Fin q => Fin (q * inject_Z (g mod 3 - 1)) | other => other end, g + 1);
     draw_integer := fun g low high => (low + g mod (high - low), g + 1);
     float_repr := fun x =>
       match x with
       | Fin q => if Qeq_bool q 0.7 then "0.7" else "<float>"
       | _ => "<float>"
       end;
     float_of_string := fun _ => None;
     asarray_float_other := fun _ => Raise (ValueError "could not convert to an array of floats");
     asarray_int_other := fun _ => Raise (ValueError "could not convert to an array of ints") |}.

Definition sample_analysis (max_drawdown exposure : pyfloat) : gmap string value :=
  {[ "analysis" := VDict {[ "rsi_last" := VFloat (Fin 55); "signal_count" := VInt 0 ]};
     "signals" := VList [];
     "risk_metrics" := VDict {[ "max_drawdown" := VFloat max_drawdown;
                                "exposure" := VFloat exposure ]} ]}.

(** No pause flag, no approval flag, tools that succeed. *)
Definition quiet_world (max_drawdown exposure : pyfloat) : world :=
  {| pause_flag_exists := false;
     approval_flag := None;
     fetch_market_data := fun params => Ok (<["ohlcv" := VList []]> params);
     clean_data := fun raw => Ok {[ "cleaned" := VDict raw ]};
     run_analysis := fun _ => Ok (sample_analysis max_drawdown exposure) |}.

Definition paused_world : world :=
  {| pause_flag_exists := true;
     approval_flag := None;
     fetch_market_data := fun params => Ok (<["ohlcv" := VList []]> params);
     clean_data := fun raw => Ok {[ "cleaned" := VDict raw ]};
     run_analysis := fun _ => Ok (sample_analysis (Fin 0) (Fin 1)) |}.

(** The state a node returned, or [fallback] when it raised. *)
Definition state_of (r : result GraphState) (fallback : GraphState) : GraphState :=
  match r with
  | Ok st => st
  | Raise _ => fallback
  end.

(** The batch a call of the generator returned, or none when it raised. *)
Definition state_of_batch (r : result (list Counterfactual.scenario))
    : list Counterfactual.scenario :=
  match r with
  | Ok batch => batch
  | Raise _ => []
  end.

(** The state the critic is entered with for the first time, in a quiet
    world and under the given settings. *)
Definition before_critic (cfg : settings) : GraphState :=
  let w := quiet_world (Fin 0) (Fin 1) in
  let st0 := add_message "user" "H" (new_state "H" (MAX_RETRIES cfg)) in
  let st1 := state_of (planner_node w st0) st0 in
  state_of (executor_node w st1) st1.

(** The pause flag appears when the node of tick [t] starts. *)
Definition pause_at (t : nat) (tick : nat) : world :=
  if Nat.eqb tick t then paused_world else quiet_world (Fin 0) (Fin 1).

(** * Properties *)

(** ** The error monad *)

Lemma bind_Ok {A B} (r : result A) (k : A -> result B) (b : B) :
  r ≫= k = Ok b -> exists a, r = Ok a /\ k a = Ok b.
Proof. destruct r as [a|e]; simpl; [eauto | discriminate]. Qed.

Lemma Qlt_bool_iff (a b : Q) : Qlt_bool a b = true <-> (a < b)%Q.
Proof.
  unfold Qlt_bool. rewrite negb_true_iff. split.
  - intros Hle. apply Qnot_le_lt. intros Hba. apply Qle_bool_iff in Hba. congruence.
  - intros Hlt. destruct (Qle_bool b a) eqn:E; [|done].
    apply Qle_bool_iff in E. exfalso. exact (Qlt_not_le _ _ Hlt E).
Qed.

Lemma Qlt_bool_proper (a a' b b' : Q) :
  (a == a')%Q -> (b == b')%Q -> Qlt_bool a b = Qlt_bool a' b'.
Proof.
  intros Ha Hb. apply eq_true_iff_eq. rewrite !Qlt_bool_iff, Ha, Hb. reflexivity.
Qed.

(** ** metrics.py: the consistency score *)

Module MetricsFacts.
Import Metrics.

(** What one scenario adds to [matches]. *)
Lemma pc_step_app baseline cf matches :
  baseline <> [] ->
  pc_step baseline (map np_sign baseline) matches cf
  = matches ++ [Fin (match_fraction baseline cf)].
Proof.
  intros Hne. unfold pc_step, match_fraction.
  destruct (Nat.eqb (length cf) (length baseline)) eqn:Hlen; simpl; [|done].
  apply Nat.eqb_eq in Hlen. f_equal. f_equal.
  assert (Hcount : forall xs ys, length xs = length ys ->
            count_true (np_equal (map np_sign xs) (map np_sign ys)) = matching_positions xs ys
            /\ length (np_equal (map np_sign xs) (map np_sign ys)) = length ys).
  { clear. induction xs as [|x xs IH]; intros [|y ys] Hl; simpl in *; try done.
    injection Hl as Hl. destruct (IH ys Hl) as [IHc IHl].
    unfold np_equal in *. simpl. unfold sign_matches.
    split; [by rewrite IHc | by rewrite IHl]. }
  destruct (Hcount cf baseline Hlen) as [Hc Hl].
  unfold np_mean_bool.
  destruct (np_equal (map np_sign cf) (map np_sign baseline)) as [|b bs] eqn:E.
  - simpl in Hl. destruct baseline; [done | discriminate].
  - by rewrite Hc, Hl.
Qed.

Lemma fold_pc_step baseline cfs matches :
  baseline <> [] ->
  fold_left (pc_step baseline (map np_sign baseline)) cfs matches
  = matches ++ map (fun cf => Fin (match_fraction baseline cf)) cfs.
Proof.
  intros Hne. revert matches.
  induction cfs as [|cf cfs IH]; intros matches; simpl.
  - by rewrite app_nil_r.
  - rewrite pc_step_app by done. rewrite IH, <- app_assoc. done.
Qed.

Lemma fold_fadd_Fin (qs : list Q) (a : Q) :
  fold_left fadd (map Fin qs) (Fin a) = Fin (fold_left Qplus qs a).
Proof. revert a. induction qs as [|q qs IH]; intros a; simpl; [done | apply IH]. Qed.

Lemma fold_Qplus_Qsum (qs : list Q) (a : Q) :
  (fold_left Qplus qs a == a + Qsum qs)%Q.
Proof.
  revert a. induction qs as [|q qs IH]; intros a; simpl.
  - ring.
  - rewrite IH. ring.
Qed.

Lemma matching_positions_le cf baseline :
  (matching_positions cf baseline <= length baseline)%nat.
Proof.
  revert baseline. induction cf as [|x cf IH]; intros [|y baseline]; simpl; try lia.
  specialize (IH baseline). destruct (sign_matches x y); lia.
Qed.

Lemma matching_positions_all cf baseline :
  length cf = length baseline ->
  matching_positions cf baseline = length baseline <->
  (forall i x y, cf !! i = Some x -> baseline !! i = Some y -> sign_matches x y = true).
Proof.
  revert baseline. induction cf as [|x cf IH]; intros [|y baseline] Hlen; simpl in *; try done.
  injection Hlen as Hlen. destruct (IH baseline Hlen) as [IH1 IH2].
  pose proof (matching_positions_le cf baseline) as Hle.
  split.
  - intros Hall. destruct (sign_matches x y) eqn:E; [|lia].
    assert (Hrest : matching_positions cf baseline = length baseline) by lia.
    intros [|i] x' y' Hx Hy; simpl in *.
    + congruence.
    + exact (IH1 Hrest i x' y' Hx Hy).
  - intros Hall. rewrite (Hall 0%nat x y) by done.
    assert (matching_positions cf baseline = length baseline) as ->; [|done].
    apply IH2. intros i x' y' Hx Hy. apply (Hall (S i)); done.
Qed.

Lemma count_pos (l : list pyfloat) : l <> [] -> (0 < inject_Z (Z.of_nat (length l)))%Q.
Proof.
  intros Hne. change 0%Q with (inject_Z 0). rewrite <- Zlt_Qlt.
  destruct l; [done | simpl; lia].
Qed.

Lemma match_fraction_bounds baseline cf :
  baseline <> [] -> (0 <= match_fraction baseline cf <= 1)%Q.
Proof.
  intros Hne. unfold match_fraction.
  destruct (Nat.eqb _ _); [|split; discriminate].
  pose proof (count_pos baseline Hne) as Hpos.
  pose proof (matching_positions_le cf baseline) as Hle.
  split.
  - apply Qle_shift_div_l; [done|]. rewrite Qmult_0_l.
    change 0%Q with (inject_Z 0). rewrite <- Zle_Qle. lia.
  - apply Qle_shift_div_r; [done|]. rewrite Qmult_1_l. rewrite <- Zle_Qle. lia.
Qed.

Lemma match_fraction_one baseline cf :
  baseline <> [] ->
  (match_fraction baseline cf == 1)%Q <-> signs_agree baseline cf.
Proof.
  intros Hne. unfold match_fraction, signs_agree.
  pose proof (count_pos baseline Hne) as Hpos.
  assert (Hnz : ~ (inject_Z (Z.of_nat (length baseline)) == 0)%Q).
  { intros E. rewrite E in Hpos. exact (Qlt_irrefl _ Hpos). }
  destruct (Nat.eqb (length cf) (length baseline)) eqn:Hlen.
  - apply Nat.eqb_eq in Hlen. rewrite <- (matching_positions_all cf baseline Hlen).
    split.
    + intros Hq. split; [done|].
      assert (Hm : (inject_Z (Z.of_nat (matching_positions cf baseline))
                    == inject_Z (Z.of_nat (length baseline)))%Q).
      { rewrite <- (Qmult_div_r (inject_Z (Z.of_nat (matching_positions cf baseline)))
                     (inject_Z (Z.of_nat (length baseline)))) by done.
        rewrite Hq. ring. }
      rewrite inject_Z_injective in Hm. lia.
    + intros [_ Hm]. rewrite Hm. field. done.
  - apply Nat.eqb_neq in Hlen. split; [intros Hq; discriminate | intros [Hl _]; done].
Qed.

Lemma Qsum_bounds (qs : list Q) :
  Forall (fun q => 0 <= q <= 1)%Q qs ->
  (0 <= Qsum qs <= inject_Z (Z.of_nat (length qs)))%Q.
Proof.
  induction 1 as [|q qs Hq _ IH]; simpl length; simpl Qsum.
  - split; discriminate || apply Qle_refl.
  - rewrite Nat2Z.inj_succ, <- Z.add_1_r, inject_Z_plus.
    change (inject_Z 1) with 1%Q. lra.
Qed.

Lemma Qsum_full (qs : list Q) :
  Forall (fun q => 0 <= q <= 1)%Q qs ->
  (Qsum qs == inject_Z (Z.of_nat (length qs)))%Q <-> Forall (fun q => q == 1)%Q qs.
Proof.
  induction 1 as [|q qs Hq Hqs IH]; simpl length; simpl Qsum.
  - split; [constructor | reflexivity].
  - pose proof (Qsum_bounds qs Hqs) as Hb.
    rewrite Nat2Z.inj_succ, <- Z.add_1_r, inject_Z_plus.
    change (inject_Z 1) with 1%Q. split.
    + intros Hsum. constructor; [lra|]. apply IH. lra.
    + intros Hall. inversion Hall as [|? ? H1 Hrest]; subst.
      apply IH in Hrest. lra.
Qed.

End MetricsFacts.

Lemma prediction_consistency_value baseline cfs :
  baseline <> [] -> cfs <> [] ->
  Metrics.prediction_consistency baseline cfs
  = Fin (fold_left Qplus (map (Metrics.match_fraction baseline) cfs) 0%Q
         / inject_Z (Z.of_nat (length cfs)))%Q.
Proof.
  intros Hb Hc. unfold Metrics.prediction_consistency.
  destruct baseline as [|b0 baseline]; [done|].
  destruct cfs as [|cf0 cfs]; [done|].
  cbn [length Nat.eqb orb].
  rewrite MetricsFacts.fold_pc_step by done. rewrite app_nil_l.
  unfold Metrics.np_mean.
  rewrite <- (map_map (Metrics.match_fraction (b0 :: baseline)) Fin).
  rewrite length_map.
  destruct (map (Metrics.match_fraction (b0 :: baseline)) (cf0 :: cfs)) as [|q qs] eqn:E;
    [discriminate|].
  cbn [map]. rewrite <- E, length_map.
  change (Fin q :: map Fin qs) with (map Fin (q :: qs)). rewrite <- E.
  rewrite MetricsFacts.fold_fadd_Fin. reflexivity.
Qed.

(** C5: for a non-empty baseline and a non-empty list of scenarios,
    [prediction_consistency] returns the arithmetic mean over the scenarios
    of the fraction of positions whose sign matches the baseline's, a
    scenario of another length counting 0; the result lies in [0,1] and is 1
    exactly when every scenario has the baseline's length and its signs
    agree with the baseline's at every position ([==] of NumPy: a NaN
    agrees with nothing). *)
Theorem prediction_consistency_is_mean
    (baseline : list pyfloat) (cfs : list (list pyfloat))
    (Hbaseline : baseline <> []) (Hcfs : cfs <> []) :
  exists q : Q,
    Metrics.prediction_consistency baseline cfs = Fin q /\
    (q == Metrics.mean_match_fraction baseline cfs)%Q /\
    (0 <= q <= 1)%Q /\
    ((q == 1)%Q <-> Forall (Metrics.signs_agree baseline) cfs) /\
    (forall cf, length cf <> length baseline -> Metrics.match_fraction baseline cf = 0%Q).
Proof.
  eexists. split; [apply prediction_consistency_value; done|].
  set (qs := map (Metrics.match_fraction baseline) cfs).
  assert (Hqs : Forall (fun q => 0 <= q <= 1)%Q qs).
  { apply Forall_forall. intros q Hq. apply list_elem_of_In in Hq.
    unfold qs in Hq. apply in_map_iff in Hq as (cf & <- & _).
    by apply MetricsFacts.match_fraction_bounds. }
  assert (Hlen : length qs = length cfs) by apply length_map.
  assert (Hpos : (0 < inject_Z (Z.of_nat (length cfs)))%Q).
  { change 0%Q with (inject_Z 0). rewrite <- Zlt_Qlt. destruct cfs; [done | simpl; lia]. }
  assert (Hnz : ~ (inject_Z (Z.of_nat (length cfs)) == 0)%Q).
  { intros E. rewrite E in Hpos. exact (Qlt_irrefl _ Hpos). }
  assert (Hsum : (fold_left Qplus qs 0%Q == Metrics.Qsum qs)%Q).
  { rewrite MetricsFacts.fold_Qplus_Qsum. ring. }
  pose proof (MetricsFacts.Qsum_bounds qs Hqs) as [Hlo Hhi]. rewrite Hlen in Hhi.
  split; [|split; [|split]].
  - unfold Metrics.mean_match_fraction. fold qs. by rewrite Hsum.
  - rewrite Hsum. split.
    + apply Qle_shift_div_l; [done|]. by rewrite Qmult_0_l.
    + apply Qle_shift_div_r; [done|]. by rewrite Qmult_1_l.
  - rewrite Hsum. transitivity (Forall (fun q => q == 1)%Q qs).
    + rewrite <- (MetricsFacts.Qsum_full qs Hqs), Hlen. split.
      * intros Hq.
        rewrite <- (Qmult_div_r (Metrics.Qsum qs) (inject_Z (Z.of_nat (length cfs)))) by done.
        rewrite Hq. ring.
      * intros Hq. rewrite Hq. field. done.
    + unfold qs. rewrite Forall_fmap. apply Forall_iff. intros cf. simpl.
      by apply MetricsFacts.match_fraction_one.
  - intros cf Hne. unfold Metrics.match_fraction.
    apply Nat.eqb_neq in Hne. by rewrite Hne.
Qed.

Lemma prediction_consistency_is_mean_witness :
  exists q : Q,
    Metrics.prediction_consistency
      [Fin 1; Fin (-2); Fin 0] [[Fin 3; Fin (-1); Fin 0]; [Fin 3; Fin 1; Fin 0]; [Fin 1]] = Fin q /\
    (q == Metrics.mean_match_fraction
            [Fin 1; Fin (-2); Fin 0] [[Fin 3; Fin (-1); Fin 0]; [Fin 3; Fin 1; Fin 0]; [Fin 1]])%Q /\
    (0 <= q <= 1)%Q /\
    ((q == 1)%Q <-> Forall (Metrics.signs_agree [Fin 1; Fin (-2); Fin 0])
                           [[Fin 3; Fin (-1); Fin 0]; [Fin 3; Fin 1; Fin 0]; [Fin 1]]) /\
    (forall cf, length cf <> length [Fin 1; Fin (-2); Fin 0] ->
                Metrics.match_fraction [Fin 1; Fin (-2); Fin 0] cf = 0%Q).
Proof.
  apply (prediction_consistency_is_mean
           [Fin 1; Fin (-2); Fin 0] [[Fin 3; Fin (-1); Fin 0]; [Fin 3; Fin 1; Fin 0]; [Fin 1]]);
    discriminate.
Defined.

(** The score of the example above is 5/9: the fractions are 1, 2/3 and 0. *)
Example prediction_consistency_example :
  exists q, Metrics.prediction_consistency
      [Fin 1; Fin (-2); Fin 0] [[Fin 3; Fin (-1); Fin 0]; [Fin 3; Fin 1; Fin 0]; [Fin 1]] = Fin q
    /\ (q == 5 # 9)%Q.
Proof. eexists. split; [vm_compute; reflexivity | reflexivity]. Qed.

(** C4, as stated: the report of the scorer the Critic calls is not the
    conservative report; it has no [flagged] entry. *)
Lemma build_consistency_report_not_flagged :
  ~ Metrics.conservative_report (Metrics.build_consistency_report [] []).
Proof. intros (_ & Hflagged & _). vm_compute in Hflagged. discriminate. Qed.

(** C4, amended: for an empty baseline or an empty list of scenarios the
    report of [build_consistency_report], the scorer the Critic calls, has
    the single entry [prediction_consistency] = 0.0: no [flagged] and no
    [reason] entry. *)
Theorem build_consistency_report_empty
    (baseline : list pyfloat) (cfs : list (list pyfloat))
    (Hempty : baseline = [] \/ cfs = []) :
  Metrics.build_consistency_report baseline cfs
    = {[ "prediction_consistency" := VFloat (Fin 0) ]} /\
  Metrics.build_consistency_report baseline cfs !! "prediction_consistency"
    = Some (VFloat (Fin 0)) /\
  Metrics.build_consistency_report baseline cfs !! "flagged" = None /\
  Metrics.build_consistency_report baseline cfs !! "reason" = None.
Proof.
  assert (Hpc : Metrics.prediction_consistency baseline cfs = Fin 0).
  { unfold Metrics.prediction_consistency.
    destruct Hempty as [-> | ->]; [done|].
    by rewrite orb_true_r. }
  unfold Metrics.build_consistency_report. rewrite Hpc.
  split; [done|]. split; [|split]; reflexivity.
Qed.

Lemma build_consistency_report_empty_witness :
  Metrics.build_consistency_report [] [[Fin 1]]
    = {[ "prediction_consistency" := VFloat (Fin 0) ]} /\
  Metrics.build_consistency_report [] [[Fin 1]] !! "prediction_consistency"
    = Some (VFloat (Fin 0)) /\
  Metrics.build_consistency_report [] [[Fin 1]] !! "flagged" = None /\
  Metrics.build_consistency_report [] [[Fin 1]] !! "reason" = None.
Proof. apply (build_consistency_report_empty [] [[Fin 1]]). left. reflexivity. Defined.

(** ** agents.py: the risk manager *)

Section RiskFacts.
Context `{Runtime}.
Import RiskManagerAgent.

Lemma evaluate_reads artifacts md ex :
  read_metric artifacts "max_drawdown" = Ok md ->
  read_metric artifacts "exposure" = Ok ex ->
  evaluate artifacts = Ok (risk_report_of md ex).
Proof.
  unfold read_metric, evaluate. intros Hmd Hex.
  apply bind_Ok in Hmd as (vmd & Hvmd & Hmd).
  apply bind_Ok in Hex as (vex & Hvex & Hex).
  rewrite Hvmd. cbn [mbind result_bind]. rewrite Hmd. cbn [mbind result_bind].
  rewrite Hvex. cbn [mbind result_bind]. rewrite Hex. cbn [mbind result_bind].
  change (dict_item limits "max_drawdown") with (Ok (Fin 0.2) : result pyfloat).
  change (dict_item limits "exposure") with (Ok (Fin 1) : result pyfloat).
  cbn [mbind result_bind]. unfold risk_report_of, breaches.
  destruct (fgt md (Fin 0.2)), (fgt ex (Fin 1)); reflexivity.
Qed.

Lemma evaluate_Ok_reads artifacts report :
  evaluate artifacts = Ok report ->
  exists md ex,
    read_metric artifacts "max_drawdown" = Ok md /\
    read_metric artifacts "exposure" = Ok ex.
Proof.
  unfold read_metric, evaluate. intros Hev.
  apply bind_Ok in Hev as (vmd & Hvmd & Hev).
  apply bind_Ok in Hev as (md & Hmd & Hev).
  apply bind_Ok in Hev as (vex & Hvex & Hev).
  apply bind_Ok in Hev as (ex & Hex & Hev).
  exists md, ex. rewrite Hvmd, Hvex. cbn [mbind result_bind]. done.
Qed.

Lemma breaches_nil md ex :
  breaches md ex = [] <-> fgt md (Fin 0.2) = false /\ fgt ex (Fin 1) = false.
Proof.
  unfold breaches.
  destruct (fgt md _), (fgt ex _); simpl; (split; [try done | intros [? ?]; done]).
Qed.

Lemma risk_report_status md ex :
  risk_report_of md ex !! "status"
  = Some (VStr (if fgt md (Fin 0.2) || fgt ex (Fin 1) then "fail" else "pass")).
Proof. unfold risk_report_of, breaches. destruct (fgt md _), (fgt ex _); reflexivity. Qed.

Lemma risk_report_violations md ex :
  risk_report_of md ex !! "violations" = Some (VList (map VStr (breaches md ex))).
Proof. reflexivity. Qed.

Lemma risk_report_metrics md ex :
  risk_report_of md ex !! "metrics"
  = Some (VDict {[ "max_drawdown" := VFloat md; "exposure" := VFloat ex ]}).
Proof. reflexivity. Qed.

End RiskFacts.

(** ** graph.py: what every node does first *)

Lemma node_runs_true w st :
  node_runs w st = true ->
  _ensure_not_paused w st = st /\
  truthy_opt (failure_reason st) = false /\
  pause_requested st = false /\
  pause_flag_exists w = false.
Proof.
  unfold node_runs, _ensure_not_paused.
  destruct (pause_requested st), (pause_flag_exists w); simpl; try discriminate.
  intros Hrun. apply negb_true_iff in Hrun. done.
Qed.

Lemma node_runs_intro w st :
  pause_requested st = false -> pause_flag_exists w = false ->
  truthy_opt (failure_reason st) = false -> node_runs w st = true.
Proof.
  intros Hp Hf Hr. unfold node_runs, _ensure_not_paused. rewrite Hp, Hf. simpl. by rewrite Hr.
Qed.

Lemma ensure_not_paused_frame w st :
  critic_report (_ensure_not_paused w st) = critic_report st /\
  risk_report (_ensure_not_paused w st) = risk_report st /\
  compliance_report (_ensure_not_paused w st) = compliance_report st /\
  retry_count (_ensure_not_paused w st) = retry_count st /\
  max_retries (_ensure_not_paused w st) = max_retries st /\
  pause_requested (_ensure_not_paused w st) = pause_requested st /\
  active_node (_ensure_not_paused w st) = active_node st /\
  plan (_ensure_not_paused w st) = plan st /\
  executor_artifacts (_ensure_not_paused w st) = executor_artifacts st /\
  messages (_ensure_not_paused w st) = messages st.
Proof. unfold _ensure_not_paused. destruct (_ || _); done. Qed.

Lemma ensure_not_paused_reason w st :
  failure_reason (_ensure_not_paused w st) = failure_reason st \/
  failure_reason (_ensure_not_paused w st) = Some "Paused by operator.".
Proof. unfold _ensure_not_paused. destruct (_ || _); [right | left]; done. Qed.

Section NodeFacts.
Context `{Runtime}.
Variable cfg : settings.

(** A node whose body does not run hands back the state
    [_ensure_not_paused] left, with a failure reason that is set. *)
Lemma node_passthrough n w st :
  node_runs w st = false ->
  node_function cfg n w st = Ok (_ensure_not_paused w st) /\
  truthy_opt (failure_reason (_ensure_not_paused w st)) = true.
Proof.
  unfold node_runs. intros Hrun. apply negb_false_iff in Hrun.
  split; [|done].
  destruct n; simpl;
    unfold planner_node, executor_node, critic_node, risk_manager_node, human_approval_node;
    cbv zeta; by rewrite Hrun.
Qed.

Lemma risk_manager_node_runs w st md ex :
  node_runs w st = true ->
  RiskManagerAgent.read_metric (executor_artifacts st) "max_drawdown" = Ok md ->
  RiskManagerAgent.read_metric (executor_artifacts st) "exposure" = Ok ex ->
  let reported :=
    log "Risk manager issued report"
      (add_message "risk_manager" "Risk checks complete."
         (set_risk_report (RiskManagerAgent.risk_report_of md ex)
            (set_active_node "risk_manager" st))) in
  risk_manager_node w st
  = Ok (if fgt md (Fin 0.2) || fgt ex (Fin 1)
        then set_failure_reason (Some "Risk manager vetoed based on limits.") reported
        else reported).
Proof.
  intros Hrun Hmd Hex reported.
  apply node_runs_true in Hrun as (Hens & Hreason & _).
  unfold risk_manager_node. cbv zeta. rewrite Hens, Hreason.
  change (executor_artifacts (set_active_node "risk_manager" st)) with (executor_artifacts st).
  rewrite (evaluate_reads _ md ex Hmd Hex). cbn [mbind result_bind].
  change (risk_report (log _ _)) with (RiskManagerAgent.risk_report_of md ex).
  unfold dict_get. rewrite risk_report_status.
  destruct (fgt md (Fin 0.2) || fgt ex (Fin 1)); reflexivity.
Qed.

End NodeFacts.

(** C8: for the metrics [evaluate] reads from the artifacts, the status is
    "fail" exactly when [max_drawdown] exceeds 0.2 or [exposure] exceeds 1.0
    and "pass" otherwise, [violations] names each metric over its limit, and
    the risk node of a running workflow then sets [failure_reason] to "Risk
    manager vetoed based on limits." and the run ends on the "fail" route. *)
Theorem risk_manager_fails_on_breach `{Runtime}
    (artifacts : gmap string value) (md ex : pyfloat)
    (Hmd : RiskManagerAgent.read_metric artifacts "max_drawdown" = Ok md)
    (Hex : RiskManagerAgent.read_metric artifacts "exposure" = Ok ex) :
  exists report,
    RiskManagerAgent.evaluate artifacts = Ok report /\
    (report !! "status" = Some (VStr "fail")
       <-> fgt md (Fin 0.2) = true \/ fgt ex (Fin 1) = true) /\
    (report !! "status" = Some (VStr "pass")
       <-> ~ (fgt md (Fin 0.2) = true \/ fgt ex (Fin 1) = true)) /\
    report !! "violations"
      = Some (VList (map VStr
          ((if fgt md (Fin 0.2) then ["max_drawdown"] else []) ++
           (if fgt ex (Fin 1) then ["exposure"] else [])))) /\
    forall w st,
      executor_artifacts st = artifacts ->
      node_runs w st = true ->
      exists st',
        risk_manager_node w st = Ok st' /\
        risk_report st' = report /\
        (report !! "status" <> Some (VStr "pass") ->
           failure_reason st' = Some "Risk manager vetoed based on limits." /\
           route_after_risk st' = "fail" /\
           next_target risk st' = END) /\
        (report !! "status" = Some (VStr "pass") ->
           failure_reason st' = failure_reason st /\
           route_after_risk st' = "approval" /\
           next_target risk st' = Goto approval).
Proof.
  exists (RiskManagerAgent.risk_report_of md ex).
  split; [by apply evaluate_reads|].
  rewrite risk_report_status, risk_report_violations.
  split; [|split; [|split]].
  - destruct (fgt md (Fin 0.2)), (fgt ex (Fin 1)); simpl; intuition congruence.
  - destruct (fgt md (Fin 0.2)), (fgt ex (Fin 1)); simpl; intuition congruence.
  - reflexivity.
  - intros w st <- Hrun. eexists. split; [by apply risk_manager_node_runs|].
    apply node_runs_true in Hrun as (_ & Hreason & Hpause & _).
    destruct (fgt md (Fin 0.2) || fgt ex (Fin 1)) eqn:Hbreach.
    + split; [done|]. split; [|intros Hpass; discriminate].
      intros _. split; [done|]. unfold next_target, route_after_risk. simpl.
      rewrite Hpause. done.
    + split; [done|]. split; [intros Hne; done|].
      intros _. split; [done|]. unfold next_target, route_after_risk. simpl.
      rewrite Hpause, Hreason. done.
Qed.

(** The scenario of the specification: a drawdown of 0.25 against the limit
    0.2 fails, names [max_drawdown], and ends the run. *)
Lemma risk_manager_fails_on_breach_witness :
  let artifacts : gmap string value :=
    {[ "risk_metrics" := VDict {[ "max_drawdown" := VFloat (Fin 0.25) ]} ]} in
  let st := set_executor_artifacts artifacts (new_state "H" 2) in
  exists report st',
    RiskManagerAgent.evaluate (H := counter_runtime) artifacts = Ok report /\
    report !! "status" = Some (VStr "fail") /\
    report !! "violations" = Some (VList [VStr "max_drawdown"]) /\
    risk_manager_node (H := counter_runtime) (quiet_world (Fin 0) (Fin 1)) st = Ok st' /\
    failure_reason st' = Some "Risk manager vetoed based on limits." /\
    next_target risk st' = END.
Proof.
  intros artifacts st.
  destruct (risk_manager_fails_on_breach (H := counter_runtime)
              artifacts (Fin 0.25) (Fin 0) eq_refl eq_refl)
    as (report & Hev & Hfail & _ & Hviol & Hnode).
  destruct (Hnode (quiet_world (Fin 0) (Fin 1)) st eq_refl eq_refl)
    as (st' & Hst' & _ & Hhalt & _).
  assert (Hstatus : report !! "status" = Some (VStr "fail")).
  { apply Hfail. left. reflexivity. }
  destruct Hhalt as (Hreason & _ & Hend).
  { rewrite Hstatus. discriminate. }
  exists report, st'. repeat split; assumption.
Defined.

(** C10, as stated: a mapping whose [risk_metrics] lacks [max_drawdown] can
    still fail, on its [exposure]. *)
Lemma missing_metric_can_fail :
  let metrics : gmap string value := {[ "exposure" := VFloat (Fin 2) ]} in
  let artifacts : gmap string value := {[ "risk_metrics" := VDict metrics ]} in
  metrics !! "max_drawdown" = None /\
  exists report,
    RiskManagerAgent.evaluate (H := counter_runtime) artifacts = Ok report /\
    report !! "status" = Some (VStr "fail") /\
    report !! "violations" = Some (VList [VStr "exposure"]).
Proof.
  intros metrics artifacts. split; [reflexivity|].
  exists (RiskManagerAgent.risk_report_of (Fin 0) (Fin 2)).
  split; [|split]; reflexivity.
Qed.

(** C10, amended: the risk manager reads 0.0 for each metric that is
    missing, so a missing metric is never a violation; the status is "pass"
    with no violation when [risk_metrics] is missing or lacks both metrics,
    and when one metric is missing the other alone decides. *)
Theorem risk_manager_missing_metrics `{Runtime}
    (artifacts metrics : gmap string value)
    (Hmetrics : dict_get artifacts "risk_metrics" (VDict ∅) = VDict metrics) :
  (artifacts !! "risk_metrics" = None -> metrics = ∅) /\
  (metrics !! "max_drawdown" = None ->
     RiskManagerAgent.read_metric artifacts "max_drawdown" = Ok (Fin 0)) /\
  (metrics !! "exposure" = None ->
     RiskManagerAgent.read_metric artifacts "exposure" = Ok (Fin 0)) /\
  (metrics !! "max_drawdown" = None -> metrics !! "exposure" = None ->
     exists report,
       RiskManagerAgent.evaluate artifacts = Ok report /\
       report !! "status" = Some (VStr "pass") /\
       report !! "violations" = Some (VList [])) /\
  (metrics !! "max_drawdown" = None ->
     forall ex, RiskManagerAgent.read_metric artifacts "exposure" = Ok ex ->
     exists report,
       RiskManagerAgent.evaluate artifacts = Ok report /\
       report !! "status" = Some (VStr (if fgt ex (Fin 1) then "fail" else "pass")) /\
       report !! "violations"
         = Some (VList (map VStr (if fgt ex (Fin 1) then ["exposure"] else [])))) /\
  (metrics !! "exposure" = None ->
     forall md, RiskManagerAgent.read_metric artifacts "max_drawdown" = Ok md ->
     exists report,
       RiskManagerAgent.evaluate artifacts = Ok report /\
       report !! "status" = Some (VStr (if fgt md (Fin 0.2) then "fail" else "pass")) /\
       report !! "violations"
         = Some (VList (map VStr (if fgt md (Fin 0.2) then ["max_drawdown"] else [])))).
Proof.
  assert (Hread : forall key, metrics !! key = None ->
            RiskManagerAgent.read_metric artifacts key = Ok (Fin 0)).
  { intros key Hkey. unfold RiskManagerAgent.read_metric. rewrite Hmetrics.
    unfold RiskManagerAgent.object_get, dict_get. rewrite Hkey. reflexivity. }
  split; [|split; [|split; [|split; [|split]]]].
  - intros Hnone. unfold dict_get in Hmetrics. rewrite Hnone in Hmetrics. congruence.
  - apply Hread.
  - apply Hread.
  - intros Hmd Hex. exists (RiskManagerAgent.risk_report_of (Fin 0) (Fin 0)).
    split; [apply evaluate_reads; by apply Hread|]. split; reflexivity.
  - intros Hmd ex Hex. exists (RiskManagerAgent.risk_report_of (Fin 0) ex).
    split; [apply evaluate_reads; [by apply Hread | done]|].
    rewrite risk_report_status, risk_report_violations. unfold RiskManagerAgent.breaches.
    change (fgt (Fin 0) (Fin 0.2)) with false. done.
  - intros Hex md Hmd. exists (RiskManagerAgent.risk_report_of md (Fin 0)).
    split; [apply evaluate_reads; [done | by apply Hread]|].
    rewrite risk_report_status, risk_report_violations. unfold RiskManagerAgent.breaches.
    change (fgt (Fin 0) (Fin 1)) with false. rewrite orb_false_r, app_nil_r. done.
Qed.

Lemma risk_manager_missing_metrics_witness :
  exists report,
    RiskManagerAgent.evaluate (H := counter_runtime) {[ "plan" := VList [] ]} = Ok report /\
    report !! "status" = Some (VStr "pass") /\
    report !! "violations" = Some (VList []).
Proof.
  assert (Hmetrics : dict_get ({[ "plan" := VList [] ]} : gmap string value)
                       "risk_metrics" (VDict ∅) = VDict ∅) by reflexivity.
  destruct (risk_manager_missing_metrics (H := counter_runtime)
              {[ "plan" := VList [] ]} ∅ Hmetrics) as (_ & _ & _ & Hpass & _).
  apply Hpass; reflexivity.
Defined.

(** ** counterfactual.py: the generator *)

Section GeneratorFacts.
Context `{Runtime}.
Import Counterfactual.

Lemma cf_step_Raise config p e s e0 i :
  cf_step config p e s (Raise e0) i = Raise e0.
Proof. reflexivity. Qed.

Lemma fold_cf_step_Raise config p e s e0 (ids : list Z) :
  fold_left (cf_step config p e s) ids (Raise e0) = Raise e0.
Proof. induction ids as [|i ids IH]; simpl; [done | by rewrite IH]. Qed.

(** One turn of the loop under a configuration numpy accepts: the noise is
    drawn first, the shift from the generator the noise left. *)
Lemma cf_step_valid config p e s g0 (i : nat) acc :
  valid_config config ->
  cf_step config p e s (Ok (rng_before config (length p) g0 i, acc)) (Z.of_nat i)
  = Ok (rng_before config (length p) g0 (S i), acc ++ [scenario_at config p e s g0 i]).
Proof.
  intros [Hstd Hshift]. unfold cf_step, rng_normal, rng_integers, scenario_at.
  cbn [mbind result_bind]. rewrite Hstd.
  cbn [rng_before].
  destruct (draw_normals (length p) (rng_before config (length p) g0 i)
              (price_noise_std config)) as [noise g1] eqn:Hnoise.
  cbn [mbind result_bind snd].
  assert (Hrange : Z.leb (earnings_shift_days config + 1) (- earnings_shift_days config) = false)
    by (apply Z.leb_gt; lia).
  rewrite Hrange.
  destruct (draw_integer g1 (- earnings_shift_days config) (earnings_shift_days config + 1))
    as [shift g2] eqn:Hshift'.
  reflexivity.
Qed.

(** A configuration numpy refuses raises in the first turn. *)
Lemma cf_step_invalid config p e s g acc i :
  ~ valid_config config ->
  exists e0, cf_step config p e s (Ok (g, acc)) i = Raise e0.
Proof.
  intros Hbad. unfold cf_step, rng_normal, rng_integers. cbn [mbind result_bind].
  destruct (flt (price_noise_std config) (Fin 0)) eqn:Hstd; [by eexists|].
  destruct (draw_normals _ _ _) as [noise g1]. cbn [mbind result_bind].
  destruct (Z.leb (earnings_shift_days config + 1) (- earnings_shift_days config)) eqn:Hrange;
    [by eexists|].
  exfalso. apply Hbad. split; [done|]. apply Z.leb_gt in Hrange. lia.
Qed.

Lemma fold_cf_step_valid config p e s g0 (n a : nat) acc :
  valid_config config ->
  fold_left (cf_step config p e s) (map Z.of_nat (seq a n))
            (Ok (rng_before config (length p) g0 a, acc))
  = Ok (rng_before config (length p) g0 (a + n),
        acc ++ map (scenario_at config p e s g0) (seq a n)).
Proof.
  intros Hvalid. revert a acc.
  induction n as [|n IH]; intros a acc; cbn [seq map fold_left].
  - by rewrite Nat.add_0_r, app_nil_r.
  - rewrite cf_step_valid by done. rewrite IH. cbn [map].
    rewrite <- app_assoc, Nat.add_succ_r. reflexivity.
Qed.

Lemma valid_config_dec config : valid_config config \/ ~ valid_config config.
Proof.
  unfold valid_config.
  destruct (flt (price_noise_std config) (Fin 0)); [right; intros [? _]; done|].
  destruct (Z_le_gt_dec 0 (earnings_shift_days config)); [left | right]; [done|].
  intros [_ ?]. lia.
Qed.

(** The batch of a run that returns: scenario [i] is [scenario_at i]. *)
Lemma generate_counterfactuals_Ok dataset config seed batch :
  generate_counterfactuals dataset config seed = Ok batch ->
  exists p e s,
    0 <= seed /\
    _to_array (dict_get dataset "prices" (VList [])) = Ok p /\
    _to_int_array (dict_get dataset "earnings_dates" (VList [])) = Ok e /\
    _to_array (dict_get dataset "sentiment" (VList [])) = Ok s /\
    batch = map (scenario_at config p e s (seed_state seed))
                (seq 0 (Z.to_nat (scenarios config))).
Proof.
  unfold generate_counterfactuals, default_rng. intros Hgen.
  apply bind_Ok in Hgen as (g & Hg & Hgen).
  apply bind_Ok in Hgen as (p & Hp & Hgen).
  apply bind_Ok in Hgen as (e & He & Hgen).
  apply bind_Ok in Hgen as (s & Hs & Hgen).
  apply bind_Ok in Hgen as ([g' cfs] & Hfold & Hgen).
  injection Hgen as <-.
  destruct (Z.ltb seed 0) eqn:Hseed; [discriminate|]. injection Hg as <-.
  apply Z.ltb_ge in Hseed.
  exists p, e, s. repeat (split; [done|]).
  unfold py_range in Hfold.
  destruct (valid_config_dec config) as [Hvalid | Hbad].
  - change (seed_state seed) with (rng_before config (length p) (seed_state seed) 0) in Hfold.
    rewrite fold_cf_step_valid in Hfold by done.
    injection Hfold as _ <-. reflexivity.
  - destruct (Z.to_nat (scenarios config)) as [|n]; cbn [seq map fold_left] in Hfold.
    + injection Hfold as _ <-. reflexivity.
    + destruct (cf_step_invalid config p e s (seed_state seed) [] (Z.of_nat 0) Hbad) as [e0 He0].
      rewrite He0, fold_cf_step_Raise in Hfold. discriminate.
Qed.

(** The generator returns on every input numpy accepts. *)
Lemma generate_counterfactuals_total dataset config seed p e s :
  0 <= seed ->
  _to_array (dict_get dataset "prices" (VList [])) = Ok p ->
  _to_int_array (dict_get dataset "earnings_dates" (VList [])) = Ok e ->
  _to_array (dict_get dataset "sentiment" (VList [])) = Ok s ->
  valid_config config ->
  generate_counterfactuals dataset config seed
  = Ok (map (scenario_at config p e s (seed_state seed))
            (seq 0 (Z.to_nat (scenarios config)))).
Proof.
  intros Hseed Hp He Hs Hvalid. unfold generate_counterfactuals, default_rng.
  apply Z.ltb_ge in Hseed. rewrite Hseed. cbn [mbind result_bind].
  rewrite Hp. cbn [mbind result_bind]. rewrite He. cbn [mbind result_bind].
  rewrite Hs. cbn [mbind result_bind]. unfold py_range.
  change (seed_state seed) with (rng_before config (length p) (seed_state seed) 0) at 1.
  rewrite fold_cf_step_valid by done. reflexivity.
Qed.

End GeneratorFacts.

(** C6: [generate_counterfactuals] is a function of (dataset, config, seed):
    two invocations on the same three arguments give the same outcome.  A
    batch it returns has [config.scenarios] scenarios (none for a count
    below 0); scenario [i] carries [scenario_id = i], the sentiment negated,
    the prices plus a noise drawn from the generator the scenarios before it
    left and the dates moved by a shift drawn from the generator the noise
    left, which leaves the generator of scenario [i+1].  It returns on every
    seed and configuration numpy accepts. *)
Theorem generate_counterfactuals_deterministic `{Runtime}
    (dataset : gmap string value) (config : Counterfactual.CounterfactualConfig) (seed : Z) :
  (forall r1 r2,
     r1 = Counterfactual.generate_counterfactuals dataset config seed ->
     r2 = Counterfactual.generate_counterfactuals dataset config seed ->
     r1 = r2) /\
  (forall batch,
     Counterfactual.generate_counterfactuals dataset config seed = Ok batch ->
     Z.of_nat (length batch) = Z.max 0 (Counterfactual.scenarios config) /\
     exists p e s,
       _to_array (dict_get dataset "prices" (VList [])) = Ok p /\
       _to_int_array (dict_get dataset "earnings_dates" (VList [])) = Ok e /\
       _to_array (dict_get dataset "sentiment" (VList [])) = Ok s /\
       forall (i : nat) sc, batch !! i = Some sc ->
         let g := Counterfactual.rng_before config (length p) (seed_state seed) i in
         let noise_draw := draw_normals (length p) g (Counterfactual.price_noise_std config) in
         let shift_draw :=
           draw_integer (snd noise_draw)
             (- Counterfactual.earnings_shift_days config)
             (Counterfactual.earnings_shift_days config + 1) in
         Counterfactual.prices sc = zip_with fadd p (fst noise_draw) /\
         Counterfactual.earnings_dates sc = map (fun d => d + fst shift_draw) e /\
         Counterfactual.sentiment sc = map fneg s /\
         Counterfactual.scenario_id sc = Z.of_nat i /\
         Counterfactual.rng_before config (length p) (seed_state seed) (S i) = snd shift_draw) /\
  (forall p e s,
     0 <= seed ->
     _to_array (dict_get dataset "prices" (VList [])) = Ok p ->
     _to_int_array (dict_get dataset "earnings_dates" (VList [])) = Ok e ->
     _to_array (dict_get dataset "sentiment" (VList [])) = Ok s ->
     Counterfactual.valid_config config ->
     exists batch, Counterfactual.generate_counterfactuals dataset config seed = Ok batch).
Proof.
  split; [congruence|]. split.
  - intros batch Hgen.
    apply generate_counterfactuals_Ok in Hgen as (p & e & s & Hseed & Hp & He & Hs & ->).
    split.
    + rewrite length_map, length_seq. lia.
    + exists p, e, s. repeat (split; [done|]).
      intros i sc Hi.
      rewrite list_lookup_fmap in Hi.
      destruct (seq 0 (Z.to_nat (Counterfactual.scenarios config)) !! i) as [j|] eqn:Hj;
        [|discriminate].
      apply lookup_seq in Hj as [-> _]. simpl in Hi. injection Hi as <-.
      unfold Counterfactual.scenario_at. cbv zeta. cbn [Counterfactual.rng_before].
      destruct (draw_normals _ _ _) as [noise g1].
      destruct (draw_integer _ _ _) as [shift g2]. done.
  - intros p e s Hseed Hp He Hs Hvalid. eexists.
    by apply generate_counterfactuals_total.
Qed.

(** A run of the generator on three prices with the counter generator:
    three scenarios, numbered 0, 1, 2, each with the sentiment negated. *)
Example generate_counterfactuals_example :
  let dataset : gmap string value :=
    {[ "prices" := VList [VFloat (Fin 1); VInt 2];
       "earnings_dates" := VList [VInt 10];
       "sentiment" := VList [VFloat (Fin 0.5)] ]} in
  let config := {| Counterfactual.scenarios := 3;
                   Counterfactual.price_noise_std := Fin 0.01;
                   Counterfactual.earnings_shift_days := 3 |} in
  exists batch,
    Counterfactual.generate_counterfactuals (H := counter_runtime) dataset config 7 = Ok batch /\
    map Counterfactual.scenario_id batch = [0; 1; 2] /\
    map Counterfactual.sentiment batch = [[Fin (-0.5)]; [Fin (-0.5)]; [Fin (-0.5)]] /\
    map Counterfactual.earnings_dates batch = [[9]; [12]; [8]].
Proof. intros dataset config. eexists. split; [vm_compute; reflexivity|]. done. Qed.

(** ** graph.py: the critic's consistency check *)

Section CriticScore.
Context `{Runtime}.

Lemma to_array_empty : _to_array (VList []) = Ok [].
Proof. reflexivity. Qed.

Lemma to_int_array_empty : _to_int_array (VList []) = Ok [].
Proof. reflexivity. Qed.

Lemma default_config_valid : Counterfactual.valid_config Counterfactual.default_config.
Proof. split; [reflexivity | simpl; lia]. Qed.

(** The stubbed call of the critic returns its 50 scenarios. *)
Lemma critic_counterfactuals :
  exists cfs,
    Counterfactual.generate_counterfactuals ∅ Counterfactual.default_config 7 = Ok cfs /\
    length cfs = 50%nat.
Proof.
  eexists. split.
  - apply (generate_counterfactuals_total ∅ Counterfactual.default_config 7 [] [] []);
      try reflexivity; [lia | apply default_config_valid].
  - by rewrite length_map, length_seq.
Qed.

(** The stubbed predictions, one empty vector per scenario. *)
Lemma stub_arrays {A} (cfs : list A) :
  mapM _to_array (map (fun _ => VList []) cfs) = Ok (map (fun _ => []) cfs).
Proof.
  induction cfs as [|c cfs IH]; [reflexivity|].
  cbn [map mapM]. cbn [map mapM] in IH. rewrite IH. reflexivity.
Qed.

Lemma Qsum_zero (qs : list Q) :
  Forall (fun q => q == 0)%Q qs -> (Metrics.Qsum qs == 0)%Q.
Proof.
  induction 1 as [|q qs Hq _ IH]; simpl; [reflexivity|]. rewrite Hq, IH. ring.
Qed.

(** Against empty scenario vectors every baseline scores 0. *)
Lemma stub_score {A} (baseline : list pyfloat) (cfs : list A) :
  exists q, Metrics.prediction_consistency baseline (map (fun _ => []) cfs) = Fin q /\ (q == 0)%Q.
Proof.
  destruct baseline as [|b0 baseline]; [exists 0%Q; done|].
  destruct cfs as [|c cfs]; [exists 0%Q; done|].
  eexists. split; [apply prediction_consistency_value; done|].
  rewrite MetricsFacts.fold_Qplus_Qsum.
  rewrite Qsum_zero.
  - unfold Qdiv. ring.
  - apply Forall_forall. intros q Hq. apply list_elem_of_In in Hq.
    apply in_map_iff in Hq as (cf & <- & Hcf).
    apply in_map_iff in Hcf as (c' & <- & _). reflexivity.
Qed.

Lemma flt_proper (q q' : Q) (t : pyfloat) : (q == q')%Q -> flt (Fin q) t = flt (Fin q') t.
Proof.
  intros Hq. destruct t as [x| | |]; simpl; try reflexivity.
  apply Qlt_bool_proper; [done | reflexivity].
Qed.

(** The report the critic agent returns, for the outcome of its pattern
    test. *)
Lemma critic_evaluate_Ok artifacts report :
  CriticAgent.evaluate artifacts = Ok report ->
  exists found : bool,
    CriticAgent.look_ahead_pattern (dict_get artifacts "code_snippet" (VStr "")) = Ok found /\
    report !! "veto" = Some (VBool found) /\
    report !! "confidence" = Some (VFloat (if found then Fin 0.4 else Fin 0.9)) /\
    report !! "critique_score" = Some (VFloat (if found then Fin 0.4 else Fin 0.9)) /\
    report !! "notes" = Some (VStr "Heuristic review completed.").
Proof.
  unfold CriticAgent.evaluate. intros Hev.
  apply bind_Ok in Hev as (found & Hfound & Hev). injection Hev as <-.
  exists found. split; [done|]. destruct found; repeat split; reflexivity.
Qed.

End CriticScore.

Lemma dict_get_Some (d : gmap string value) key default v :
  d !! key = Some v -> dict_get d key default = v.
Proof. unfold dict_get. by intros ->. Qed.

Lemma dict_get_insert_eq (d : gmap string value) key default v :
  dict_get (<[key := v]> d) key default = v.
Proof. unfold dict_get. by rewrite lookup_insert_eq. Qed.

Lemma dict_get_insert_ne (d : gmap string value) key key' default v :
  key <> key' -> dict_get (<[key := v]> d) key' default = dict_get d key' default.
Proof. intros Hne. unfold dict_get. by rewrite lookup_insert_ne. Qed.

(** Reading a field of a state built by assignments. *)
Ltac state_fields :=
  cbn [hypothesis messages market_data code_snippet critique_score human_approval awaiting_approval plan executor_artifacts critic_report compliance_report risk_report retry_count max_retries pause_requested confidence logs failure_reason active_node
       set_messages set_market_data set_code_snippet set_critique_score set_human_approval set_awaiting_approval set_plan set_executor_artifacts set_critic_report set_compliance_report set_risk_report set_retry_count set_pause_requested set_confidence set_logs set_failure_reason set_active_node
       log add_message].

Ltac state_fields_in H :=
  cbn [hypothesis messages market_data code_snippet critique_score human_approval awaiting_approval plan executor_artifacts critic_report compliance_report risk_report retry_count max_retries pause_requested confidence logs failure_reason active_node
       set_messages set_market_data set_code_snippet set_critique_score set_human_approval set_awaiting_approval set_plan set_executor_artifacts set_critic_report set_compliance_report set_risk_report set_retry_count set_pause_requested set_confidence set_logs set_failure_reason set_active_node
       log add_message] in H.

Section CriticNode.
Context `{Runtime}.
Variable cfg : settings.

(** The critic node when its body runs: the veto it leaves in the report,
    and what the veto does to the retry counter and the failure reason. *)
Lemma critic_node_runs w st st' :
  node_runs w st = true ->
  critic_node cfg w st = Ok st' ->
  exists found : bool,
    let veto := found || flt (Fin 0) (PC_THRESHOLD cfg) in
    CriticAgent.look_ahead_pattern
      (dict_get (executor_artifacts st) "code_snippet" (VStr "")) = Ok found /\
    critic_report st' !! "veto" = Some (VBool veto) /\
    retry_count st' =
      (if veto && Z.ltb (retry_count st) (max_retries st)
       then retry_count st + 1 else retry_count st) /\
    failure_reason st' =
      (if veto && negb (Z.ltb (retry_count st) (max_retries st))
       then Some "Max retries exceeded after critic veto." else failure_reason st) /\
    max_retries st' = max_retries st /\
    pause_requested st' = pause_requested st /\
    executor_artifacts st' = executor_artifacts st /\
    plan st' = plan st /\
    risk_report st' = risk_report st /\
    compliance_report st' = compliance_report st /\
    awaiting_approval st' = awaiting_approval st /\
    human_approval st' = human_approval st /\
    active_node st' = "critic" /\
    exists q,
      critic_report st' !! "counterfactual"
        = Some (VDict {[ "prediction_consistency" := VFloat (Fin q) ]}) /\
      (q == 0)%Q /\
      (executor_artifacts st !! "predictions" = None -> q = 0%Q).
Proof.
  intros Hrun Hnode.
  apply node_runs_true in Hrun as (Hens & Hreason & _).
  unfold critic_node in Hnode. cbv zeta in Hnode. rewrite Hens, Hreason in Hnode.
  apply bind_Ok in Hnode as (cfs & _ & Hnode).
  apply bind_Ok in Hnode as (baseline & Hbase & Hnode).
  state_fields_in Hbase.
  assert (Hzero : executor_artifacts st !! "predictions" = None ->
            forall q, Metrics.prediction_consistency baseline
                        (map (fun _ : Counterfactual.scenario => []) cfs) = Fin q ->
                      q = 0%Q).
  { intros Hnone q Hq. unfold dict_get in Hbase. rewrite Hnone in Hbase.
    rewrite to_array_empty in Hbase. injection Hbase as <-.
    unfold Metrics.prediction_consistency in Hq. simpl in Hq. congruence. }
  rewrite stub_arrays in Hnode. cbn [mbind result_bind] in Hnode.
  apply bind_Ok in Hnode as (report & Hreport & Hnode).
  state_fields_in Hreport.
  apply critic_evaluate_Ok in Hreport as (found & Hfound & Hveto & Hconf & Hscore & Hnotes).
  exists found. cbv zeta. split; [done|].
  state_fields_in Hnode.
  rewrite (dict_get_insert_ne _ "counterfactual" "confidence"),
    (dict_get_Some _ _ _ _ Hconf) in Hnode by done.
  cbn [py_float mbind result_bind] in Hnode.
  rewrite (dict_get_insert_ne _ "counterfactual" "critique_score"),
    (dict_get_Some _ _ _ _ Hscore) in Hnode by done.
  cbn [py_float mbind result_bind] in Hnode.
  unfold Metrics.build_consistency_report, dict_item in Hnode.
  rewrite lookup_singleton_eq in Hnode. cbn [mbind result_bind] in Hnode.
  destruct (stub_score baseline cfs) as (q & Hq & Hq0). rewrite Hq in Hnode.
  cbn [value_lt mbind result_bind] in Hnode.
  rewrite (flt_proper q 0 _ Hq0) in Hnode.
  destruct (flt (Fin 0) (PC_THRESHOLD cfg)) eqn:Hbelow.
  - rewrite orb_true_r. state_fields_in Hnode.
    rewrite !dict_get_insert_ne in Hnode by done.
    rewrite (dict_get_Some _ _ _ _ Hnotes) in Hnode.
    cbn [str_add mbind result_bind] in Hnode. state_fields_in Hnode.
    rewrite dict_get_insert_ne, dict_get_insert_eq in Hnode by done.
    cbn [truthy] in Hnode.
    injection Hnode as <-.
    destruct (Z.ltb (retry_count st) (max_retries st)); state_fields;
      rewrite lookup_insert_ne, lookup_insert_eq by done;
      (repeat (split; [done|])); exists q;
      rewrite !lookup_insert_ne, lookup_insert_eq by done; auto.
  - rewrite orb_false_r.
    cbn [mbind result_bind] in Hnode. state_fields_in Hnode.
    rewrite !dict_get_insert_ne in Hnode by done.
    rewrite (dict_get_Some _ _ _ _ Hveto) in Hnode.
    cbn [truthy] in Hnode.
    injection Hnode as <-.
    destruct found, (Z.ltb (retry_count st) (max_retries st)); state_fields;
      rewrite lookup_insert_ne, Hveto by done;
      (repeat (split; [done|])); exists q;
      rewrite lookup_insert_eq; auto.
Qed.

End CriticNode.

(** ** graph.py: the other nodes *)

Lemma code_snippet_has_no_pattern :
  CriticAgent.look_ahead_pattern (VStr ExecutorAgent.code_snippet) = Ok false.
Proof. vm_compute. reflexivity. Qed.

Lemma executor_tools_allowed :
  validate_tool_access EXECUTOR "fetch_market_data" = Ok tt /\
  validate_tool_access EXECUTOR "clean_data" = Ok tt /\
  validate_tool_access EXECUTOR "run_analysis" = Ok tt.
Proof. repeat split; vm_compute; reflexivity. Qed.

(** The artifacts of the executor: the fixed code text, and no
    "predictions" entry. *)
Lemma execute_Ok w plan0 artifacts :
  ExecutorAgent.execute EXECUTOR w plan0 = Ok artifacts ->
  artifacts !! "predictions" = None /\
  artifacts !! "code_snippet" = Some (VStr ExecutorAgent.code_snippet) /\
  exists market analysis,
    run_analysis w market = Ok analysis /\
    artifacts !! "risk_metrics" = Some (dict_get analysis "risk_metrics" (VDict ∅)).
Proof.
  unfold ExecutorAgent.execute. cbv zeta.
  destruct executor_tools_allowed as (-> & -> & ->). cbn [mbind result_bind].
  intros Hex.
  apply bind_Ok in Hex as (market & _ & Hex).
  apply bind_Ok in Hex as (cleaned & _ & Hex).
  apply bind_Ok in Hex as (analysis & Han & Hex).
  injection Hex as <-.
  split; [|split].
  - rewrite !lookup_insert_ne by done. reflexivity.
  - rewrite !lookup_insert_ne by done. reflexivity.
  - exists cleaned, analysis. split; [done|]. by rewrite lookup_insert_eq.
Qed.

Lemma execute_total w plan0 :
  tools_answer w -> exists artifacts, ExecutorAgent.execute EXECUTOR w plan0 = Ok artifacts.
Proof.
  intros (Hfetch & Hclean & Hrun). unfold ExecutorAgent.execute. cbv zeta.
  destruct executor_tools_allowed as (-> & -> & ->). cbn [mbind result_bind].
  destruct (Hfetch ExecutorAgent.market_request) as [market ->]. cbn [mbind result_bind].
  destruct (Hclean market) as [cleaned ->]. cbn [mbind result_bind].
  destruct (Hrun cleaned) as [analysis ->]. cbn [mbind result_bind].
  by eexists.
Qed.

Lemma compliance_review_stub :
  exists report, ComplianceOfficerAgent.review COMPLIANCE [] [] = Ok report.
Proof. eexists. vm_compute. reflexivity. Qed.

Lemma planner_node_runs w st :
  node_runs w st = true ->
  planner_node w st
  = Ok (log "Planner produced research plan"
          (add_message "planner" "Plan created."
             (set_plan (PlannerAgent.plan (hypothesis st)) (set_active_node "planner" st)))).
Proof.
  intros Hrun. apply node_runs_true in Hrun as (Hens & Hreason & _).
  unfold planner_node. cbv zeta. by rewrite Hens, Hreason.
Qed.

Lemma executor_node_runs w st st' :
  node_runs w st = true ->
  executor_node w st = Ok st' ->
  ExecutorAgent.execute EXECUTOR w (plan st) = Ok (executor_artifacts st') /\
  failure_reason st' = failure_reason st /\
  retry_count st' = retry_count st /\
  max_retries st' = max_retries st /\
  pause_requested st' = pause_requested st /\
  critic_report st' = critic_report st /\
  risk_report st' = risk_report st /\
  plan st' = plan st /\
  awaiting_approval st' = awaiting_approval st.
Proof.
  intros Hrun Hnode. apply node_runs_true in Hrun as (Hens & Hreason & _).
  unfold executor_node in Hnode. cbv zeta in Hnode. rewrite Hens, Hreason in Hnode.
  state_fields_in Hnode.
  apply bind_Ok in Hnode as (artifacts & Hart & Hnode).
  apply bind_Ok in Hnode as (report & _ & Hnode).
  injection Hnode as <-. state_fields. done.
Qed.

Lemma executor_node_total w st :
  node_runs w st = true -> tools_answer w -> exists st', executor_node w st = Ok st'.
Proof.
  intros Hrun Htools. apply node_runs_true in Hrun as (Hens & Hreason & _).
  unfold executor_node. cbv zeta. rewrite Hens, Hreason. state_fields.
  destruct (execute_total w (plan st) Htools) as [artifacts ->]. cbn [mbind result_bind].
  destruct compliance_review_stub as [report ->]. cbn [mbind result_bind].
  by eexists.
Qed.

(** The approval node when its body runs and the flag holds neither
    "approve" nor "reject": it waits. *)
Lemma human_approval_node_waits w st :
  node_runs w st = true ->
  (let decision := option_map (fun text => py_lower (py_strip text)) (approval_flag w) in
   decision <> Some "approve" /\ decision <> Some "reject") ->
  human_approval_node w st
  = Ok (log "Awaiting human approval"
          (set_pause_requested true
             (set_awaiting_approval true (set_active_node "human_approval" st)))).
Proof.
  intros Hrun [Hne1 Hne2]. apply node_runs_true in Hrun as (Hens & Hreason & _).
  unfold human_approval_node. cbv zeta. rewrite Hens, Hreason.
  unfold option_map in *.
  rewrite bool_decide_eq_false_2 by done.
  rewrite bool_decide_eq_false_2 by done.
  reflexivity.
Qed.

Section StepFacts.
Context `{Runtime}.
Variable cfg : settings.

Lemma critic_node_total w st baseline found :
  node_runs w st = true ->
  _to_array (dict_get (executor_artifacts st) "predictions" (VList [])) = Ok baseline ->
  CriticAgent.look_ahead_pattern
    (dict_get (executor_artifacts st) "code_snippet" (VStr "")) = Ok found ->
  exists st', critic_node cfg w st = Ok st'.
Proof.
  intros Hrun Hbase Hfound. apply node_runs_true in Hrun as (Hens & Hreason & _).
  assert (Hreport : exists report,
            CriticAgent.evaluate (executor_artifacts st) = Ok report).
  { unfold CriticAgent.evaluate. rewrite Hfound. by eexists. }
  destruct Hreport as [report Hreport].
  pose proof (critic_evaluate_Ok _ _ Hreport) as (found' & _ & Hveto & Hconf & Hscore & Hnotes).
  unfold critic_node. cbv zeta. rewrite Hens, Hreason.
  destruct critic_counterfactuals as (cfs & -> & _). cbn [mbind result_bind].
  state_fields. rewrite Hbase. cbn [mbind result_bind].
  rewrite stub_arrays. cbn [mbind result_bind].
  rewrite Hreport. cbn [mbind result_bind].
  rewrite (dict_get_insert_ne _ "counterfactual" "confidence"),
    (dict_get_Some _ _ _ _ Hconf) by done.
  cbn [py_float mbind result_bind].
  rewrite (dict_get_insert_ne _ "counterfactual" "critique_score"),
    (dict_get_Some _ _ _ _ Hscore) by done.
  cbn [py_float mbind result_bind].
  unfold Metrics.build_consistency_report, dict_item.
  rewrite lookup_singleton_eq. cbn [mbind result_bind].
  destruct (stub_score baseline cfs) as (q & -> & _).
  cbn [value_lt mbind result_bind].
  destruct (flt (Fin q) (PC_THRESHOLD cfg)).
  - state_fields.
    rewrite (dict_get_insert_ne _ "veto" "notes"),
      (dict_get_insert_ne _ "counterfactual" "notes"),
      (dict_get_Some _ _ _ _ Hnotes) by done.
    cbn [str_add mbind result_bind]. by eexists.
  - cbn [mbind result_bind]. by eexists.
Qed.

(** What a node does to the failure reason: it keeps it or assigns one of
    the engine's reasons. *)
Lemma node_reason n w st st' :
  node_function cfg n w st = Ok st' ->
  failure_reason st' = failure_reason st \/
  exists r, failure_reason st' = Some r /\ r ∈ engine_reasons.
Proof.
  intros Hnode.
  destruct (node_runs w st) eqn:Hrun.
  - destruct n; simpl in Hnode.
    + rewrite planner_node_runs in Hnode by done. injection Hnode as <-. by left.
    + apply executor_node_runs in Hnode as (_ & -> & _); [by left | done].
    + apply critic_node_runs in Hnode as (found & _ & _ & _ & -> & _); [|done].
      destruct (_ && _); [right | by left].
      eexists. split; [done|]. unfold engine_reasons. set_solver.
    + destruct (evaluate_Ok_reads (executor_artifacts st)) with
        (report := risk_report st') as (md & ex & Hmd & Hex).
      { apply node_runs_true in Hrun as (Hens & Hreason & _).
        unfold risk_manager_node in Hnode. cbv zeta in Hnode.
        rewrite Hens, Hreason in Hnode. state_fields_in Hnode.
        apply bind_Ok in Hnode as (report & Hrep & Hnode). rewrite Hrep. f_equal.
        state_fields_in Hnode.
        destruct (negb _); injection Hnode as <-; reflexivity. }
      rewrite (risk_manager_node_runs w st md ex Hrun Hmd Hex) in Hnode.
      injection Hnode as <-.
      destruct (_ || _); [right | by left].
      eexists. split; [done|]. unfold engine_reasons. set_solver.
    + apply node_runs_true in Hrun as (Hens & Hreason & _).
      unfold human_approval_node in Hnode. cbv zeta in Hnode.
      rewrite Hens, Hreason in Hnode.
      destruct (bool_decide _); [injection Hnode as <-; by left|].
      destruct (bool_decide _); injection Hnode as <-; [right | by left].
      eexists. split; [done|]. unfold engine_reasons. set_solver.
  - destruct (node_passthrough cfg n w st Hrun) as [Hpass _].
    rewrite Hpass in Hnode. injection Hnode as <-.
    destruct (ensure_not_paused_reason w st) as [-> | ->]; [by left | right].
    eexists. split; [done|]. unfold engine_reasons. set_solver.
Qed.

Lemma engine_reasons_nonempty r : r ∈ engine_reasons -> r <> "".
Proof.
  unfold engine_reasons. intros Hr ->.
  repeat (apply elem_of_cons in Hr as [Hr | Hr]; [discriminate|]).
  by apply elem_of_nil in Hr.
Qed.

(** No node assigns the empty string or clears the reason. *)
Lemma node_reason_nonempty n w st st' :
  node_function cfg n w st = Ok st' ->
  failure_reason st <> Some "" -> failure_reason st' <> Some "".
Proof.
  intros Hnode Hst. destruct (node_reason n w st st' Hnode) as [-> | (r & -> & Hr)]; [done|].
  intros [= ->]. by apply engine_reasons_nonempty in Hr.
Qed.

Lemma node_reason_stays n w st st' :
  node_function cfg n w st = Ok st' ->
  failure_reason st <> None -> failure_reason st' <> None.
Proof.
  intros Hnode Hst. destruct (node_reason n w st st' Hnode) as [-> | (r & -> & Hr)]; done.
Qed.

End StepFacts.

(** ** graph.py: the edges *)

Lemma route_after_critic_cases st :
  (route_after_critic st = "paused" /\ pause_requested st = true) \/
  (route_after_critic st = "fail" /\ pause_requested st = false /\
     truthy_opt (failure_reason st) = true) \/
  (route_after_critic st = "executor" /\ pause_requested st = false /\
     truthy_opt (failure_reason st) = false /\
     truthy (dict_get (critic_report st) "veto" (VBool true)) = true) \/
  (route_after_critic st = "risk" /\ pause_requested st = false /\
     truthy_opt (failure_reason st) = false /\
     truthy (dict_get (critic_report st) "veto" (VBool true)) = false).
Proof.
  unfold route_after_critic.
  destruct (pause_requested st); [by left|].
  destruct (truthy_opt (failure_reason st)); [right; by left|].
  cbv zeta. destruct (truthy _); right; right; [left | right]; done.
Qed.

Lemma approval_ends st : next_target approval st = END.
Proof.
  unfold next_target, route_after_human.
  destruct (pause_requested st); [reflexivity|].
  destruct (truthy_opt _); [reflexivity|].
  destruct (human_approval st); reflexivity.
Qed.

Lemma risk_next st :
  (next_target risk st = END /\
     (pause_requested st = true \/ truthy_opt (failure_reason st) = true)) \/
  (next_target risk st = Goto approval /\ pause_requested st = false /\
     truthy_opt (failure_reason st) = false).
Proof.
  unfold next_target, route_after_risk.
  destruct (pause_requested st); [left; split; [reflexivity | by left]|].
  destruct (truthy_opt _); [left; split; [reflexivity | by right] | right; done].
Qed.

Section EdgeFacts.
Context `{Runtime}.
Variable cfg : settings.

(** The fields no node but the critic, or no node but the approval node,
    assigns. *)
Lemma node_frame n w st st' :
  node_function cfg n w st = Ok st' ->
  max_retries st' = max_retries st /\
  (n <> critic -> retry_count st' = retry_count st) /\
  (n <> approval -> pause_requested st' = pause_requested st).
Proof.
  intros Hnode. destruct (node_runs w st) eqn:Hrun.
  - destruct n; simpl in Hnode.
    + rewrite planner_node_runs in Hnode by done. injection Hnode as <-. done.
    + apply executor_node_runs in Hnode as (_ & _ & -> & -> & -> & _); done.
    + apply critic_node_runs in Hnode as (found & _ & _ & _ & _ & -> & -> & _); done.
    + apply node_runs_true in Hrun as (Hens & Hreason & _).
      unfold risk_manager_node in Hnode. cbv zeta in Hnode.
      rewrite Hens, Hreason in Hnode.
      apply bind_Ok in Hnode as (report & _ & Hnode).
      destruct (negb _); injection Hnode as <-; done.
    + apply node_runs_true in Hrun as (Hens & Hreason & _).
      unfold human_approval_node in Hnode. cbv zeta in Hnode.
      rewrite Hens, Hreason in Hnode.
      destruct (bool_decide _); [injection Hnode as <-; done|].
      destruct (bool_decide _); injection Hnode as <-; done.
  - destruct (node_passthrough cfg n w st Hrun) as [Hpass _].
    rewrite Hpass in Hnode. injection Hnode as <-.
    destruct (ensure_not_paused_frame w st) as (_ & _ & _ & -> & -> & -> & _). done.
Qed.

(** Where the run goes after the critic: to [END]; back to the executor,
    and then a retry was left and has been counted; or on to the risk
    manager, and then the score was not below the threshold. *)
Lemma critic_next w st st' :
  critic_node cfg w st = Ok st' ->
  pause_requested st = false ->
  (next_target critic st' = END /\ truthy_opt (failure_reason st') = true) \/
  (next_target critic st' = Goto executor /\
     node_runs w st = true /\
     retry_count st < max_retries st /\
     retry_count st' = retry_count st + 1 /\
     failure_reason st' = failure_reason st) \/
  (next_target critic st' = Goto risk /\
     node_runs w st = true /\
     flt (Fin 0) (PC_THRESHOLD cfg) = false /\
     failure_reason st' = failure_reason st /\
     retry_count st' = retry_count st).
Proof.
  intros Hnode Hpause. destruct (node_runs w st) eqn:Hrun.
  - pose proof (node_runs_true _ _ Hrun) as (_ & Hreason & _).
    apply critic_node_runs in Hnode
      as (found & _ & Hveto & Hretry & Hfail & _ & Hp & _); [|done].
    rewrite Hpause in Hp.
    unfold next_target, route_after_critic. rewrite Hp. cbv zeta.
    unfold dict_get. rewrite Hveto. cbn [truthy].
    destruct (found || flt (Fin 0) (PC_THRESHOLD cfg)) eqn:Hv; cbn [andb] in *.
    + destruct (Z.ltb (retry_count st) (max_retries st)) eqn:Hlt; cbn [negb] in *.
      * right; left. rewrite Hfail, Hreason. apply Z.ltb_lt in Hlt. done.
      * left. rewrite Hfail. done.
    + right; right. rewrite Hfail, Hreason.
      apply orb_false_iff in Hv as [_ Hv]. done.
  - destruct (node_passthrough cfg critic w st Hrun) as [Hpass Htruthy].
    simpl in Hpass. rewrite Hpass in Hnode. injection Hnode as <-.
    left. split; [|done].
    unfold next_target, route_after_critic.
    destruct (ensure_not_paused_frame w st) as (_ & _ & _ & _ & _ & -> & _).
    rewrite Hpause, Htruthy. reflexivity.
Qed.

End EdgeFacts.

(** ** graph.py: runs of the graph *)

Lemma entries_cons n m trace :
  entries n (m :: trace) = ((if decide (m = n) then 1 else 0) + entries n trace)%nat.
Proof. unfold entries. rewrite filter_cons. destruct (decide (m = n)); reflexivity. Qed.

Section RunFacts.
Context `{Runtime}.
Variable cfg : settings.
Variable env : nat -> world.

Lemma invoke_from_step fuel tick n st :
  invoke_from cfg (S fuel) env tick n st
  = match node_function cfg n (env tick) st with
    | Raise e => ([n], Some (Raise e))
    | Ok st' =>
        match next_target n st' with
        | END => ([n], Some (Ok st'))
        | Goto m =>
            let '(trace, out) := invoke_from cfg fuel env (S tick) m st' in
            (n :: trace, out)
        end
    end.
Proof. reflexivity. Qed.

(** The executor is entered once, and once more for each retry left. *)
Lemma executor_entries_bound fuel tick n st :
  pause_requested st = false ->
  (entries executor (fst (invoke_from cfg fuel env tick n st))
   <= match n with
      | planner | executor => 1 + retries_left st
      | critic => retries_left st
      | risk | approval => 0
      end)%nat.
Proof.
  revert tick n st. induction fuel as [|fuel IH]; intros tick n st Hpause.
  { simpl. unfold entries. simpl. lia. }
  rewrite invoke_from_step.
  destruct (node_function cfg n (env tick) st) as [st'|e] eqn:Hnode.
  2:{ cbn [fst]. rewrite entries_cons. change (entries executor []) with 0%nat.
      destruct n; destruct (decide _); try done; lia. }
  pose proof (node_frame cfg n _ _ _ Hnode) as (Hmax & Hretry & Hp).
  assert (Hleft : n <> critic -> retries_left st' = retries_left st).
  { intros Hn. unfold retries_left. by rewrite Hmax, Hretry. }
  destruct n.
  - change (next_target planner st') with (Goto executor).
    cbv beta iota. pose proof (IH (S tick) executor st') as IHm.
    destruct (invoke_from cfg fuel env (S tick) executor st') as [trace out].
    cbn [fst] in *. rewrite entries_cons.
      destruct (decide _) as [Heq|Hne]; [try discriminate Heq | try (by destruct Hne)].
    rewrite Hleft in IHm by done. rewrite Hp in IHm by done. specialize (IHm Hpause). lia.
  - change (next_target executor st') with (Goto critic).
    cbv beta iota. pose proof (IH (S tick) critic st') as IHm.
    destruct (invoke_from cfg fuel env (S tick) critic st') as [trace out].
    cbn [fst] in *. rewrite entries_cons.
      destruct (decide _) as [Heq|Hne]; [try discriminate Heq | try (by destruct Hne)].
    rewrite Hleft in IHm by done. rewrite Hp in IHm by done. specialize (IHm Hpause). lia.
  - simpl in Hnode.
    destruct (critic_next cfg _ _ _ Hnode Hpause)
      as [[-> _] | [(-> & _ & Hlt & Hinc & _) | (-> & _)]].
    + cbn [fst]. rewrite entries_cons. change (entries executor []) with 0%nat.
      destruct (decide _); try done; lia.
    + cbv beta iota. pose proof (IH (S tick) executor st') as IHm.
      destruct (invoke_from cfg fuel env (S tick) executor st') as [trace out].
      cbn [fst] in *. rewrite entries_cons.
      destruct (decide _) as [Heq|Hne]; [try discriminate Heq | try (by destruct Hne)].
      assert (retries_left st' + 1 = retries_left st)%nat as <-.
      { unfold retries_left. rewrite Hmax, Hinc. lia. }
      rewrite Hp in IHm by done. specialize (IHm Hpause). lia.
    + cbv beta iota. pose proof (IH (S tick) risk st') as IHm.
      destruct (invoke_from cfg fuel env (S tick) risk st') as [trace out].
      cbn [fst] in *. rewrite entries_cons.
      destruct (decide _) as [Heq|Hne]; [try discriminate Heq | try (by destruct Hne)].
      rewrite Hp in IHm by done. specialize (IHm Hpause). lia.
  - destruct (risk_next st') as [[-> _] | (-> & Hp' & _)].
    + cbn [fst]. rewrite entries_cons. change (entries executor []) with 0%nat.
      destruct (decide _); try done; lia.
    + cbv beta iota. pose proof (IH (S tick) approval st' Hp') as IHm.
      destruct (invoke_from cfg fuel env (S tick) approval st') as [trace out].
      cbn [fst] in *. rewrite entries_cons.
      destruct (decide _) as [Heq|Hne]; [try discriminate Heq | try (by destruct Hne)]. lia.
  - rewrite approval_ends. cbn [fst]. rewrite entries_cons.
    change (entries executor []) with 0%nat. destruct (decide _); try done; lia.
Qed.

(** A run ends: with [enough_fuel] the graph returns a state or raises. *)
Lemma invoke_from_ends fuel tick n st :
  pause_requested st = false ->
  (enough_fuel n st <= fuel)%nat ->
  exists out, snd (invoke_from cfg fuel env tick n st) = Some out.
Proof.
  revert tick n st. induction fuel as [|fuel IH]; intros tick n st Hpause Hfuel.
  { destruct n; simpl in Hfuel; lia. }
  rewrite invoke_from_step.
  destruct (node_function cfg n (env tick) st) as [st'|e] eqn:Hnode; [|by eexists].
  pose proof (node_frame cfg n _ _ _ Hnode) as (Hmax & Hretry & Hp).
  assert (Hleft : n <> critic -> retries_left st' = retries_left st).
  { intros Hn. unfold retries_left. by rewrite Hmax, Hretry. }
  assert (Hgo : forall m, pause_requested st' = false -> (enough_fuel m st' <= fuel)%nat ->
            exists out, snd (let '(trace, out) := invoke_from cfg fuel env (S tick) m st'
                             in (n :: trace, out)) = Some out).
  { intros m Hp' Hm. destruct (IH (S tick) m st' Hp' Hm) as [out Hout].
    destruct (invoke_from cfg fuel env (S tick) m st') as [trace out']. by exists out. }
  destruct n.
  - change (next_target planner st') with (Goto executor).
    apply Hgo; [by rewrite Hp | cbn in *; rewrite Hleft by done; lia].
  - change (next_target executor st') with (Goto critic).
    apply Hgo; [by rewrite Hp | cbn in *; rewrite Hleft by done; lia].
  - simpl in Hnode.
    destruct (critic_next cfg _ _ _ Hnode Hpause)
      as [[-> _] | [(-> & _ & Hlt & Hinc & _) | (-> & _)]]; [by eexists| |].
    + apply Hgo; [by rewrite Hp|]. cbn in *.
      assert (retries_left st' + 1 = retries_left st)%nat.
      { unfold retries_left. rewrite Hmax, Hinc. lia. }
      lia.
    + apply Hgo; [by rewrite Hp | cbn in *; lia].
  - destruct (risk_next st') as [[-> _] | (-> & Hp' & _)]; [by eexists|].
    apply Hgo; [done | cbn in *; lia].
  - rewrite approval_ends. by eexists.
Qed.

End RunFacts.

Section VetoRuns.
Context `{Runtime}.
Variable cfg : settings.
Variable env : nat -> world.
Hypothesis Hthreshold : flt (Fin 0) (PC_THRESHOLD cfg) = true.

(** With a threshold above 0 the run never leaves the loop of executor
    and critic for the risk manager, and the state it ends in carries a
    failure reason. *)
Lemma invoke_without_risk fuel tick n st :
  n <> risk -> n <> approval ->
  pause_requested st = false ->
  (risk ∉ fst (invoke_from cfg fuel env tick n st)) /\
  (approval ∉ fst (invoke_from cfg fuel env tick n st)) /\
  forall fs, snd (invoke_from cfg fuel env tick n st) = Some (Ok fs) ->
             truthy_opt (failure_reason fs) = true.
Proof.
  revert tick n st. induction fuel as [|fuel IH]; intros tick n st Hn1 Hn2 Hpause.
  { simpl. repeat split; [apply not_elem_of_nil | apply not_elem_of_nil | discriminate]. }
  rewrite invoke_from_step.
  destruct (node_function cfg n (env tick) st) as [st'|e] eqn:Hnode.
  2:{ cbn [fst snd]. repeat split; [| |discriminate];
      apply not_elem_of_cons; (split; [done | apply not_elem_of_nil]). }
  pose proof (node_frame cfg n _ _ _ Hnode) as (_ & _ & Hp).
  assert (Hgo : forall m, m <> risk -> m <> approval ->
            let r := (let '(trace, out) := invoke_from cfg fuel env (S tick) m st'
                      in (n :: trace, out)) in
            (risk ∉ fst r) /\ (approval ∉ fst r) /\
            forall fs, snd r = Some (Ok fs) -> truthy_opt (failure_reason fs) = true).
  { intros m Hm1 Hm2.
    destruct (IH (S tick) m st' Hm1 Hm2) as (Hr & Ha & Hfs); [by rewrite Hp|].
    destruct (invoke_from cfg fuel env (S tick) m st') as [trace out].
    cbn [fst snd] in *. repeat split; [| |done]; by apply not_elem_of_cons. }
  destruct n; try done.
  - change (next_target planner st') with (Goto executor). by apply Hgo.
  - change (next_target executor st') with (Goto critic). by apply Hgo.
  - simpl in Hnode.
    destruct (critic_next cfg _ _ _ Hnode Hpause)
      as [[-> Hfail] | [(-> & _) | (-> & _ & Hno & _)]].
    + cbn [fst snd]. repeat split.
      * apply not_elem_of_cons; split; [done | apply not_elem_of_nil].
      * apply not_elem_of_cons; split; [done | apply not_elem_of_nil].
      * by intros fs [= <-].
    + by apply Hgo.
    + congruence.
Qed.

Hypothesis Hquiet : forall t, pause_flag_exists (env t) = false.
Hypothesis Htools : forall t, tools_answer (env t).

(** Without a pause and with tools that answer, the loop runs until the
    retries are used up and ends with the reason of the critic. *)
Lemma exhausts_retries k :
  forall fuel tick st,
    retries_left st = k ->
    failure_reason st = None ->
    pause_requested st = false ->
    (2 * k + 2 <= fuel)%nat ->
    exists fs,
      invoke_from cfg fuel env tick executor st
        = (concat (replicate (S k) [executor; critic]), Some (Ok fs)) /\
      failure_reason fs = Some "Max retries exceeded after critic veto.".
Proof.
  induction k as [|k IH]; intros fuel tick st Hk Hreason Hpause Hfuel.
  all: destruct fuel as [|[|fuel]]; [lia | lia |].
  all: rewrite invoke_from_step.
  all: assert (Hrun1 : node_runs (env tick) st = true)
         by (apply node_runs_intro; [done | apply Hquiet | by rewrite Hreason]).
  all: destruct (executor_node_total (env tick) st Hrun1 (Htools tick)) as [st1 Hst1].
  all: cbn [node_function]; rewrite Hst1.
  all: change (next_target executor st1) with (Goto critic); cbv beta iota.
  all: pose proof (executor_node_runs _ _ _ Hrun1 Hst1)
         as (Hexec & Hreason1 & Hretry1 & Hmax1 & Hpause1 & _).
  all: apply execute_Ok in Hexec as (Hpred & Hcode & _).
  all: rewrite Hreason in Hreason1; rewrite Hpause in Hpause1.
  all: assert (Hrun2 : node_runs (env (S tick)) st1 = true)
         by (apply node_runs_intro; [done | apply Hquiet | by rewrite Hreason1]).
  all: destruct (critic_node_total cfg (env (S tick)) st1 [] false Hrun2) as [st2 Hst2];
         [ unfold dict_get; rewrite Hpred; apply to_array_empty
         | unfold dict_get; rewrite Hcode; apply code_snippet_has_no_pattern | ].
  all: rewrite invoke_from_step; cbn [node_function]; rewrite Hst2.
  all: pose proof (critic_node_runs cfg _ _ _ Hrun2 Hst2)
         as (found & _ & _ & Hretry2 & Hreason2 & Hmax2 & Hpause2 & _).
  all: rewrite Hthreshold, orb_true_r in Hretry2, Hreason2; cbn [andb] in Hretry2, Hreason2.
  all: rewrite Hpause1 in Hpause2; rewrite Hreason1 in Hreason2.
  all: unfold retries_left in Hk; rewrite <- Hmax1, <- Hretry1 in Hk.
  all: destruct (critic_next cfg _ _ _ Hst2 Hpause1)
         as [[Hnext Hfail] | [(Hnext & _ & Hlt & _) | (_ & _ & Hno & _)]];
         [ | | congruence ]; rewrite Hnext; cbv beta iota.
  - exists st2. split; [reflexivity|].
    destruct (Z.ltb (retry_count st1) (max_retries st1)) eqn:Hltb; cbn [negb] in Hreason2;
      [rewrite Hreason2 in Hfail; discriminate | done].
  - lia.
  - destruct (Z.ltb (retry_count st1) (max_retries st1)) eqn:Hltb; [|apply Z.ltb_ge in Hltb; lia].
    cbn [negb] in Hreason2. rewrite Hreason2 in Hfail. discriminate.
  - apply Z.ltb_lt in Hlt. rewrite Hlt in Hretry2, Hreason2. cbn [negb] in Hreason2.
    destruct (IH fuel (S (S tick)) st2) as (fs & Hfs & Hend); [ | done | done | lia | ].
    { unfold retries_left. rewrite Hmax2, Hretry2. lia. }
    rewrite Hfs. exists fs. split; [reflexivity | done].
Qed.

End VetoRuns.

Section ApprovalRuns.
Context `{Runtime}.
Variable cfg : settings.
Variable env : nat -> world.

Lemma entry_invariant_next n w st st' m :
  entry_invariant n st ->
  node_function cfg n w st = Ok st' ->
  next_target n st' = Goto m ->
  entry_invariant m st'.
Proof.
  intros (Hne & Hpause & _) Hnode Hnext.
  pose proof (node_reason_nonempty cfg n w st st' Hnode Hne) as Hne'.
  pose proof (node_frame cfg n _ _ _ Hnode) as (_ & _ & Hp).
  assert (Hn : n <> approval).
  { intros ->. rewrite approval_ends in Hnext. discriminate. }
  split; [done|]. split; [by rewrite Hp|].
  intros ->. destruct n; try done; try (by cbn in Hnext).
  - simpl in Hnode. destruct (critic_next cfg _ _ _ Hnode Hpause)
      as [[Heq _] | [(Heq & _) | (Heq & _)]]; congruence.
  - destruct (risk_next st') as [[Heq _] | (_ & _ & Hfalsy)]; [congruence|].
    destruct (failure_reason st') as [r|]; [|done].
    simpl in Hfalsy. apply negb_false_iff, String.eqb_eq in Hfalsy. congruence.
Qed.

Lemma invoke_from_nonempty fuel tick n st trace out :
  invoke_from cfg fuel env tick n st = (trace, Some out) -> trace <> [].
Proof.
  destruct fuel as [|fuel]; [discriminate|]. rewrite invoke_from_step.
  destruct (node_function cfg n (env tick) st) as [st'|e]; [|by intros [= <- _]].
  destruct (next_target n st') as [m|]; [|by intros [= <- _]].
  destruct (invoke_from cfg fuel env (S tick) m st') as [trace' out'].
  by intros [= <- _].
Qed.

(** The state a run of the graph returns: its failure reason is not the
    empty string, and when the last node was the approval node, entered
    without a pause flag and with no approval flag, it is waiting. *)
Lemma invoke_from_final fuel tick n st trace fs :
  invoke_from cfg fuel env tick n st = (trace, Some (Ok fs)) ->
  entry_invariant n st ->
  failure_reason fs <> Some "" /\
  (last trace = Some approval ->
   pause_flag_exists (env (tick + length trace - 1)) = false ->
   approval_flag (env (tick + length trace - 1)) = None ->
   awaiting_approval fs = true /\
   pause_requested fs = true /\
   failure_reason fs = None /\
   route_after_human fs = "paused").
Proof.
  revert tick n st trace. induction fuel as [|fuel IH]; intros tick n st trace Hrun Hinv;
    [discriminate|].
  rewrite invoke_from_step in Hrun.
  destruct (node_function cfg n (env tick) st) as [st'|e] eqn:Hnode; [|discriminate].
  destruct (next_target n st') as [m|] eqn:Hnext.
  - pose proof (entry_invariant_next _ _ _ _ _ Hinv Hnode Hnext) as Hinv'.
    destruct (invoke_from cfg fuel env (S tick) m st') as [trace' out] eqn:Hrest.
    injection Hrun as <- ->.
    destruct (IH _ _ _ _ Hrest Hinv') as [Hne Hwait]. split; [done|].
    pose proof (invoke_from_nonempty _ _ _ _ _ _ Hrest) as Hnonempty.
    destruct trace' as [|n' trace'']; [done|].
    change (last (n :: n' :: trace'')) with (last (n' :: trace'')).
    replace (tick + length (n :: n' :: trace'') - 1)%nat
      with (S tick + length (n' :: trace'') - 1)%nat by (simpl; lia).
    exact Hwait.
  - injection Hrun as <- <-.
    destruct Hinv as (Hne & Hpause & Happroval).
    split; [by eapply node_reason_nonempty|].
    intros Hlast Hflag Hnone. injection Hlast as ->.
    replace (tick + length [approval] - 1)%nat with tick in * by (simpl; lia).
    specialize (Happroval eq_refl).
    simpl in Hnode. rewrite human_approval_node_waits in Hnode.
    + injection Hnode as <-. done.
    + apply node_runs_intro; [done | done | by rewrite Happroval].
    + rewrite Hnone. simpl. done.
Qed.

End ApprovalRuns.

(** * The claims about the workflow *)

(** C1: when the critic node runs and leaves a veto in its report, it
    re-enters the executor, counting the retry, only while [retry_count <
    max_retries]; a veto with [retry_count] at [max_retries] sets
    [failure_reason] to "Max retries exceeded after critic veto." and the
    run ends on the "fail" route.  A run therefore enters the executor at
    most [MAX_RETRIES] times after the first; with [MAX_RETRIES = 0] it
    enters it once. *)
Theorem critic_veto_retry_bound `{Runtime} (cfg : settings) :
  (forall w st st',
     node_runs w st = true ->
     critic_node cfg w st = Ok st' ->
     truthy (dict_get (critic_report st') "veto" (VBool false)) = true ->
     (retry_count st < max_retries st ->
        retry_count st' = retry_count st + 1 /\
        failure_reason st' = failure_reason st /\
        route_after_critic st' = "executor" /\
        next_target critic st' = Goto executor) /\
     (max_retries st <= retry_count st ->
        retry_count st' = retry_count st /\
        failure_reason st' = Some "Max retries exceeded after critic veto." /\
        route_after_critic st' = "fail" /\
        next_target critic st' = END)) /\
  (forall env hypothesis fuel,
     (entries executor (run_trace cfg fuel env hypothesis)
      <= 1 + Z.to_nat (MAX_RETRIES cfg))%nat) /\
  (MAX_RETRIES cfg = 0 ->
   forall env hypothesis fuel,
     (entries executor (run_trace cfg fuel env hypothesis) <= 1)%nat).
Proof.
  assert (Hbound : forall env hypothesis fuel,
            (entries executor (run_trace cfg fuel env hypothesis)
             <= 1 + Z.to_nat (MAX_RETRIES cfg))%nat).
  { intros env hypothesis fuel. unfold run_trace, entry_point.
    pose proof (executor_entries_bound cfg env fuel 0 planner
                  (initial_state cfg hypothesis) eq_refl) as Hle.
    cbn beta iota in Hle. unfold retries_left in Hle.
    change (max_retries (initial_state cfg hypothesis)) with (MAX_RETRIES cfg) in Hle.
    change (retry_count (initial_state cfg hypothesis)) with 0 in Hle.
    rewrite Z.sub_0_r in Hle. exact Hle. }
  split; [|split; [exact Hbound|]].
  - intros w st st' Hrun Hnode Hveto.
    pose proof (node_runs_true _ _ Hrun) as (_ & Hreason & Hpause & _).
    pose proof (critic_node_runs cfg _ _ _ Hrun Hnode)
      as (found & _ & Hreport & Hretry & Hfail & _ & Hp & _).
    unfold dict_get in Hveto. rewrite Hreport in Hveto. cbn [truthy] in Hveto.
    rewrite Hveto in *. cbn [andb] in *. rewrite Hpause in Hp.
    unfold next_target, route_after_critic. rewrite Hp. cbv zeta.
    unfold dict_get. rewrite Hreport. cbn [truthy].
    split.
    + intros Hlt. apply Z.ltb_lt in Hlt. rewrite Hlt in *. cbn [negb] in *.
      rewrite Hfail, Hreason. done.
    + intros Hge. apply Z.ltb_ge in Hge. rewrite Hge in *. cbn [negb] in *.
      rewrite Hfail. done.
  - intros Hzero env hypothesis fuel. specialize (Hbound env hypothesis fuel).
    rewrite Hzero in Hbound. exact Hbound.
Qed.

(** With [MAX_RETRIES = 0] the first veto of a run ends it: the reason is
    the critic's, the edge leads to [END], and the executor was entered
    once. *)
Lemma critic_veto_retry_bound_witness :
  let cfg := {| MAX_RETRIES := 0; PC_THRESHOLD := Fin 0.7 |} in
  let w := quiet_world (Fin 0) (Fin 1) in
  let st := before_critic cfg in
  let st' := state_of (critic_node (H := counter_runtime) cfg w st) st in
  (retry_count st' = retry_count st /\
   failure_reason st' = Some "Max retries exceeded after critic veto." /\
   route_after_critic st' = "fail" /\
   next_target critic st' = END) /\
  (entries executor (run_trace (H := counter_runtime) cfg 20 (fun _ => w) "H") <= 1)%nat.
Proof.
  intros cfg w st st'.
  destruct (critic_veto_retry_bound (H := counter_runtime) cfg) as (Hnode & _ & Hzero).
  split.
  - apply (Hnode w st st'); [vm_compute; reflexivity ..|].
    vm_compute. discriminate.
  - apply Hzero. reflexivity.
Defined.

Section FailedRuns.
Context `{Runtime}.
Variable cfg : settings.
Variable env : nat -> world.

Lemma ensure_not_paused_truthy w st :
  truthy_opt (failure_reason st) = true ->
  truthy_opt (failure_reason (_ensure_not_paused w st)) = true.
Proof. intros Hset. destruct (ensure_not_paused_reason w st) as [-> | ->]; done. Qed.

(** From a state whose failure reason is set, every node of the rest of
    the run passes through: the run returns, with the three reports as they
    were and a failure reason that is set. *)
Lemma invoke_from_failed fuel tick n st trace out :
  truthy_opt (failure_reason st) = true ->
  invoke_from cfg fuel env tick n st = (trace, Some out) ->
  exists fs,
    out = Ok fs /\
    truthy_opt (failure_reason fs) = true /\
    critic_report fs = critic_report st /\
    risk_report fs = risk_report st /\
    compliance_report fs = compliance_report st.
Proof.
  revert tick n st trace. induction fuel as [|fuel IH]; intros tick n st trace Hset Hrun;
    [discriminate|].
  rewrite invoke_from_step in Hrun.
  assert (Hhalt : node_runs (env tick) st = false).
  { unfold node_runs. by rewrite ensure_not_paused_truthy. }
  destruct (node_passthrough cfg n _ _ Hhalt) as [Hpass Hset'].
  rewrite Hpass in Hrun.
  destruct (ensure_not_paused_frame (env tick) st) as (Hc & Hr & Hco & _).
  destruct (next_target n _) as [m|].
  - destruct (invoke_from cfg fuel env (S tick) m _) as [trace' out'] eqn:Hrest.
    injection Hrun as <- ->.
    destruct (IH _ _ _ _ Hset' Hrest) as (fs & -> & Hfs & Hc' & Hr' & Hco').
    exists fs. rewrite Hc', Hr', Hco'. done.
  - injection Hrun as <- <-. eexists. done.
Qed.

End FailedRuns.

(** C9, as stated: the empty string is a failure reason that is not null
    and stops nothing; the risk manager runs and replaces its report. *)
Lemma empty_reason_does_not_stop :
  let st := set_failure_reason (Some "") (new_state "H" 2) in
  failure_reason st <> None /\
  exists st',
    risk_manager_node (H := counter_runtime) (quiet_world (Fin 0) (Fin 1)) st = Ok st' /\
    risk_report st' <> risk_report st.
Proof.
  intros st. split; [discriminate|].
  eexists. split; [vm_compute; reflexivity|].
  intros Heq. apply (f_equal (fun m : gmap string value => m !! "status")) in Heq.
  vm_compute in Heq. discriminate.
Qed.

(** C9, amended: no node ever clears [failure_reason] to null; and from a
    state whose [failure_reason] is a non-empty string every node is a
    passthrough, so every node executed afterwards, to the end of the run,
    leaves [critic_report], [risk_report] and [compliance_report] as they
    were and the reason set. *)
Theorem failure_reason_monotonic `{Runtime} (cfg : settings) :
  (forall n w st st',
     node_function cfg n w st = Ok st' ->
     failure_reason st <> None -> failure_reason st' <> None) /\
  (forall n w st reason,
     failure_reason st = Some reason -> reason <> "" ->
     exists st',
       node_function cfg n w st = Ok st' /\
       failure_reason st' <> None /\
       failure_reason st' <> Some "" /\
       critic_report st' = critic_report st /\
       risk_report st' = risk_report st /\
       compliance_report st' = compliance_report st) /\
  (forall env fuel tick n st reason trace out,
     failure_reason st = Some reason -> reason <> "" ->
     invoke_from cfg fuel env tick n st = (trace, Some out) ->
     exists fs,
       out = Ok fs /\
       failure_reason fs <> None /\
       critic_report fs = critic_report st /\
       risk_report fs = risk_report st /\
       compliance_report fs = compliance_report st).
Proof.
  assert (Htruthy : forall st reason,
            failure_reason st = Some reason -> reason <> "" ->
            truthy_opt (failure_reason st) = true).
  { intros st reason -> Hne. simpl. apply negb_true_iff, String.eqb_neq. done. }
  assert (Hset : forall o, truthy_opt o = true -> o <> None /\ o <> Some "").
  { intros [r|] Ho; [|discriminate]. split; [done|]. intros [= ->]. discriminate. }
  split; [|split].
  - intros n w st st'. apply node_reason_stays.
  - intros n w st reason Hreason Hne.
    assert (Hhalt : node_runs w st = false).
    { unfold node_runs. rewrite ensure_not_paused_truthy; [done | by eapply Htruthy]. }
    destruct (node_passthrough cfg n w st Hhalt) as [Hpass Hstill].
    destruct (ensure_not_paused_frame w st) as (Hc & Hr & Hco & _).
    destruct (Hset _ Hstill). eexists. split; [exact Hpass|]. done.
  - intros env fuel tick n st reason trace out Hreason Hne Hrun.
    destruct (invoke_from_failed cfg env _ _ _ _ _ _ (Htruthy _ _ Hreason Hne) Hrun)
      as (fs & -> & Hfs & Hreports).
    exists fs. destruct (Hset _ Hfs). done.
Qed.

(** After the risk manager's veto the approval node changes no report. *)
Lemma failure_reason_monotonic_witness :
  let st := set_failure_reason (Some "Risk manager vetoed based on limits.")
              (before_critic default_settings) in
  exists st',
    human_approval_node (quiet_world (Fin 0) (Fin 1)) st = Ok st' /\
    failure_reason st' <> None /\
    failure_reason st' <> Some "" /\
    critic_report st' = critic_report st /\
    risk_report st' = risk_report st /\
    compliance_report st' = compliance_report st.
Proof.
  intros st.
  destruct (failure_reason_monotonic (H := counter_runtime) default_settings) as (_ & Hnode & _).
  apply (Hnode approval (quiet_world (Fin 0) (Fin 1)) st
           "Risk manager vetoed based on limits."); [reflexivity | discriminate].
Defined.

Lemma ensure_not_paused_again w st :
  _ensure_not_paused w (set_failure_reason (Some "Paused by operator.") st)
  = set_failure_reason (Some "Paused by operator.") st.
Proof. unfold _ensure_not_paused. destruct (_ || _); reflexivity. Qed.

(** C2, as stated: a pause flag present before the planner runs ends the
    run on the "fail" route, and [run_graph] raises; the run is not
    terminal-paused. *)
Lemma operator_pause_fails :
  run_trace (H := counter_runtime) default_settings 20 (pause_at 0) "H"
    = [planner; executor; critic] /\
  (exists fs,
     snd (invoke_from (H := counter_runtime) default_settings 20 (pause_at 0) 0
            entry_point (initial_state default_settings "H")) = Some (Ok fs) /\
     pause_requested fs = false /\
     route_after_critic fs = "fail") /\
  run_graph (H := counter_runtime) default_settings 20 (pause_at 0) "H"
    = Some (Raise (RuntimeError "Paused by operator.")).
Proof.
  split; [vm_compute; reflexivity|]. split; [|vm_compute; reflexivity].
  eexists. split; [vm_compute; reflexivity|]. split; reflexivity.
Qed.

(** C2, amended: when the pause flag is present before the planner runs,
    the planner is a no-op (no plan, no artifacts, no message),
    [active_node] stays the empty string, [failure_reason] becomes "Paused
    by operator." and [pause_requested] stays false; the executor and the
    critic pass the state through, the router after the critic answers
    "fail", and [run_graph] raises with that reason. *)
Theorem pause_before_planner `{Runtime}
    (cfg : settings) (env : nat -> world) (hypothesis0 : string)
    (Hflag : pause_flag_exists (env 0%nat) = true) :
  let st0 := initial_state cfg hypothesis0 in
  let halted := set_failure_reason (Some "Paused by operator.") st0 in
  planner_node (env 0%nat) st0 = Ok halted /\
  plan halted = [] /\
  executor_artifacts halted = ∅ /\
  messages halted = messages st0 /\
  active_node halted = "" /\
  pause_requested halted = false /\
  route_after_critic halted = "fail" /\
  forall fuel, (3 <= fuel)%nat ->
    invoke_from cfg fuel env 0 entry_point st0
      = ([planner; executor; critic], Some (Ok halted)) /\
    run_graph cfg fuel env hypothesis0 = Some (Raise (RuntimeError "Paused by operator.")).
Proof.
  intros st0 halted.
  assert (Hplanner : planner_node (env 0%nat) st0 = Ok halted).
  { unfold planner_node, _ensure_not_paused. cbv zeta. rewrite Hflag, orb_true_r. reflexivity. }
  assert (Hpass : forall n w, node_function cfg n w halted = Ok halted).
  { intros n w.
    destruct (node_passthrough cfg n w halted) as [Hn _].
    { unfold node_runs, halted. by rewrite ensure_not_paused_again. }
    rewrite Hn. unfold halted. by rewrite ensure_not_paused_again. }
  repeat (split; [done|]).
  intros fuel Hfuel.
  assert (Hrun : invoke_from cfg fuel env 0 entry_point st0
                 = ([planner; executor; critic], Some (Ok halted))).
  { destruct fuel as [|[|[|fuel]]]; try lia. unfold entry_point.
    rewrite invoke_from_step. cbn [node_function]. rewrite Hplanner.
    change (next_target planner halted) with (Goto executor). cbv beta iota.
    rewrite invoke_from_step, Hpass.
    change (next_target executor halted) with (Goto critic). cbv beta iota.
    rewrite invoke_from_step, Hpass.
    change (next_target critic halted) with END. reflexivity. }
  split; [exact Hrun|].
  unfold run_graph. fold st0. rewrite Hrun. reflexivity.
Qed.

Lemma pause_before_planner_witness :
  let st0 := initial_state default_settings "H" in
  let halted := set_failure_reason (Some "Paused by operator.") st0 in
  planner_node (pause_at 0 0) st0 = Ok halted /\
  active_node halted = "" /\
  run_graph (H := counter_runtime) default_settings 3 (pause_at 0) "H"
    = Some (Raise (RuntimeError "Paused by operator.")).
Proof.
  intros st0 halted.
  destruct (pause_before_planner (H := counter_runtime) default_settings (pause_at 0) "H"
              eq_refl) as (Hplanner & _ & _ & _ & Hactive & _ & _ & Hrun).
  destruct (Hrun 3%nat) as [_ Hraise]; [lia|].
  repeat split; assumption.
Defined.

(** C3, as stated: a run that has reached the critic, and been vetoed by
    it, need not end with the critic's reason; a pause flag that appears
    during the retry ends it with "Paused by operator.". *)
Lemma pause_during_retries :
  run_trace (H := counter_runtime) default_settings 20 (pause_at 3) "H"
    = [planner; executor; critic; executor; critic] /\
  run_graph (H := counter_runtime) default_settings 20 (pause_at 3) "H"
    = Some (Raise (RuntimeError "Paused by operator.")).
Proof. split; vm_compute; reflexivity. Qed.

(** C3, amended: under a threshold above 0, the default 0.7 included, the
    executor writes no "predictions" artifact, every run of the critic node
    scores 0.0 and leaves [veto = true]; no run of [run_graph] enters the
    risk or the approval node, every run raises, and done and
    approval-paused are unreachable.  When no pause flag is observed and
    the executor's tools answer, the run uses up its retries and raises
    with "Max retries exceeded after critic veto.". *)
Theorem critic_always_vetoes `{Runtime}
    (cfg : settings) (Hthreshold : flt (Fin 0) (PC_THRESHOLD cfg) = true) :
  (forall w plan0 artifacts,
     ExecutorAgent.execute EXECUTOR w plan0 = Ok artifacts ->
     artifacts !! "predictions" = None) /\
  (forall w st st',
     node_runs w st = true ->
     critic_node cfg w st = Ok st' ->
     critic_report st' !! "veto" = Some (VBool true) /\
     exists q,
       critic_report st' !! "counterfactual"
         = Some (VDict {[ "prediction_consistency" := VFloat (Fin q) ]}) /\
       (q == 0)%Q /\
       (executor_artifacts st !! "predictions" = None -> q = 0%Q)) /\
  (forall env hypothesis0 fuel,
     (risk ∉ run_trace cfg fuel env hypothesis0) /\
     (approval ∉ run_trace cfg fuel env hypothesis0) /\
     (forall r, run_graph cfg fuel env hypothesis0 = Some r -> exists e, r = Raise e)) /\
  (forall env hypothesis0 fuel,
     (2 * Z.to_nat (MAX_RETRIES cfg) + 5 <= fuel)%nat ->
     exists e, run_graph cfg fuel env hypothesis0 = Some (Raise e)) /\
  (forall env hypothesis0 fuel,
     (forall t, pause_flag_exists (env t) = false) ->
     (forall t, tools_answer (env t)) ->
     (2 * Z.to_nat (MAX_RETRIES cfg) + 3 <= fuel)%nat ->
     run_trace cfg fuel env hypothesis0
       = planner :: concat (replicate (S (Z.to_nat (MAX_RETRIES cfg))) [executor; critic]) /\
     run_graph cfg fuel env hypothesis0
       = Some (Raise (RuntimeError "Max retries exceeded after critic veto."))).
Proof.
  assert (Hraises : forall env hypothesis0 fuel r,
            run_graph cfg fuel env hypothesis0 = Some r -> exists e, r = Raise e).
  { intros env hypothesis0 fuel r. unfold run_graph, entry_point.
    destruct (invoke_without_risk cfg env Hthreshold fuel 0 planner
                (initial_state cfg hypothesis0)) as (_ & _ & Hfs); [done ..|].
    destruct (snd (invoke_from cfg fuel env 0 planner (initial_state cfg hypothesis0)))
      as [[fs|e]|]; [| intros [= <-]; by eexists | discriminate].
    unfold finish. rewrite (Hfs fs eq_refl). intros [= <-]. by eexists. }
  split; [|split; [|split; [|split]]].
  - intros w plan0 artifacts Hex. by apply execute_Ok in Hex as (? & _).
  - intros w st st' Hrun Hnode.
    destruct (critic_node_runs cfg _ _ _ Hrun Hnode)
      as (found & _ & Hveto & _ & _ & _ & _ & _ & _ & _ & _ & _ & _ & _ & Hscore).
    rewrite Hthreshold, orb_true_r in Hveto. done.
  - intros env hypothesis0 fuel.
    destruct (invoke_without_risk cfg env Hthreshold fuel 0 planner
                (initial_state cfg hypothesis0)) as (Hrisk & Happroval & _); [done ..|].
    repeat split; [done | done | apply Hraises].
  - intros env hypothesis0 fuel Hfuel.
    destruct (invoke_from_ends cfg env fuel 0 planner (initial_state cfg hypothesis0))
      as [out Hout]; [done | |].
    { cbn. unfold retries_left.
      change (max_retries (initial_state cfg hypothesis0)) with (MAX_RETRIES cfg).
      change (retry_count (initial_state cfg hypothesis0)) with 0.
      rewrite Z.sub_0_r. lia. }
    assert (Hsome : exists r, run_graph cfg fuel env hypothesis0 = Some r).
    { unfold run_graph, entry_point. rewrite Hout. destruct out; by eexists. }
    destruct Hsome as [r Hr]. destruct (Hraises _ _ _ _ Hr) as [e ->]. by exists e.
  - intros env hypothesis0 fuel Hquiet Htools Hfuel.
    destruct fuel as [|fuel]; [lia|].
    assert (Hrun0 : node_runs (env 0%nat) (initial_state cfg hypothesis0) = true).
    { apply node_runs_intro; [done | apply Hquiet | done]. }
    set (st1 := log "Planner produced research plan"
                  (add_message "planner" "Plan created."
                     (set_plan (PlannerAgent.plan (hypothesis (initial_state cfg hypothesis0)))
                        (set_active_node "planner" (initial_state cfg hypothesis0))))).
    destruct (exhausts_retries cfg env Hthreshold Hquiet Htools
                (Z.to_nat (MAX_RETRIES cfg)) fuel 1 st1) as (fs & Hloop & Hreason);
      [ | done | done | lia | ].
    { unfold retries_left, st1. state_fields. simpl. by rewrite Z.sub_0_r. }
    assert (Hinvoke : invoke_from cfg (S fuel) env 0 planner (initial_state cfg hypothesis0)
              = (planner :: concat (replicate (S (Z.to_nat (MAX_RETRIES cfg)))
                                      [executor; critic]), Some (Ok fs))).
    { rewrite invoke_from_step. cbn [node_function].
      rewrite planner_node_runs by done. fold st1.
      change (next_target planner st1) with (Goto executor). cbv beta iota.
      rewrite Hloop. reflexivity. }
    unfold run_trace, run_graph, entry_point. rewrite Hinvoke. cbn [fst snd].
    split; [reflexivity|]. unfold finish. rewrite Hreason. reflexivity.
Qed.

(** Under the default settings and in a quiet world the run is planner,
    then executor and critic three times, and raises with the critic's
    reason. *)
Lemma critic_always_vetoes_witness :
  run_trace (H := counter_runtime) default_settings 7 (fun _ => quiet_world (Fin 0) (Fin 1)) "H"
    = [planner; executor; critic; executor; critic; executor; critic] /\
  run_graph (H := counter_runtime) default_settings 7 (fun _ => quiet_world (Fin 0) (Fin 1)) "H"
    = Some (Raise (RuntimeError "Max retries exceeded after critic veto.")).
Proof.
  destruct (critic_always_vetoes (H := counter_runtime) default_settings eq_refl)
    as (_ & _ & _ & _ & Hquiet).
  apply (Hquiet (fun _ => quiet_world (Fin 0) (Fin 1)) "H" 7%nat).
  - reflexivity.
  - intros t. repeat split; intros x; eexists; reflexivity.
  - simpl. lia.
Defined.

(** C7: when the approval node runs and finds no approval flag, it sets
    [awaiting_approval] and [pause_requested], leaves [failure_reason] as
    it was, and the run ends on the "paused" route; a run of the graph
    whose last node is that approval node returns a state with no failure
    reason, and [run_graph] returns it without raising.  For the state the
    graph returns, [run_graph] raises exactly when its [failure_reason] is
    not null. *)
Theorem approval_absent_pauses `{Runtime} (cfg : settings) :
  (forall w st,
     node_runs w st = true ->
     approval_flag w = None ->
     exists st',
       human_approval_node w st = Ok st' /\
       awaiting_approval st' = true /\
       pause_requested st' = true /\
       failure_reason st' = failure_reason st /\
       route_after_human st' = "paused" /\
       next_target approval st' = END) /\
  (forall env hypothesis0 fuel trace fs,
     invoke_from cfg fuel env 0 entry_point (initial_state cfg hypothesis0)
       = (trace, Some (Ok fs)) ->
     ((exists e, run_graph cfg fuel env hypothesis0 = Some (Raise e))
        <-> failure_reason fs <> None) /\
     (failure_reason fs = None -> run_graph cfg fuel env hypothesis0 = Some (Ok fs)) /\
     (last trace = Some approval ->
      pause_flag_exists (env (length trace - 1)%nat) = false ->
      approval_flag (env (length trace - 1)%nat) = None ->
      awaiting_approval fs = true /\
      pause_requested fs = true /\
      failure_reason fs = None /\
      route_after_human fs = "paused" /\
      run_graph cfg fuel env hypothesis0 = Some (Ok fs))).
Proof.
  split.
  - intros w st Hrun Hnone. eexists. split.
    + apply human_approval_node_waits; [done|]. rewrite Hnone. simpl. done.
    + apply node_runs_true in Hrun as (_ & Hreason & _).
      state_fields. repeat (split; [done|]). apply approval_ends.
  - intros env hypothesis0 fuel trace fs Hinvoke.
    destruct (invoke_from_final cfg env _ _ _ _ _ _ Hinvoke) as [Hne Hwait].
    { repeat split; done. }
    assert (Hrun : run_graph cfg fuel env hypothesis0 = Some (finish fs)).
    { unfold run_graph. by rewrite Hinvoke. }
    assert (Hnull : failure_reason fs = None -> finish fs = Ok fs).
    { intros Hnone. unfold finish. by rewrite Hnone. }
    split; [|split].
    + rewrite Hrun. unfold finish.
      destruct (failure_reason fs) as [reason|] eqn:Hreason; simpl.
      * destruct (String.eqb reason "") eqn:Hempty.
        { apply String.eqb_eq in Hempty. congruence. }
        simpl. split; [done | intros _; by eexists].
      * split; [intros [e [=]] | done].
    + intros Hnone. by rewrite Hrun, Hnull.
    + intros Hlast Hflag Happroval.
      destruct Hwait as (Haw & Hp & Hnone & Hroute); [done ..|].
      repeat (split; [done|]). by rewrite Hrun, Hnull.
Qed.

(** With a threshold of 0 the critic does not veto, the risk manager
    passes, and the run ends waiting at the approval node. *)
Lemma approval_absent_pauses_witness :
  let cfg := {| MAX_RETRIES := 0; PC_THRESHOLD := Fin 0 |} in
  let env := fun _ : nat => quiet_world (Fin 0) (Fin 1) in
  let r := invoke_from (H := counter_runtime) cfg 20 env 0 entry_point (initial_state cfg "H") in
  let fs := state_of (default (Raise (RuntimeError "")) (snd r)) (initial_state cfg "H") in
  fst r = [planner; executor; critic; risk; approval] /\
  awaiting_approval fs = true /\
  pause_requested fs = true /\
  failure_reason fs = None /\
  route_after_human fs = "paused" /\
  run_graph (H := counter_runtime) cfg 20 env "H" = Some (Ok fs).
Proof.
  intros cfg env r fs.
  destruct (approval_absent_pauses (H := counter_runtime) cfg) as [_ Hrun].
  split; [vm_compute; reflexivity|].
  apply (Hrun env "H" 20%nat (fst r) fs); vm_compute; reflexivity.
Defined.

(** * Further properties of the code *)

(** ** metrics.py *)

(** The score of a non-degenerate input, with its bounds and the two
    characterisations of a full score. *)
Lemma prediction_consistency_spec (baseline : list pyfloat) (cfs : list (list pyfloat)) :
  baseline <> [] -> cfs <> [] ->
  exists q : Q,
    Metrics.prediction_consistency baseline cfs = Fin q /\
    (q == Metrics.Qsum (map (Metrics.match_fraction baseline) cfs)
          / inject_Z (Z.of_nat (length cfs)))%Q /\
    (0 <= q <= 1)%Q /\
    ((q == 1)%Q <-> Forall (Metrics.signs_agree baseline) cfs).
Proof.
  intros Hb Hc. eexists. split; [apply prediction_consistency_value; done|].
  set (qs := map (Metrics.match_fraction baseline) cfs).
  assert (Hqs : Forall (fun q => 0 <= q <= 1)%Q qs).
  { apply Forall_forall. intros q Hq. apply list_elem_of_In in Hq.
    unfold qs in Hq. apply in_map_iff in Hq as (cf & <- & _).
    by apply MetricsFacts.match_fraction_bounds. }
  assert (Hlen : length qs = length cfs) by apply length_map.
  assert (Hpos : (0 < inject_Z (Z.of_nat (length cfs)))%Q).
  { change 0%Q with (inject_Z 0). rewrite <- Zlt_Qlt. destruct cfs; [done | simpl; lia]. }
  assert (Hnz : ~ (inject_Z (Z.of_nat (length cfs)) == 0)%Q).
  { intros E. rewrite E in Hpos. exact (Qlt_irrefl _ Hpos). }
  assert (Hsum : (fold_left Qplus qs 0%Q == Metrics.Qsum qs)%Q).
  { rewrite MetricsFacts.fold_Qplus_Qsum. ring. }
  pose proof (MetricsFacts.Qsum_bounds qs Hqs) as [Hlo Hhi]. rewrite Hlen in Hhi.
  rewrite Hsum. split; [reflexivity|]. split.
  - split.
    + apply Qle_shift_div_l; [done|]. by rewrite Qmult_0_l.
    + apply Qle_shift_div_r; [done|]. by rewrite Qmult_1_l.
  - transitivity (Forall (fun q => q == 1)%Q qs).
    + rewrite <- (MetricsFacts.Qsum_full qs Hqs), Hlen. split.
      * intros Hq.
        rewrite <- (Qmult_div_r (Metrics.Qsum qs) (inject_Z (Z.of_nat (length cfs)))) by done.
        rewrite Hq. ring.
      * intros Hq. rewrite Hq. field. done.
    + unfold qs. rewrite Forall_fmap. apply Forall_iff. intros cf. simpl.
      by apply MetricsFacts.match_fraction_one.
Qed.

Lemma fold_pc_step_signs baseline baseline' cfs cfs' matches :
  map np_sign baseline = map np_sign baseline' ->
  map (map np_sign) cfs = map (map np_sign) cfs' ->
  fold_left (Metrics.pc_step baseline (map np_sign baseline)) cfs matches
  = fold_left (Metrics.pc_step baseline' (map np_sign baseline')) cfs' matches.
Proof.
  intros Hb. assert (Hlen : length baseline = length baseline').
  { by rewrite <- (length_map np_sign baseline), Hb, length_map. }
  revert cfs' matches. induction cfs as [|cf cfs IH]; intros [|cf' cfs'] matches Hc;
    try discriminate; [reflexivity|].
  cbn [map] in Hc. injection Hc as Hcf Hcfs. cbn [fold_left].
  assert (Hstep : Metrics.pc_step baseline (map np_sign baseline) matches cf
                  = Metrics.pc_step baseline' (map np_sign baseline') matches cf').
  { unfold Metrics.pc_step. cbv zeta. rewrite <- Hb, <- Hcf, <- Hlen.
    by rewrite <- (length_map np_sign cf), Hcf, length_map. }
  rewrite Hstep. by apply IH.
Qed.

(** X1: the score reads nothing of its inputs but the signs: two inputs
    whose baselines have the same signs and whose scenarios have the same
    signs, position by position, get the same score. *)
Theorem prediction_consistency_sign_only
    (baseline baseline' : list pyfloat) (cfs cfs' : list (list pyfloat))
    (Hbaseline : map np_sign baseline = map np_sign baseline')
    (Hcfs : map (map np_sign) cfs = map (map np_sign) cfs') :
  Metrics.prediction_consistency baseline cfs = Metrics.prediction_consistency baseline' cfs'.
Proof.
  assert (Hlen : length baseline = length baseline').
  { by rewrite <- (length_map np_sign baseline), Hbaseline, length_map. }
  unfold Metrics.prediction_consistency. rewrite <- Hlen.
  assert (Hnil : match cfs with [] => true | _ => false end
                 = match cfs' with [] => true | _ => false end).
  { destruct cfs, cfs'; done. }
  rewrite <- Hnil. destruct (_ || _); [reflexivity|]. cbv zeta.
  by rewrite (fold_pc_step_signs baseline baseline' cfs cfs').
Qed.

Lemma prediction_consistency_sign_only_witness :
  Metrics.prediction_consistency [Fin 1; Fin (-2); Fin 0] [[Fin 3; Fin 1; Fin 0]; [PInf]]
  = Metrics.prediction_consistency [Fin 0.5; NInf; Fin 0] [[PInf; Fin 7; Fin 0]; [Fin 2]].
Proof.
  apply (prediction_consistency_sign_only
           [Fin 1; Fin (-2); Fin 0] [Fin 0.5; NInf; Fin 0]
           [[Fin 3; Fin 1; Fin 0]; [PInf]] [[PInf; Fin 7; Fin 0]; [Fin 2]]);
    reflexivity.
Defined.

Lemma sign_matches_self x : Metrics.sign_matches x x = true <-> x <> NaN.
Proof.
  unfold Metrics.sign_matches. destruct x as [q| | |]; simpl; try done.
  destruct (Qlt_bool q 0); [done|]. destruct (Qlt_bool 0 q); done.
Qed.

Lemma sign_matches_nan x : Metrics.sign_matches x NaN = false.
Proof.
  unfold Metrics.sign_matches. destruct x as [q| | |]; simpl; try done.
  destruct (Qlt_bool q 0); [done|]. destruct (Qlt_bool 0 q); done.
Qed.

(** X2: a baseline scored against copies of itself reaches 1.0 exactly
    when it holds no NaN; a baseline with a NaN stays below 1.0 against
    every non-empty list of scenarios, copies of itself included. *)
Theorem prediction_consistency_nan
    (baseline : list pyfloat) (Hbaseline : baseline <> []) :
  (forall n, exists q,
     Metrics.prediction_consistency baseline (replicate (S n) baseline) = Fin q /\
     ((q == 1)%Q <-> NaN ∉ baseline)) /\
  (NaN ∈ baseline ->
   forall cfs, cfs <> [] ->
   exists q, Metrics.prediction_consistency baseline cfs = Fin q /\ (q < 1)%Q).
Proof.
  assert (Hnan : NaN ∈ baseline -> forall cf, ~ Metrics.signs_agree baseline cf).
  { intros Hin cf [Hlen Hall]. apply list_elem_of_lookup in Hin as [i Hi].
    destruct (lookup_lt_is_Some_2 cf i) as [x Hx].
    { rewrite Hlen. by eapply lookup_lt_Some. }
    specialize (Hall i x NaN Hx Hi). by rewrite sign_matches_nan in Hall. }
  split.
  - intros n.
    destruct (prediction_consistency_spec baseline (replicate (S n) baseline))
      as (q & Hq & _ & _ & Hone); [done | done |].
    exists q. split; [done|]. rewrite Hone. split.
    + intros Hall Hin. inversion Hall as [|? ? Hfirst _]; subst.
      by apply (Hnan Hin baseline).
    + intros Hno. apply Forall_forall. intros cf Hcf.
      apply elem_of_replicate in Hcf as [-> _]. split; [done|].
      intros i x y Hx Hy. assert (x = y) as -> by congruence.
      apply sign_matches_self. intros ->. apply Hno. by eapply list_elem_of_lookup_2.
  - intros Hin cfs Hcfs.
    destruct (prediction_consistency_spec baseline cfs) as (q & Hq & _ & [_ Hle] & Hone);
      [done | done |].
    exists q. split; [done|].
    destruct (Qlt_le_dec q 1) as [Hlt | Hge]; [done|].
    assert (Heq : (q == 1)%Q) by (apply Qle_antisym; done).
    apply Hone in Heq. destruct cfs as [|cf cfs]; [done|].
    inversion Heq as [|? ? Hfirst _]; subst. by apply (Hnan Hin cf) in Hfirst.
Qed.

Lemma prediction_consistency_nan_witness :
  exists q, Metrics.prediction_consistency [Fin 1; NaN] [[Fin 1; NaN]] = Fin q /\ (q < 1)%Q.
Proof.
  destruct (prediction_consistency_nan [Fin 1; NaN]) as [_ Hbelow]; [discriminate|].
  apply Hbelow; [|discriminate]. apply elem_of_cons. right. apply elem_of_cons. by left.
Defined.




(** ** counterfactual.py *)

Section GeneratorShapes.
Context `{Runtime}.
Import Counterfactual.

Lemma draw_normals_length n g std : length (fst (draw_normals n g std)) = n.
Proof.
  revert g. induction n as [|n IH]; intros g; simpl; [done|].
  destruct (draw_normal g std) as [x g1]. specialize (IH g1).
  destruct (draw_normals n g1 std) as [xs g2]. simpl in *. by rewrite IH.
Qed.

Lemma fneg_involutive x : fneg (fneg x) = x.
Proof.
  destruct x as [[a b]| | |]; simpl; try done.
  unfold Qopp. simpl. by rewrite Z.opp_involutive.
Qed.

Lemma scenario_at_shape config p e s g0 i :
  length (prices (scenario_at config p e s g0 i)) = length p /\
  length (earnings_dates (scenario_at config p e s g0 i)) = length e /\
  length (sentiment (scenario_at config p e s g0 i)) = length s /\
  map fneg (sentiment (scenario_at config p e s g0 i)) = s /\
  scenario_id (scenario_at config p e s g0 i) = Z.of_nat i.
Proof.
  unfold scenario_at. cbv zeta.
  pose proof (draw_normals_length (length p)
                (rng_before config (length p) g0 i) (price_noise_std config)) as Hlen.
  destruct (draw_normals _ _ _) as [noise g1]. simpl in Hlen.
  destruct (draw_integer _ _ _) as [shift g2]. simpl.
  rewrite length_zip_with, Hlen, !length_map, Nat.min_id.
  repeat split; try done.
  rewrite map_map. rewrite <- (map_id s) at 2. apply map_ext. apply fneg_involutive.
Qed.

End GeneratorShapes.

(** X4: every scenario of a returned batch has the shape of the dataset:
    as many prices, earnings dates and sentiment scores as the converted
    inputs; and negating a scenario's sentiment gives back the dataset's
    sentiment. *)
Theorem generate_counterfactuals_shapes `{Runtime}
    (dataset : gmap string value) (config : Counterfactual.CounterfactualConfig)
    (seed : Z) (batch : list Counterfactual.scenario)
    (Hrun : Counterfactual.generate_counterfactuals dataset config seed = Ok batch) :
  exists p e s,
    _to_array (dict_get dataset "prices" (VList [])) = Ok p /\
    _to_int_array (dict_get dataset "earnings_dates" (VList [])) = Ok e /\
    _to_array (dict_get dataset "sentiment" (VList [])) = Ok s /\
    forall sc, sc ∈ batch ->
      length (Counterfactual.prices sc) = length p /\
      length (Counterfactual.earnings_dates sc) = length e /\
      length (Counterfactual.sentiment sc) = length s /\
      map fneg (Counterfactual.sentiment sc) = s.
Proof.
  apply generate_counterfactuals_Ok in Hrun as (p & e & s & _ & Hp & He & Hs & ->).
  exists p, e, s. repeat (split; [done|]).
  intros sc Hsc. apply list_elem_of_fmap in Hsc as (i & -> & _).
  destruct (scenario_at_shape config p e s (seed_state seed) i) as (? & ? & ? & ? & _).
  done.
Qed.

Lemma generate_counterfactuals_shapes_witness :
  let dataset : gmap string value :=
    {[ "prices" := VList [VFloat (Fin 1); VInt 2];
       "sentiment" := VList [VFloat (Fin 0.5)] ]} in
  exists p e s,
    _to_array (H := counter_runtime) (dict_get dataset "prices" (VList [])) = Ok p /\
    _to_int_array (H := counter_runtime) (dict_get dataset "earnings_dates" (VList [])) = Ok e /\
    _to_array (H := counter_runtime) (dict_get dataset "sentiment" (VList [])) = Ok s /\
    forall sc,
      sc ∈ state_of_batch
             (Counterfactual.generate_counterfactuals (H := counter_runtime) dataset
                Counterfactual.default_config 7) ->
      length (Counterfactual.prices sc) = length p /\
      length (Counterfactual.earnings_dates sc) = length e /\
      length (Counterfactual.sentiment sc) = length s /\
      map fneg (Counterfactual.sentiment sc) = s.
Proof.
  intros dataset.
  apply (generate_counterfactuals_shapes (H := counter_runtime) dataset
           Counterfactual.default_config 7).
  vm_compute. reflexivity.
Defined.

(** X5: how [generate_counterfactuals] fails.  A negative seed raises
    [ValueError] whatever the rest is.  With a good seed and convertible
    inputs, a scenario count of 0 or less returns the empty batch even under
    a configuration numpy would refuse, and a positive count under a
    negative noise scale or a negative shift range raises [ValueError]. *)
Theorem generate_counterfactuals_errors `{Runtime}
    (dataset : gmap string value) (config : Counterfactual.CounterfactualConfig) (seed : Z) :
  (seed < 0 ->
   exists msg, Counterfactual.generate_counterfactuals dataset config seed
               = Raise (ValueError msg)) /\
  (forall p e s,
     0 <= seed ->
     _to_array (dict_get dataset "prices" (VList [])) = Ok p ->
     _to_int_array (dict_get dataset "earnings_dates" (VList [])) = Ok e ->
     _to_array (dict_get dataset "sentiment" (VList [])) = Ok s ->
     (Counterfactual.scenarios config <= 0 ->
      Counterfactual.generate_counterfactuals dataset config seed = Ok []) /\
     (0 < Counterfactual.scenarios config ->
      ~ Counterfactual.valid_config config ->
      exists msg, Counterfactual.generate_counterfactuals dataset config seed
                  = Raise (ValueError msg))).
Proof.
  split.
  - intros Hseed. unfold Counterfactual.generate_counterfactuals, default_rng.
    apply Z.ltb_lt in Hseed. rewrite Hseed. by eexists.
  - intros p e s Hseed Hp He Hs.
    unfold Counterfactual.generate_counterfactuals, default_rng.
    apply Z.ltb_ge in Hseed. rewrite Hseed. cbn [mbind result_bind].
    rewrite Hp. cbn [mbind result_bind]. rewrite He. cbn [mbind result_bind].
    rewrite Hs. cbn [mbind result_bind]. unfold Counterfactual.py_range.
    split.
    + intros Hcount. rewrite Z2Nat.nonpos by done. reflexivity.
    + intros Hcount Hbad.
      destruct (Z.to_nat (Counterfactual.scenarios config)) as [|n] eqn:Hn; [lia|].
      cbn [seq map fold_left].
      unfold Counterfactual.cf_step at 2, rng_normal, rng_integers.
      cbn [mbind result_bind].
      destruct (flt (Counterfactual.price_noise_std config) (Fin 0)) eqn:Hstd.
      { cbn [mbind result_bind]. rewrite fold_cf_step_Raise. by eexists. }
      destruct (draw_normals _ _ _) as [noise g1]. cbn [mbind result_bind].
      destruct (Z.leb _ _) eqn:Hrange.
      { cbn [mbind result_bind]. rewrite fold_cf_step_Raise. by eexists. }
      exfalso. apply Hbad. split; [done|]. apply Z.leb_gt in Hrange. lia.
Qed.

Lemma generate_counterfactuals_errors_witness :
  (exists msg, Counterfactual.generate_counterfactuals (H := counter_runtime) ∅
                 Counterfactual.default_config (-1) = Raise (ValueError msg)) /\
  Counterfactual.generate_counterfactuals (H := counter_runtime) ∅
    {| Counterfactual.scenarios := 0; Counterfactual.price_noise_std := Fin (-1);
       Counterfactual.earnings_shift_days := -2 |} 7 = Ok [] /\
  (exists msg, Counterfactual.generate_counterfactuals (H := counter_runtime) ∅
                 {| Counterfactual.scenarios := 1; Counterfactual.price_noise_std := Fin 0.01;
                    Counterfactual.earnings_shift_days := -2 |} 7 = Raise (ValueError msg)).
Proof.
  split; [|split].
  - apply (generate_counterfactuals_errors (H := counter_runtime)). reflexivity.
  - apply (generate_counterfactuals_errors (H := counter_runtime) ∅ _ 7) with [] [] [];
      try reflexivity; simpl; try lia.
  - apply (generate_counterfactuals_errors (H := counter_runtime) ∅ _ 7) with [] [] [];
      try reflexivity; simpl; try lia.
    intros [_ Hshift]. simpl in Hshift. lia.
Defined.

(** X6: scenario [i] does not depend on how many scenarios are asked for:
    the batch for a count is a prefix of the batch for any larger count,
    the seed, the dataset and the rest of the configuration being the
    same. *)
Theorem generate_counterfactuals_prefix `{Runtime}
    (dataset : gmap string value) (config : Counterfactual.CounterfactualConfig)
    (seed more : Z) (batch batch' : list Counterfactual.scenario)
    (Hmore : 0 <= more)
    (Hrun : Counterfactual.generate_counterfactuals dataset config seed = Ok batch)
    (Hrun' : Counterfactual.generate_counterfactuals dataset
               {| Counterfactual.scenarios := Counterfactual.scenarios config + more;
                  Counterfactual.price_noise_std := Counterfactual.price_noise_std config;
                  Counterfactual.earnings_shift_days :=
                    Counterfactual.earnings_shift_days config |} seed = Ok batch') :
  batch `prefix_of` batch'.
Proof.
  apply generate_counterfactuals_Ok in Hrun as (p & e & s & _ & Hp & He & Hs & ->).
  apply generate_counterfactuals_Ok in Hrun' as (p' & e' & s' & _ & Hp' & He' & Hs' & ->).
  rewrite Hp in Hp'. rewrite He in He'. rewrite Hs in Hs'.
  injection Hp' as <-. injection He' as <-. injection Hs' as <-.
  cbn [Counterfactual.scenarios].
  set (n := Z.to_nat (Counterfactual.scenarios config)).
  set (n' := Z.to_nat (Counterfactual.scenarios config + more)).
  assert (Hle : (n <= n')%nat) by (unfold n, n'; lia).
  replace n' with (n + (n' - n))%nat by lia.
  rewrite seq_app, map_app. eexists.
  f_equal. apply map_ext_in. intros i _.
  unfold Counterfactual.scenario_at. cbn [Counterfactual.price_noise_std
    Counterfactual.earnings_shift_days].
  assert (Hg : forall j, Counterfactual.rng_before
                 {| Counterfactual.scenarios := Counterfactual.scenarios config + more;
                    Counterfactual.price_noise_std := Counterfactual.price_noise_std config;
                    Counterfactual.earnings_shift_days :=
                      Counterfactual.earnings_shift_days config |}
                 (length p) (seed_state seed) j
               = Counterfactual.rng_before config (length p) (seed_state seed) j).
  { induction j as [|j IH]; [done|]. cbn [Counterfactual.rng_before
      Counterfactual.price_noise_std Counterfactual.earnings_shift_days]. by rewrite IH. }
  by rewrite Hg.
Qed.

Lemma generate_counterfactuals_prefix_witness :
  state_of_batch (Counterfactual.generate_counterfactuals (H := counter_runtime) ∅
    {| Counterfactual.scenarios := 2; Counterfactual.price_noise_std := Fin 0.01;
       Counterfactual.earnings_shift_days := 3 |} 7)
  `prefix_of`
  state_of_batch (Counterfactual.generate_counterfactuals (H := counter_runtime) ∅
    {| Counterfactual.scenarios := 2 + 3; Counterfactual.price_noise_std := Fin 0.01;
       Counterfactual.earnings_shift_days := 3 |} 7).
Proof.
  apply (generate_counterfactuals_prefix (H := counter_runtime) ∅
           {| Counterfactual.scenarios := 2; Counterfactual.price_noise_std := Fin 0.01;
              Counterfactual.earnings_shift_days := 3 |} 7 3);
    [lia | vm_compute; reflexivity | vm_compute; reflexivity].
Defined.

(** ** agents.py and tools.py *)

Lemma filter_restricted (symbols : list string) :
  filter (fun s => s ∈ Tools.restricted) symbols = [].
Proof.
  induction symbols as [|s symbols IH]; [done|].
  rewrite filter_cons. destruct (decide _) as [Hin|_]; [|done].
  unfold Tools.restricted in Hin. by apply elem_of_nil in Hin.
Qed.

Lemma validate_tool_access_Ok config tool :
  validate_tool_access config tool = Ok tt <-> tool ∈ allowed_tools config.
Proof.
  unfold validate_tool_access. destruct (bool_decide _) eqn:Hd.
  - apply bool_decide_eq_true in Hd. done.
  - apply bool_decide_eq_false in Hd. split; [discriminate | done].
Qed.

Lemma validate_tool_access_Raise config tool :
  tool ∉ allowed_tools config ->
  exists msg, validate_tool_access config tool = Raise (ToolSafetyError msg).
Proof.
  intros Hno. unfold validate_tool_access.
  rewrite bool_decide_eq_false_2 by done. by eexists.
Qed.

(** X7: the compliance review of the compliance officer never fails on a
    symbol, since no symbol is restricted, and passes exactly when the list
    of trades is empty; an agent whose allow-list lacks one of the two
    checks raises [ToolSafetyError] instead of reviewing. *)
Theorem compliance_review_status
    (symbols : list string) (trades : list (gmap string value)) :
  (exists report symbol_report wash_report,
     ComplianceOfficerAgent.review COMPLIANCE symbols trades = Ok report /\
     report !! "symbol_report" = Some (VDict symbol_report) /\
     symbol_report !! "status" = Some (VStr "pass") /\
     symbol_report !! "violations" = Some (VList []) /\
     report !! "wash_sale_report" = Some (VDict wash_report) /\
     (wash_report !! "status" = Some (VStr "pass") <-> trades = []) /\
     (report !! "status" = Some (VStr "pass") <-> trades = []) /\
     (report !! "status" = Some (VStr "fail") <-> trades <> [])) /\
  (forall config,
     "check_restricted_symbols" ∉ allowed_tools config \/
     "check_wash_sale_patterns" ∉ allowed_tools config ->
     exists msg,
       ComplianceOfficerAgent.review config symbols trades = Raise (ToolSafetyError msg)).
Proof.
  split.
  - unfold ComplianceOfficerAgent.review.
    change (validate_tool_access COMPLIANCE "check_restricted_symbols") with (Ok tt).
    change (validate_tool_access COMPLIANCE "check_wash_sale_patterns") with (Ok tt).
    cbn [mbind result_bind]. cbv zeta.
    unfold Tools.check_restricted_symbols, Tools.check_wash_sale_patterns.
    rewrite filter_restricted. unfold dict_item.
    destruct trades as [|t trades].
    + eexists _, _, _. split; [reflexivity|]. repeat split; done.
    + eexists _, _, _. split; [reflexivity|]. repeat split; done.
  - intros config Hlack. unfold ComplianceOfficerAgent.review.
    destruct (decide ("check_restricted_symbols" ∈ allowed_tools config)) as [Hin|Hout].
    + apply validate_tool_access_Ok in Hin. rewrite Hin. cbn [mbind result_bind].
      destruct Hlack as [Hlack|Hlack].
      { apply validate_tool_access_Ok in Hin. done. }
      destruct (validate_tool_access_Raise _ _ Hlack) as [msg ->]. by exists msg.
    + destruct (validate_tool_access_Raise _ _ Hout) as [msg ->]. by exists msg.
Qed.

Lemma compliance_review_status_witness :
  exists msg,
    ComplianceOfficerAgent.review PLANNER ["AAPL"] [] = Raise (ToolSafetyError msg).
Proof.
  destruct (compliance_review_status ["AAPL"] []) as [_ Hgate].
  apply Hgate. left. unfold PLANNER. simpl. apply not_elem_of_nil.
Defined.

(** X8: the executor consults a tool only after the allow-list admits
    it.  Artifacts are returned only by an agent allowed all three tools;
    an agent not allowed [fetch_market_data] raises [ToolSafetyError] in
    every world alike; and the error of a tool that fails is the error of
    [execute]. *)
Theorem execute_tool_gate (config : AgentConfig) (w : world) (plan0 : list string) :
  (forall artifacts,
     ExecutorAgent.execute config w plan0 = Ok artifacts ->
     "fetch_market_data" ∈ allowed_tools config /\
     "clean_data" ∈ allowed_tools config /\
     "run_analysis" ∈ allowed_tools config) /\
  ("fetch_market_data" ∉ allowed_tools config ->
   exists msg, forall w',
     ExecutorAgent.execute config w' plan0 = Raise (ToolSafetyError msg)) /\
  (forall market,
     "fetch_market_data" ∈ allowed_tools config ->
     fetch_market_data w ExecutorAgent.market_request = Ok market ->
     "clean_data" ∉ allowed_tools config ->
     exists msg, forall w',
       fetch_market_data w' ExecutorAgent.market_request = Ok market ->
       ExecutorAgent.execute config w' plan0 = Raise (ToolSafetyError msg)) /\
  (forall e,
     "fetch_market_data" ∈ allowed_tools config ->
     fetch_market_data w ExecutorAgent.market_request = Raise e ->
     ExecutorAgent.execute config w plan0 = Raise e).
Proof.
  split; [|split; [|split]].
  - intros artifacts Hex. unfold ExecutorAgent.execute in Hex. cbv zeta in Hex.
    apply bind_Ok in Hex as ([] & Hfetch & Hex).
    apply bind_Ok in Hex as (market & _ & Hex).
    apply bind_Ok in Hex as ([] & Hclean & Hex).
    apply bind_Ok in Hex as (cleaned & _ & Hex).
    apply bind_Ok in Hex as ([] & Hrun & _).
    by rewrite <- !validate_tool_access_Ok.
  - intros Hout. destruct (validate_tool_access_Raise _ _ Hout) as [msg Hmsg].
    exists msg. intros w'. unfold ExecutorAgent.execute. cbv zeta. by rewrite Hmsg.
  - intros market Hin _ Hout.
    destruct (validate_tool_access_Raise _ _ Hout) as [msg Hmsg].
    exists msg. intros w' Hfetch. unfold ExecutorAgent.execute. cbv zeta.
    apply validate_tool_access_Ok in Hin. rewrite Hin. cbn [mbind result_bind].
    rewrite Hfetch. cbn [mbind result_bind]. by rewrite Hmsg.
  - intros e Hin Hfetch. unfold ExecutorAgent.execute. cbv zeta.
    apply validate_tool_access_Ok in Hin. rewrite Hin. cbn [mbind result_bind].
    by rewrite Hfetch.
Qed.

(** The critic's configuration allows no tool: it cannot run the
    executor's work. *)
Lemma execute_tool_gate_witness :
  exists msg, forall w',
    ExecutorAgent.execute CRITIC w' ["step"] = Raise (ToolSafetyError msg).
Proof.
  destruct (execute_tool_gate CRITIC paused_world ["step"]) as (_ & Hgate & _).
  apply Hgate. unfold CRITIC. simpl. apply not_elem_of_nil.
Defined.

(** X9: the artifacts the executor returns have exactly six entries; the
    plan is stored as it was given, the request is the fixed request, the
    market data are the fetched data with a "signals" entry laid over them,
    and "analysis" and "risk_metrics" are the entries of the analysis, an
    empty dictionary standing in for a missing one. *)
Theorem execute_artifacts_keys
    (w : world) (plan0 : list string) (artifacts : gmap string value)
    (Hrun : ExecutorAgent.execute EXECUTOR w plan0 = Ok artifacts) :
  dom artifacts
    = ({[ "plan"; "code_snippet"; "market_data_request";
          "market_data"; "analysis"; "risk_metrics" ]} : gset string) /\
  artifacts !! "plan" = Some (VList (map VStr plan0)) /\
  artifacts !! "market_data_request" = Some (VDict ExecutorAgent.market_request) /\
  exists market cleaned analysis,
    fetch_market_data w ExecutorAgent.market_request = Ok market /\
    clean_data w market = Ok cleaned /\
    run_analysis w cleaned = Ok analysis /\
    artifacts !! "market_data"
      = Some (VDict (<["signals" := dict_get analysis "signals" (VList [])]> market)) /\
    (forall key, key <> "signals" ->
       (<["signals" := dict_get analysis "signals" (VList [])]> market) !! key = market !! key) /\
    artifacts !! "analysis" = Some (dict_get analysis "analysis" (VDict ∅)) /\
    artifacts !! "risk_metrics" = Some (dict_get analysis "risk_metrics" (VDict ∅)).
Proof.
  unfold ExecutorAgent.execute in Hrun. cbv zeta in Hrun.
  destruct executor_tools_allowed as (Hf & Hc & Hr).
  rewrite Hf, Hc, Hr in Hrun. cbn [mbind result_bind] in Hrun.
  apply bind_Ok in Hrun as (market & Hmarket & Hrun).
  apply bind_Ok in Hrun as (cleaned & Hcleaned & Hrun).
  apply bind_Ok in Hrun as (analysis & Hanalysis & Hrun).
  injection Hrun as <-.
  split; [|split; [|split]].
  - rewrite !dom_insert_L, dom_singleton_L. set_solver.
  - rewrite !lookup_insert_ne by done. reflexivity.
  - rewrite !lookup_insert_ne by done. rewrite lookup_insert_eq. reflexivity.
  - exists market, cleaned, analysis.
    do 3 (split; [done|]).
    split; [by rewrite !lookup_insert_ne, lookup_insert_eq by done|].
    split; [intros key Hkey; by rewrite lookup_insert_ne|].
    split; [by rewrite lookup_insert_ne, lookup_insert_eq by done|].
    by rewrite lookup_insert_eq.
Qed.

Lemma execute_artifacts_keys_witness :
  let artifacts :=
    match ExecutorAgent.execute EXECUTOR (quiet_world (Fin 0) (Fin 1)) ["step"] with
    | Ok a => a
    | Raise _ => ∅
    end in
  dom artifacts
    = ({[ "plan"; "code_snippet"; "market_data_request";
          "market_data"; "analysis"; "risk_metrics" ]} : gset string) /\
  artifacts !! "plan" = Some (VList [VStr "step"]).
Proof.
  intros artifacts.
  destruct (execute_artifacts_keys (quiet_world (Fin 0) (Fin 1)) ["step"] artifacts)
    as (Hdom & Hplan & _); [vm_compute; reflexivity|].
  split; assumption.
Defined.

Lemma prefix_spec (p s : string) :
  String.prefix p s = true <-> exists rest, s = p +:+ rest.
Proof.
  revert s. induction p as [|c p IH]; intros [|d s]; simpl.
  - split; [intros _; by exists EmptyString | done].
  - split; [intros _; by exists (String d s) | done].
  - split; [done | intros [rest [=]]].
  - destruct (ascii_dec c d) as [->|Hne].
    + rewrite IH. split; intros [rest Hrest]; exists rest;
        [by rewrite Hrest | by injection Hrest].
    + split; [done | intros [rest [= ? _]]; done].
Qed.

(** [needle in hay] holds exactly when [hay] is some text, then [needle],
    then some text. *)
Lemma str_contains_spec (needle hay : string) :
  str_contains needle hay = true <-> exists a b, hay = a +:+ needle +:+ b.
Proof.
  induction hay as [|c hay IH]; cbn [str_contains].
  - rewrite orb_false_r, prefix_spec. split.
    + intros [rest Hrest]. by exists EmptyString, rest.
    + intros ([|x a] & b & Hab); [by exists b | discriminate].
  - rewrite orb_true_iff, prefix_spec, IH. split.
    + intros [[rest Hrest] | (a & b & Hab)].
      * by exists EmptyString, rest.
      * exists (String c a), b. simpl. by rewrite Hab.
    + intros ([|x a] & b & Hab).
      * left. by exists b.
      * right. simpl in Hab. injection Hab as -> ->. by exists a, b.
Qed.

Lemma append_cons (c : ascii) (a b : string) : String c a +:+ b = String c (a +:+ b).
Proof. reflexivity. Qed.

Lemma py_lower_append (a b : string) : py_lower (a +:+ b) = py_lower a +:+ py_lower b.
Proof.
  induction a as [|x a IH]; [done|].
  rewrite append_cons. cbn [py_lower]. by rewrite append_cons, IH.
Qed.

(** A split of the lowered text comes from a split of the text. *)
Lemma py_lower_split (s t u : string) :
  py_lower s = t +:+ u ->
  exists s1 s2, s = s1 +:+ s2 /\ py_lower s1 = t /\ py_lower s2 = u.
Proof.
  revert s. induction t as [|z t IH]; intros s Hs.
  - by exists EmptyString, s.
  - destruct s as [|y s]; [discriminate Hs|].
    rewrite append_cons in Hs. cbn [py_lower] in Hs. injection Hs as Hy Hs.
    destruct (IH s Hs) as (s1 & s2 & -> & H1 & H2).
    exists (String y s1), s2. rewrite append_cons. cbn [py_lower]. by rewrite Hy, H1.
Qed.

(** X10: on code text the critic agent always returns a report; it vetoes
    exactly when the text contains "shift(-" or, in any mix of upper and
    lower case, "future"; a veto comes with score and confidence 0.4, no
    veto with 0.9; an artifact mapping without code text is not vetoed. *)
Theorem critic_veto_iff_pattern (artifacts : gmap string value) (code : string)
    (Hcode : dict_get artifacts "code_snippet" (VStr "") = VStr code) :
  exists report (veto : bool),
    CriticAgent.evaluate artifacts = Ok report /\
    report !! "veto" = Some (VBool veto) /\
    (veto = true <->
       (exists a b, code = a +:+ "shift(-" +:+ b) \/
       (exists a word b, code = a +:+ word +:+ b /\ py_lower word = "future")) /\
    report !! "look_ahead_bias" = Some (VStr (if veto then "high" else "low")) /\
    report !! "critique_score" = Some (VFloat (if veto then Fin 0.4 else Fin 0.9)) /\
    report !! "confidence" = report !! "critique_score" /\
    (artifacts !! "code_snippet" = None -> veto = false).
Proof.
  set (found := str_contains "shift(-" code || str_contains "future" (py_lower code)).
  assert (Hfound : CriticAgent.look_ahead_pattern
                     (dict_get artifacts "code_snippet" (VStr "")) = Ok found).
  { by rewrite Hcode. }
  assert (Hlower : str_contains "future" (py_lower code) = true <->
            exists a word b, code = a +:+ word +:+ b /\ py_lower word = "future").
  { rewrite str_contains_spec. split.
    - intros (a' & b' & Hab).
      destruct (py_lower_split _ _ _ Hab) as (a & rest & -> & _ & Hrest).
      destruct (py_lower_split _ _ _ Hrest) as (word & b & -> & Hword & _).
      by exists a, word, b.
    - intros (a & word & b & -> & Hword).
      exists (py_lower a), (py_lower b). by rewrite !py_lower_append, Hword. }
  unfold CriticAgent.evaluate. rewrite Hfound. cbn [mbind result_bind].
  eexists _, found. split; [reflexivity|].
  split; [by destruct found|]. split.
  - unfold found. rewrite orb_true_iff, str_contains_spec, Hlower. done.
  - split; [by destruct found|]. split; [by destruct found|]. split; [by destruct found|].
    intros Hnone. unfold dict_get in Hcode. rewrite Hnone in Hcode. injection Hcode as <-.
    reflexivity.
Qed.

Lemma critic_veto_iff_pattern_witness :
  exists report,
    CriticAgent.evaluate {[ "code_snippet" := VStr "x = y.shift(-1) # FuTuRe data" ]} = Ok report /\
    report !! "veto" = Some (VBool true).
Proof.
  assert (Hcode : dict_get {[ "code_snippet" := VStr "x = y.shift(-1) # FuTuRe data" ]}
                     "code_snippet" (VStr "")
                   = VStr "x = y.shift(-1) # FuTuRe data") by (vm_compute; reflexivity).
  destruct (critic_veto_iff_pattern _ _ Hcode)
    as (report & veto & Hev & Hveto & Hiff & _).
  exists report. split; [exact Hev|]. rewrite Hveto.
  assert (veto = true) as ->; [|reflexivity].
  apply Hiff. right. exists "x = y.shift(-1) # ", "FuTuRe", " data". split; reflexivity.
Defined.
